(** * objsto: a minimal S3 client with SigV4 request signing

    A shallow embedding of [objsto.go] (package objsto) and of the parts of
    Go's standard library it calls, followed by the properties of the
    package that its specification states.

    Conventions.
    - A Go [string] is a Rocq [string] (a sequence of 8-bit characters); a Go
      [[]byte] is a [list Byte.byte]; [[]byte(s)] and [string(b)] are
      [list_byte_of_string] and [string_of_list_byte].
    - A Go [map] is a [gmap].
    - An [error] is the tree [pkg/errors] builds; [Error] renders it.
    - Mutable objects reached through interfaces (the payload stream, the
      clock, the logger, the HTTP transport) live in an explicit [World]. *)

From Stdlib Require Import ZArith List Strings.String Strings.Ascii Strings.Byte Bool Lia.
From Stdlib Require Import DecimalString.
From stdpp Require Import base option strings gmap functions.
Import ListNotations.

Local Open Scope Z_scope.

(** ** crypto/sha256 (FIPS 180-4), on 32-bit words held in [Z] *)

Module SHA256.

Definition word := Z.

Definition wrap (x : Z) : word := x mod 2 ^ 32.

Definition add (x y : word) : word := wrap (x + y).

Definition rotr (n : Z) (x : word) : word :=
  Z.lor (Z.shiftr x n) (wrap (Z.shiftl x (32 - n))).

Definition shr (n : Z) (x : word) : word := Z.shiftr x n.

Definition Ch (x y z : word) : word :=
  Z.lxor (Z.land x y) (Z.land (Z.lnot x) z).

Definition Maj (x y z : word) : word :=
  Z.lxor (Z.lxor (Z.land x y) (Z.land x z)) (Z.land y z).

Definition bsig0 (x : word) : word :=
  Z.lxor (Z.lxor (rotr 2 x) (rotr 13 x)) (rotr 22 x).

Definition bsig1 (x : word) : word :=
  Z.lxor (Z.lxor (rotr 6 x) (rotr 11 x)) (rotr 25 x).

Definition ssig0 (x : word) : word :=
  Z.lxor (Z.lxor (rotr 7 x) (rotr 18 x)) (shr 3 x).

Definition ssig1 (x : word) : word :=
  Z.lxor (Z.lxor (rotr 17 x) (rotr 19 x)) (shr 10 x).

(** The constants are defined as FIPS 180-4 does: the first 32 bits of the
    fractional parts of the cube roots (for [K]) and of the square roots
    (for [H0]) of the first primes. *)
Definition primes : list Z :=
  [ 2; 3; 5; 7; 11; 13; 17; 19; 23; 29; 31; 37; 41; 43; 47; 53;
    59; 61; 67; 71; 73; 79; 83; 89; 97; 101; 103; 107; 109; 113; 127; 131;
    137; 139; 149; 151; 157; 163; 167; 173; 179; 181; 191; 193; 197; 199; 211; 223;
    227; 229; 233; 239; 241; 251; 257; 263; 269; 271; 277; 281; 283; 293; 307; 311 ].

(** The largest [r] below [2 ^ bits] with [r ^ 3 <= n], one bit at a time. *)
Fixpoint cube_root (bits : nat) (n r : Z) : Z :=
  match bits with
  | O => r
  | S b =>
      let r' := r + 2 ^ Z.of_nat b in
      cube_root b n (if r' * r' * r' <=? n then r' else r)
  end.

Definition K : list word :=
  Eval vm_compute in map (fun p => wrap (cube_root 36 (p * 2 ^ 96) 0)) primes.

Definition H0 : list word :=
  Eval vm_compute in map (fun p => wrap (Z.sqrt (p * 2 ^ 64))) (firstn 8 primes).

(** Big-endian packing. *)
Fixpoint be_bytes (n : nat) (x : Z) : list Z :=
  match n with
  | O => []
  | S n' => (Z.shiftr x (8 * Z.of_nat n')) mod 256 :: be_bytes n' x
  end.

Definition be_word (bs : list Z) : word :=
  fold_left (fun acc b => acc * 256 + b) bs 0.

(** Message padding: a 1 bit, zeros, and the bit length on 64 bits. *)
Definition pad (msg : list Z) : list Z :=
  let len := Z.of_nat (length msg) in
  msg ++ [0x80] ++ repeat 0 (Z.to_nat ((55 - len) mod 64))
      ++ be_bytes 8 ((8 * len) mod 2 ^ 64).

Fixpoint chunks (fuel : nat) (size : nat) (l : list Z) : list (list Z) :=
  match fuel with
  | O => []
  | S fuel' =>
      match l with
      | [] => []
      | _ => firstn size l :: chunks fuel' size (skipn size l)
      end
  end.

Definition split (size : nat) (l : list Z) : list (list Z) :=
  chunks (length l) size l.

(** The message schedule W_0 .. W_63 of one block. *)
Fixpoint extend (n : nat) (w : list word) : list word :=
  match n with
  | O => w
  | S n' =>
      let t := length w in
      let at_ i := nth (t - i) w 0 in
      extend n' (w ++ [add (add (ssig1 (at_ 2%nat)) (at_ 7%nat))
                           (add (ssig0 (at_ 15%nat)) (at_ 16%nat))])
  end.

Definition schedule (block : list Z) : list word :=
  extend 48 (map be_word (split 4 block)).

Record regs := Regs { ra : word; rb : word; rc : word; rd : word;
                      re : word; rf : word; rg : word; rh : word }.

Definition round (s : regs) (kw : word * word) : regs :=
  let t1 := add (add (add (add (rh s) (bsig1 (re s))) (Ch (re s) (rf s) (rg s)))
                     (fst kw)) (snd kw) in
  let t2 := add (bsig0 (ra s)) (Maj (ra s) (rb s) (rc s)) in
  Regs (add t1 t2) (ra s) (rb s) (rc s) (add (rd s) t1) (re s) (rf s) (rg s).

Definition regs_of (h : list word) : regs :=
  Regs (nth 0 h 0) (nth 1 h 0) (nth 2 h 0) (nth 3 h 0)
       (nth 4 h 0) (nth 5 h 0) (nth 6 h 0) (nth 7 h 0).

Definition words_of (s : regs) : list word :=
  [ra s; rb s; rc s; rd s; re s; rf s; rg s; rh s].

Definition compress (h : list word) (block : list Z) : list word :=
  let s := fold_left round (combine K (schedule block)) (regs_of h) in
  map (fun p => add (fst p) (snd p)) (combine h (words_of s)).

Definition digest (msg : list Z) : list Z :=
  flat_map (be_bytes 4) (fold_left compress (split 64 (pad msg)) H0).

Definition Z_of_byte (b : byte) : Z := Z.of_N (Byte.to_N b).

Definition byte_of_Z (z : Z) : byte :=
  match Byte.of_N (Z.to_N (z mod 256)) with
  | Some b => b
  | None => x00
  end.

(** [sha256.Sum256], on Go byte slices. *)
Definition Sum256 (data : list byte) : list byte :=
  map byte_of_Z (digest (map Z_of_byte data)).

Definition BlockSize : nat := 64.

End SHA256.


(** ** encoding/hex, hash.Hash, crypto/hmac *)

Definition hexdigit (n : Z) : ascii :=
  ascii_of_N (Z.to_N (if n <? 10 then 48 + n else 87 + n)).

(** [hex.EncodeToString]: two lowercase digits per byte. *)
Fixpoint hex_EncodeToString (src : list byte) : string :=
  match src with
  | [] => EmptyString
  | b :: rest =>
      let v := SHA256.Z_of_byte b in
      String (hexdigit (v / 16)) (String (hexdigit (v mod 16)) (hex_EncodeToString rest))
  end.

(** A running hash ([hash.Hash]) is the bytes written to it so far. *)
Record Hash := { written : list byte }.

Definition sha256_New : Hash := {| written := [] |}.

Definition Hash_Write (h : Hash) (p : list byte) : Hash :=
  {| written := written h ++ p |}.

(** [h.Sum(b)] appends the digest of what was written to [b]. *)
Definition Hash_Sum (h : Hash) (b : list byte) : list byte :=
  b ++ SHA256.Sum256 (written h).

(** [hmac.New(sha256.New, key)]: a key longer than a block is hashed first,
    the key is zero-padded to a block, and the inner hash starts with the
    key xor 0x36. *)
Record HMAC := { opad : list byte; inner : Hash }.

Definition xor_pad (c : Z) (key : list byte) : list byte :=
  map (fun b => SHA256.byte_of_Z (Z.lxor (SHA256.Z_of_byte b) c))
      (key ++ repeat x00 (SHA256.BlockSize - length key)).

Definition hmac_New (key : list byte) : HMAC :=
  let key' :=
    if (SHA256.BlockSize <? length key)%nat
    then Hash_Sum (Hash_Write sha256_New key) []
    else key in
  {| opad := xor_pad 0x5c key';
     inner := Hash_Write sha256_New (xor_pad 0x36 key') |}.

Definition HMAC_Write (h : HMAC) (p : list byte) : HMAC :=
  {| opad := opad h; inner := Hash_Write (inner h) p |}.

Definition HMAC_Sum (h : HMAC) (b : list byte) : list byte :=
  Hash_Sum (Hash_Write (Hash_Write sha256_New (opad h)) (Hash_Sum (inner h) [])) b.

(** ** pkg/errors and fmt *)

(** An error value: one made from a message ([errors.New], [errors.Errorf],
    or an error of another package), or one wrapped with a message
    ([errors.Wrap], [errors.Wrapf]). *)
Inductive error : Type :=
| errNew (msg : string)
| errWrap (cause : error) (msg : string).

(** [err.Error()] *)
Fixpoint Error (e : error) : string :=
  match e with
  | errNew msg => msg
  | errWrap cause msg => msg +:+ ": " +:+ Error cause
  end.

(** [http.Header] is [map[string][]string]. *)
Abbreviation Header := (gmap string (list string)).

Fixpoint insert_sorted (kv : string * list string) (l : list (string * list string))
  : list (string * list string) :=
  match l with
  | [] => [kv]
  | kv' :: rest =>
      if String.leb (fst kv) (fst kv') then kv :: l else kv' :: insert_sorted kv rest
  end.

(** fmt prints a map with its keys in increasing order. *)
Definition sorted_entries (h : Header) : list (string * list string) :=
  fold_right insert_sorted [] (map_to_list h).

Fixpoint join (sep : string) (l : list string) : string :=
  match l with
  | [] => EmptyString
  | [x] => x
  | x :: rest => x +:+ sep +:+ join sep rest
  end.

(** [%s] / [%v] of a [map[string][]string]: [map[k1:[a b] k2:[c]]]. *)
Definition format_Header (h : Header) : string :=
  "map[" +:+ join " " (map (fun kv => fst kv +:+ ":[" +:+ join " " (snd kv) +:+ "]")
                           (sorted_entries h)) +:+ "]".

Definition format_int (n : Z) : string := NilZero.string_of_int (Z.to_int n).

Definition str1 (c : ascii) : string := String c EmptyString.

Definition hex2 (n : Z) : string :=
  String (hexdigit (n / 16)) (str1 (hexdigit (n mod 16))).

Definition dquote : string := str1 (ascii_of_N 34).

(** A continuation byte of UTF-8. *)
Definition continuation (b : Z) : bool := (128 <=? b) && (b <=? 191).

(** [utf8.DecodeRuneInString] at the head of a list of bytes: the rune and
    the number of bytes of its encoding, or [None] where Go returns
    [(RuneError, 1)]: a byte that starts no encoding, an encoding that is
    cut short or not the shortest one, a surrogate, a rune above U+10FFFF. *)
Definition decode_rune (l : list Z) : option (Z * nat) :=
  match l with
  | [] => None
  | b0 :: rest =>
      if b0 <? 128 then Some (b0, 1%nat)
      else if b0 <? 194 then None
      else if b0 <? 224 then
        match rest with
        | b1 :: _ =>
            if continuation b1
            then Some (Z.lor (Z.shiftl (Z.land b0 31) 6) (Z.land b1 63), 2%nat)
            else None
        | _ => None
        end
      else if b0 <? 240 then
        match rest with
        | b1 :: b2 :: _ =>
            let lo := if b0 =? 224 then 160 else 128 in
            let hi := if b0 =? 237 then 159 else 191 in
            if (lo <=? b1) && (b1 <=? hi) && continuation b2
            then Some (Z.lor (Z.shiftl (Z.land b0 15) 12)
                         (Z.lor (Z.shiftl (Z.land b1 63) 6) (Z.land b2 63)), 3%nat)
            else None
        | _ => None
        end
      else if b0 <? 245 then
        match rest with
        | b1 :: b2 :: b3 :: _ =>
            let lo := if b0 =? 240 then 144 else 128 in
            let hi := if b0 =? 244 then 143 else 191 in
            if (lo <=? b1) && (b1 <=? hi) && continuation b2 && continuation b3
            then Some (Z.lor (Z.shiftl (Z.land b0 7) 18)
                         (Z.lor (Z.shiftl (Z.land b1 63) 12)
                            (Z.lor (Z.shiftl (Z.land b2 63) 6) (Z.land b3 63))), 4%nat)
            else None
        | _ => None
        end
      else None
  end.

(** [strconv.IsPrint]. Up to U+00FF it is Go's test; above, Go looks the
    rune up in its Unicode tables, which are not part of this development:
    every rune above U+00FF is taken as printable. *)
Definition strconv_IsPrint (r : Z) : bool :=
  if r <=? 255
  then ((32 <=? r) && (r <=? 126)) || ((161 <=? r) && (r <=? 255) && negb (r =? 173))
  else true.

Fixpoint hex_digits (n : nat) (r : Z) : string :=
  match n with
  | O => EmptyString
  | S n' => hex_digits n' (r / 16) +:+ str1 (hexdigit (r mod 16))
  end.

(** [appendEscapedRune] for a double-quoted string; [raw] is the encoding
    of the rune. *)
Definition escaped_rune (r : Z) (raw : string) : string :=
  if (r =? 34) || (r =? 92) then "\" +:+ raw
  else if strconv_IsPrint r then raw
  else if r =? 7 then "\a"
  else if r =? 8 then "\b"
  else if r =? 12 then "\f"
  else if r =? 10 then "\n"
  else if r =? 13 then "\r"
  else if r =? 9 then "\t"
  else if r =? 11 then "\v"
  else if (r <? 32) || (r =? 127) then "\x" +:+ hex2 r
  else if r <? 65536 then "\u" +:+ hex_digits 4 r
  else "\U" +:+ hex_digits 8 r.

(** The loop of [appendQuotedWith]; [skip] counts the bytes of the rune
    in hand that are still to be passed over. *)
Fixpoint quote_runes (skip : nat) (l : list ascii) : string :=
  match l with
  | [] => EmptyString
  | c :: rest =>
      match skip with
      | S k => quote_runes k rest
      | O =>
          match decode_rune (map (fun a => Z.of_N (N_of_ascii a)) (firstn 4 l)) with
          | None => "\x" +:+ hex2 (Z.of_N (N_of_ascii c)) +:+ quote_runes 0 rest
          | Some (r, width) =>
              escaped_rune r (string_of_list_ascii (firstn width l))
                +:+ quote_runes (width - 1) rest
          end
      end
  end.

(** [strconv.Quote], which [%q] applies to a string: exact on every text
    whose runes above U+00FF are printable ones. *)
Definition strconv_Quote (x : string) : string :=
  dquote +:+ quote_runes 0 (list_ascii_of_string x) +:+ dquote.

(** The operands this package passes to the fmt functions. *)
Inductive operand : Type :=
| oString (x : string)
| oInt (n : Z)
| oHeader (h : Header).

Definition operand_type (a : operand) : string :=
  match a with
  | oString _ => "string"
  | oInt _ => "int"
  | oHeader _ => "http.Header"
  end.

Definition operand_value (a : operand) : string :=
  match a with
  | oString x => x
  | oInt n => format_int n
  | oHeader h => format_Header h
  end.

(** One verb applied to one operand; a verb that does not fit the operand
    gives Go's [%!verb(type=value)]. *)
Definition format_verb (v : ascii) (a : operand) : string :=
  match v, a with
  | "s"%char, oString x => x
  | "v"%char, _ => operand_value a
  | "q"%char, oString x => strconv_Quote x
  | "d"%char, oInt n => format_int n
  | "s"%char, oHeader h => format_Header h
  | _, _ => "%!" +:+ str1 v +:+ "(" +:+ operand_type a +:+ "=" +:+ operand_value a +:+ ")"
  end.

(** [fmt.Sprintf] for formats made of text, [%%] and one-letter verbs
    without flags, and with no more operands than verbs. *)
Fixpoint Sprintf (format : string) (args : list operand) : string :=
  match format with
  | EmptyString => EmptyString
  | String "%" EmptyString => "%!(NOVERB)"
  | String "%" (String "%" rest) => String "%" (Sprintf rest args)
  | String "%" (String v rest) =>
      match args with
      | a :: args' => format_verb v a +:+ Sprintf rest args'
      | [] => "%!" +:+ str1 v +:+ "(MISSING)" +:+ Sprintf rest []
      end
  | String c rest => String c (Sprintf rest args)
  end.

Definition errors_Errorf (format : string) (args : list operand) : error :=
  errNew (Sprintf format args).

Definition errors_Wrap (err : error) (message : string) : error :=
  errWrap err message.

Definition errors_Wrapf (err : error) (format : string) (args : list operand) : error :=
  errWrap err (Sprintf format args).

(** ** time *)

(** A [time.Time]: an instant (seconds and nanoseconds since the Unix epoch),
    the offset of its location east of UTC, in seconds, and the reading of
    the monotonic clock, in nanoseconds, when it carries one. *)
Record Time := { Unix : Z; Nsec : Z; Offset : Z; Mono : option Z }.

(** [t.UTC()]: the same instant in UTC; the monotonic reading is dropped. *)
Definition Time_UTC (t : Time) : Time :=
  {| Unix := Unix t; Nsec := Nsec t; Offset := 0; Mono := None |}.

(** A [time.Duration] is an int64 count of nanoseconds; a difference out
    of its range is replaced by the nearest bound. *)
Definition minDuration : Z := - 2 ^ 63.
Definition maxDuration : Z := 2 ^ 63 - 1.

Definition saturate (d : Z) : Z :=
  if d <? minDuration then minDuration
  else if maxDuration <? d then maxDuration
  else d.

(** [t.Sub(u)], in nanoseconds: the difference of the monotonic readings
    when both times carry one, else of the instants. *)
Definition Time_Sub (t u : Time) : Z :=
  match Mono t, Mono u with
  | Some m, Some n => saturate (m - n)
  | _, _ => saturate ((Unix t - Unix u) * 1000000000 + (Nsec t - Nsec u))
  end.

(** Year, month and day of a day count from 1970-01-01 (proleptic
    Gregorian calendar, counted in 400-year eras from 0000-03-01). *)
Definition civil (days : Z) : Z * Z * Z :=
  let z := days + 719468 in
  let era := z / 146097 in
  let doe := z mod 146097 in
  let yoe := (doe - doe / 1460 + doe / 36524 - doe / 146096) / 365 in
  let doy := doe - (365 * yoe + yoe / 4 - yoe / 100) in
  let mp := (5 * doy + 2) / 153 in
  let d := doy - (153 * mp + 2) / 5 + 1 in
  let m := if mp <? 10 then mp + 3 else mp - 9 in
  let y := yoe + era * 400 + (if m <=? 2 then 1 else 0) in
  (y, m, d).

Definition wallSeconds (t : Time) : Z := Unix t + Offset t.

Definition Time_Year (t : Time) : Z := fst (fst (civil (wallSeconds t / 86400))).
Definition Time_Month (t : Time) : Z := snd (fst (civil (wallSeconds t / 86400))).
Definition Time_Day (t : Time) : Z := snd (civil (wallSeconds t / 86400)).
Definition Time_Hour (t : Time) : Z := (wallSeconds t mod 86400) / 3600.
Definition Time_Minute (t : Time) : Z := (wallSeconds t mod 3600) / 60.
Definition Time_Second (t : Time) : Z := wallSeconds t mod 60.

Fixpoint zeros (n : nat) : string :=
  match n with
  | O => EmptyString
  | S n' => String "0" (zeros n')
  end.

(** The time package's [appendInt]: decimal, zero-padded to [width], with
    a leading minus sign for a negative number. *)
Definition appendInt (x : Z) (width : nat) : string :=
  let digits := NilZero.string_of_uint (N.to_uint (Z.abs_N x)) in
  (if x <? 0 then "-" else EmptyString)
    +:+ zeros (width - String.length digits) +:+ digits.

(** [t.Format(layout)] for layouts built from the elements [2006], [01],
    [02], [15], [04], [05] and text that holds no other layout element. *)
Fixpoint Time_Format (t : Time) (layout : string) : string :=
  match layout with
  | EmptyString => EmptyString
  | String "2" (String "0" (String "0" (String "6" rest))) =>
      appendInt (Time_Year t) 4 +:+ Time_Format t rest
  | String "0" (String "1" rest) => appendInt (Time_Month t) 2 +:+ Time_Format t rest
  | String "0" (String "2" rest) => appendInt (Time_Day t) 2 +:+ Time_Format t rest
  | String "1" (String "5" rest) => appendInt (Time_Hour t) 2 +:+ Time_Format t rest
  | String "0" (String "4" rest) => appendInt (Time_Minute t) 2 +:+ Time_Format t rest
  | String "0" (String "5" rest) => appendInt (Time_Second t) 2 +:+ Time_Format t rest
  | String c rest => String c (Time_Format t rest)
  end.

(** ** net/textproto and net/http headers *)

Definition is_lower (c : ascii) : bool :=
  let n := N_of_ascii c in ((97 <=? n) && (n <=? 122))%N.

Definition is_upper (c : ascii) : bool :=
  let n := N_of_ascii c in ((65 <=? n) && (n <=? 90))%N.

Definition is_digit (c : ascii) : bool :=
  let n := N_of_ascii c in ((48 <=? n) && (n <=? 57))%N.

(** The [tchar] of RFC 7230: what a header field name and a method are
    made of. *)
Definition isTokenByte (c : ascii) : bool :=
  is_lower c || is_upper c || is_digit c
  || existsb (Ascii.eqb c) (list_ascii_of_string "!#$%&'*+-.^_`|~").

Definition to_upper (c : ascii) : ascii :=
  if is_lower c then ascii_of_N (N_of_ascii c - 32) else c.

Definition to_lower (c : ascii) : ascii :=
  if is_upper c then ascii_of_N (N_of_ascii c + 32) else c.

Fixpoint canonical_case (upper : bool) (x : string) : string :=
  match x with
  | EmptyString => EmptyString
  | String c rest =>
      let c' := if upper then to_upper c else to_lower c in
      String c' (canonical_case (Ascii.eqb c' "-") rest)
  end.

(** [textproto.CanonicalMIMEHeaderKey]: a key that is not a token is
    returned as it is. *)
Definition CanonicalMIMEHeaderKey (x : string) : string :=
  if forallb isTokenByte (list_ascii_of_string x) then canonical_case true x else x.

(** [h.Set(key, value)] *)
Definition Header_Set (h : Header) (key value : string) : Header :=
  <[CanonicalMIMEHeaderKey key := [value]]> h.

(** [h.Get(key)]: the first value of the key, or the empty string. *)
Definition Header_Get (h : Header) (key : string) : string :=
  match h !! CanonicalMIMEHeaderKey key with
  | Some (v :: _) => v
  | _ => EmptyString
  end.

(** ** io: payload sources and response bodies *)

(** The dynamic type of an [io.ReadSeeker]: net/http treats a
    [*bytes.Reader] and a [*strings.Reader] apart from every other type
    (a file, a section reader, a type of the caller's). *)
Inductive ReaderType : Type := bytes_Reader | strings_Reader | other_ReadSeeker.

(** An [io.ReadSeeker] over a fixed content: its dynamic type, the bytes,
    the read offset, and two ways it can fail (the two readers of the
    standard library never do). [rs_bad = Some (n, e)]: a read that reaches
    offset [n] fails with [e] (only the bytes before [n] are delivered).
    [rs_noseek = Some e]: [Seek] fails with [e]. *)
Record ReadSeeker := {
  rs_type : ReaderType;
  rs_data : list byte;
  rs_off : nat;
  rs_bad : option (nat * error);
  rs_noseek : option error
}.

Definition rs_at (r : ReadSeeker) (off : nat) : ReadSeeker :=
  {| rs_type := rs_type r; rs_data := rs_data r; rs_off := off; rs_bad := rs_bad r;
     rs_noseek := rs_noseek r |}.

(** The bytes between the read offset and the end. *)
Definition rs_rest (r : ReadSeeker) : list byte := drop (rs_off r) (rs_data r).

(** [v.Len()] of a [bytes.Reader] or [strings.Reader]: the number of bytes
    of the unread portion. *)
Definition Reader_Len (r : ReadSeeker) : Z := Z.of_nat (length (rs_rest r)).

(** Reading until EOF: what is delivered, the error that stopped the
    reading (EOF is not one), and the source afterwards. *)
Definition read_to_EOF (r : ReadSeeker) : list byte * option error * ReadSeeker :=
  match rs_bad r with
  | Some (n, e) =>
      if ((rs_off r <=? n) && (n <=? length (rs_data r)))%nat
      then (take (n - rs_off r) (rs_rest r), Some e, rs_at r n)
      else (rs_rest r, None, rs_at r (rs_off r + length (rs_rest r)))
  | None => (rs_rest r, None, rs_at r (rs_off r + length (rs_rest r)))
  end.

(** [io.Copy(dst, src)] into a running hash: the number of bytes copied and
    the first error met. *)
Definition io_Copy (dst : Hash) (src : ReadSeeker) : Z * option error * Hash * ReadSeeker :=
  let '(p, err, src') := read_to_EOF src in
  (Z.of_nat (length p), err, Hash_Write dst p, src').

Definition io_SeekStart : Z := 0.
Definition io_SeekCurrent : Z := 1.
Definition io_SeekEnd : Z := 2.

(** [r.Seek(offset, whence)] *)
Definition ReadSeeker_Seek (r : ReadSeeker) (offset whence : Z)
  : Z * option error * ReadSeeker :=
  match rs_noseek r with
  | Some e => (0, Some e, r)
  | None =>
      if (whence <? 0) || (2 <? whence)
      then (0, Some (errNew "bytes.Reader.Seek: invalid whence"), r)
      else
        let base := if whence =? io_SeekStart then 0
                    else if whence =? io_SeekCurrent then Z.of_nat (rs_off r)
                    else Z.of_nat (length (rs_data r)) in
        let abs := base + offset in
        if abs <? 0
        then (0, Some (errNew "bytes.Reader.Seek: negative position"), r)
        else (abs, None, rs_at r (Z.to_nat abs))
  end.

(** An [io.ReadCloser] held in memory (a response body): the bytes not yet
    read, and whether [Close] was called. Reading it never fails (as for
    [io.NopCloser] over a reader in memory, the body of the package's
    tests). *)
Record ReadCloser := { rc_unread : list byte; rc_closed : bool }.

(** [io.ReadAll(io.LimitReader(r, n))]: at most [n] bytes are taken. *)
Definition ReadAll_Limit (r : ReadCloser) (n : nat) : list byte * ReadCloser :=
  (take n (rc_unread r),
   {| rc_unread := drop n (rc_unread r); rc_closed := rc_closed r |}).

Definition ReadCloser_Close (r : ReadCloser) : ReadCloser :=
  {| rc_unread := rc_unread r; rc_closed := true |}.

(** ** objsto.go: the signature engine *)

Definition LF : string := str1 (ascii_of_N 10).

Definition service : string := "s3".

Definition sha256Hash (data : string) : string :=
  let h := sha256_New in
  let h := Hash_Write h (list_byte_of_string data) in
  hex_EncodeToString (Hash_Sum h []).

Definition hmacSHA256 (key : list byte) (data : string) : list byte :=
  let h := hmac_New key in
  let h := HMAC_Write h (list_byte_of_string data) in
  HMAC_Sum h [].

Definition getSignatureKey (secret date region service : string) : list byte :=
  let kDate := hmacSHA256 (list_byte_of_string ("AWS4" +:+ secret)) date in
  let kRegion := hmacSHA256 kDate region in
  let kService := hmacSHA256 kRegion service in
  let kSigning := hmacSHA256 kService "aws4_request" in
  kSigning.

Definition signRequest (method region host path accessKey secretKey payloadHash : string)
    (t : Time) : gmap string string :=
  let amzDate := Time_Format t "20060102T150405Z" in
  let dateStamp := Time_Format t "20060102" in
  let canonicalHeaders :=
    Sprintf ("host:%s" +:+ LF +:+ "x-amz-content-sha256:%s" +:+ LF +:+ "x-amz-date:%s" +:+ LF)
            [oString host; oString payloadHash; oString amzDate] in
  let signedHeaders := "host;x-amz-content-sha256;x-amz-date" in
  let canonicalRequest :=
    Sprintf ("%s" +:+ LF +:+ "%s" +:+ LF +:+ LF +:+ "%s" +:+ LF +:+ "%s" +:+ LF +:+ "%s")
            [oString method; oString path; oString canonicalHeaders;
             oString signedHeaders; oString payloadHash] in
  let credentialScope :=
    Sprintf "%s/%s/%s/aws4_request" [oString dateStamp; oString region; oString service] in
  let stringToSign :=
    Sprintf ("AWS4-HMAC-SHA256" +:+ LF +:+ "%s" +:+ LF +:+ "%s" +:+ LF +:+ "%s")
            [oString amzDate; oString credentialScope; oString (sha256Hash canonicalRequest)] in
  let signingKey := getSignatureKey secretKey dateStamp region service in
  let signature := hex_EncodeToString (hmacSHA256 signingKey stringToSign) in
  let authHeader :=
    Sprintf "AWS4-HMAC-SHA256 Credential=%s/%s, SignedHeaders=%s, Signature=%s"
            [oString accessKey; oString credentialScope; oString signedHeaders;
             oString signature] in
  {[ "Authorization" := authHeader;
     "x-amz-date" := amzDate;
     "x-amz-content-sha256" := payloadHash ]}.

(** *** The signing algorithm in the specification's words

    Section 4.2 of the specification, step by step, with SHA-256 and
    HMAC-SHA256 as one-shot functions on byte strings. *)

Module Spec.

Definition SHA256hex (x : string) : string :=
  hex_EncodeToString (SHA256.Sum256 (list_byte_of_string x)).

Definition block_key (key : list byte) : list byte :=
  let k := if (64 <? length key)%nat then SHA256.Sum256 key else key in
  k ++ repeat x00 (64 - length k).

Definition xor_with (c : Z) (k : list byte) : list byte :=
  map (fun b => SHA256.byte_of_Z (Z.lxor (SHA256.Z_of_byte b) c)) k.

(** RFC 2104: H((K xor opad) || H((K xor ipad) || text)). *)
Definition HMAC (key : list byte) (text : string) : list byte :=
  let k := block_key key in
  SHA256.Sum256 (xor_with 0x5c k
                 ++ SHA256.Sum256 (xor_with 0x36 k ++ list_byte_of_string text)).

Definition amzDate (t : Time) : string := Time_Format t "20060102T150405Z".
Definition dateStamp (t : Time) : string := Time_Format t "20060102".

Definition signedHeadersList : string := "host;x-amz-content-sha256;x-amz-date".

Definition canonicalHeaders (host hash amzDate : string) : string :=
  "host:" +:+ host +:+ LF +:+ "x-amz-content-sha256:" +:+ hash +:+ LF
    +:+ "x-amz-date:" +:+ amzDate +:+ LF.

Definition canonicalRequest (method path host hash amzDate : string) : string :=
  method +:+ LF +:+ path +:+ LF +:+ LF +:+ canonicalHeaders host hash amzDate +:+ LF
    +:+ signedHeadersList +:+ LF +:+ hash.

Definition credentialScope (dateStamp region : string) : string :=
  dateStamp +:+ "/" +:+ region +:+ "/s3/aws4_request".

Definition stringToSign (amzDate scope creq : string) : string :=
  "AWS4-HMAC-SHA256" +:+ LF +:+ amzDate +:+ LF +:+ scope +:+ LF +:+ SHA256hex creq.

Definition signingKey (secretKey dateStamp region : string) : list byte :=
  let key0 := list_byte_of_string ("AWS4" +:+ secretKey) in
  let key1 := HMAC key0 dateStamp in
  let key2 := HMAC key1 region in
  let key3 := HMAC key2 "s3" in
  let key4 := HMAC key3 "aws4_request" in
  key4.

Definition authorization (method region host path accessKey secretKey hash : string)
    (t : Time) : string :=
  let scope := credentialScope (dateStamp t) region in
  let sts := stringToSign (amzDate t) scope
               (canonicalRequest method path host hash (amzDate t)) in
  "AWS4-HMAC-SHA256 Credential=" +:+ accessKey +:+ "/" +:+ scope
    +:+ ", SignedHeaders=" +:+ signedHeadersList
    +:+ ", Signature=" +:+ hex_EncodeToString (HMAC (signingKey secretKey (dateStamp t) region) sts).

End Spec.

(** ** objsto.go: the provider's error document *)

Record s3Error := { Code : string; Message : string; RequestID : string }.

Definition s3Error_zero : s3Error :=
  {| Code := EmptyString; Message := EmptyString; RequestID := EmptyString |}.

(** ** encoding/xml, for a fragment of XML

    The client is verified for any decoder (see [Objsto] below). This
    module is one decoder, used to run the client on concrete documents.
    It follows [xml.Unmarshal] into an [s3Error] on documents made of
    elements with plain attributes, character data with the five predefined
    entities, and processing instructions. It is not encoding/xml beyond
    that: it rejects comments, CDATA sections, directives and numeric
    character references, which Go accepts, and it does not check
    attribute values, the encoding that is declared, or the end mark of a
    CDATA section in character data, which Go does. As in encoding/xml the root
    element may have any name, a child named [Code], [Message] or
    [RequestId] sets the field of that tag to its own character data, the
    last such child wins, other children are skipped, and decoding stops
    at the end of the root element. *)

Module Xml.

Inductive token : Type :=
| StartElement (name : string) (selfClosing : bool)
| EndElement (name : string)
| CharData (data : string)
| ProcInst.

(** The input cut at angle brackets. *)
Inductive piece : Type :=
| pText (x : list ascii)
| pTag (x : list ascii)
| pBad.

Inductive mode : Type :=
| inText (acc : list ascii)
| inTag (acc : list ascii) (quote : option ascii).

Definition flush (acc : list ascii) (k : list piece) : list piece :=
  match acc with
  | [] => k
  | _ => pText (rev acc) :: k
  end.

Fixpoint cut (input : list ascii) (m : mode) : list piece :=
  match input, m with
  | [], inText acc => flush acc []
  | [], inTag _ _ => [pBad]
  | c :: rest, inText acc =>
      if Ascii.eqb c "<" then flush acc (cut rest (inTag [] None))
      else cut rest (inText (c :: acc))
  | c :: rest, inTag acc None =>
      if Ascii.eqb c ">" then pTag (rev acc) :: cut rest (inText [])
      else if Ascii.eqb c "<" then [pBad]
      else if Ascii.eqb c "'" || Ascii.eqb c (ascii_of_N 34)
           then cut rest (inTag (c :: acc) (Some c))
           else cut rest (inTag (c :: acc) None)
  | c :: rest, inTag acc (Some q) =>
      if Ascii.eqb c q then cut rest (inTag (c :: acc) None)
      else if Ascii.eqb c "<" then [pBad]
      else cut rest (inTag (c :: acc) (Some q))
  end.

Definition is_space (c : ascii) : bool :=
  existsb (N.eqb (N_of_ascii c)) [32; 9; 10; 13]%N.

Definition is_name_start (c : ascii) : bool :=
  is_lower c || is_upper c || Ascii.eqb c "_" || Ascii.eqb c ":"
  || (128 <=? N_of_ascii c)%N.

Definition is_name_byte (c : ascii) : bool :=
  is_name_start c || is_digit c || Ascii.eqb c "." || Ascii.eqb c "-".

Fixpoint span (p : ascii -> bool) (l : list ascii) : list ascii * list ascii :=
  match l with
  | c :: rest => if p c then let '(a, b) := span p rest in (c :: a, b) else ([], l)
  | [] => ([], [])
  end.

Definition colons (l : list ascii) : nat :=
  length (filter (fun c => Ascii.eqb c ":" = true) l).

(** A name, then nothing or white space and whatever follows. *)
Definition name_of (l : list ascii) : option string :=
  let '(name, rest) := span is_name_byte l in
  match name, rest with
  | c :: _, [] => if is_name_start c && (colons name <=? 1)%nat
                  then Some (string_of_list_ascii name) else None
  | c :: _, r :: _ => if is_name_start c && (colons name <=? 1)%nat && is_space r
                      then Some (string_of_list_ascii name) else None
  | [], _ => None
  end.

(** The five predefined entities; any other use of [&] is an error. *)
Fixpoint unescape (l : list ascii) : option (list ascii) :=
  match l with
  | [] => Some []
  | "&" :: "l" :: "t" :: ";" :: rest => cons "<"%char <$> unescape rest
  | "&" :: "g" :: "t" :: ";" :: rest => cons ">"%char <$> unescape rest
  | "&" :: "a" :: "m" :: "p" :: ";" :: rest => cons "&"%char <$> unescape rest
  | "&" :: "a" :: "p" :: "o" :: "s" :: ";" :: rest => cons "'"%char <$> unescape rest
  | "&" :: "q" :: "u" :: "o" :: "t" :: ";" :: rest =>
      cons (ascii_of_N 34) <$> unescape rest
  | "&" :: _ => None
  | c :: rest => cons c <$> unescape rest
  end%char.

Definition classify (p : piece) : option token :=
  match p with
  | pBad => None
  | pText x => (fun y => CharData (string_of_list_ascii y)) <$> unescape x
  | pTag ("?" :: x)%char =>
      match rev x with
      | ("?" :: _ :: _)%char => Some ProcInst
      | _ => None
      end
  | pTag ("!" :: _)%char => None
  | pTag ("/" :: x)%char => EndElement <$> name_of x
  | pTag x =>
      match rev x with
      | ("/" :: y)%char => (fun n => StartElement n true) <$> name_of (rev y)
      | _ => (fun n => StartElement n false) <$> name_of x
      end
  end.

(** The part of a name after its namespace prefix. *)
Definition local (name : string) : string :=
  let '(a, b) := span (fun c => negb (Ascii.eqb c ":")) (list_ascii_of_string name) in
  match a, b with
  | _ :: _, _ :: (_ :: _) as l => string_of_list_ascii l
  | _, _ => name
  end.

(** The struct tags of [s3Error]. *)
Definition set_field (tag : string) (f : string -> string) (v : s3Error) : s3Error :=
  if String.eqb tag "Code"
  then {| Code := f (Code v); Message := Message v; RequestID := RequestID v |}
  else if String.eqb tag "Message"
  then {| Code := Code v; Message := f (Message v); RequestID := RequestID v |}
  else if String.eqb tag "RequestId"
  then {| Code := Code v; Message := Message v; RequestID := f (RequestID v) |}
  else v.

Definition syntax_error (msg : string) : error :=
  errNew ("XML syntax error on line 1: " +:+ msg).

(** [stack]: the elements that are open, innermost first. *)
Fixpoint decode (toks : list (option token)) (stack : list string) (v : s3Error)
  : error + s3Error :=
  match toks with
  | [] => inl (match stack with
               | [] => errNew "EOF"
               | _ => syntax_error "unexpected EOF"
               end)
  | None :: _ => inl (syntax_error "invalid markup")
  | Some ProcInst :: rest => decode rest stack v
  | Some (CharData x) :: rest =>
      decode rest stack
        (match stack with
         | [field; _] => set_field (local field) (fun old => old +:+ x) v
         | _ => v
         end)
  | Some (StartElement name true) :: rest =>
      match stack with
      | [] => inr v
      | [_] => decode rest stack (set_field (local name) (fun _ => EmptyString) v)
      | _ => decode rest stack v
      end
  | Some (StartElement name false) :: rest =>
      decode rest (name :: stack)
        (match stack with
         | [_] => set_field (local name) (fun _ => EmptyString) v
         | _ => v
         end)
  | Some (EndElement name) :: rest =>
      match stack with
      | [] => inl (syntax_error ("unexpected end element </" +:+ name +:+ ">"))
      | top :: below =>
          if String.eqb top name
          then match below with
               | [] => inr v
               | _ => decode rest below v
               end
          else inl (syntax_error ("element <" +:+ top +:+ "> closed by </" +:+ name +:+ ">"))
      end
  end.

(** [xml.Unmarshal(data, &s3Err)] on a zero [s3Err]. *)
Definition Unmarshal (data : list byte) : error + s3Error :=
  decode (map classify (cut (map ascii_of_byte data) (inText []))) [] s3Error_zero.

End Xml.

(** ** net/url, a stand-in

    The client is verified for any URL parser. This one, used to run the
    client on concrete inputs, keeps the text of a URL and rejects only
    control characters: it checks no escape, host or port, and [String]
    escapes nothing. It agrees with net/url on the URLs of the bench. *)

Module PlainURL.

Definition URL : Type := string.

Definition is_CTL (c : ascii) : bool :=
  ((N_of_ascii c <? 32) || (N_of_ascii c =? 127))%N.

Definition Parse (rawURL : string) : error + URL :=
  if existsb is_CTL (list_ascii_of_string rawURL)
  then inl (errNew ("parse " +:+ strconv_Quote rawURL
                    +:+ ": net/url: invalid control character in URL"))
  else inr rawURL.

Definition String (u : URL) : string := u.

(** What stands between [://] and the next [/]. *)
Fixpoint after_scheme (l : list ascii) : list ascii :=
  match l with
  | ":" :: "/" :: "/" :: rest => rest
  | _ :: rest => after_scheme rest
  | [] => []
  end%char.

Definition Host (u : URL) : string :=
  string_of_list_ascii
    (fst (Xml.span (fun c => negb (Ascii.eqb c "/")) (after_scheme (list_ascii_of_string u)))).

End PlainURL.

(** ** The world the client runs in *)

(** A [context.Context]: [None] is the nil interface. *)
Definition Context : Type := option nat.

(** The address of a mutable object. *)
Abbreviation loc := nat.

(** What is handed to the logger as [kv ...any]. *)
Inductive logval : Type :=
| vString (x : string)
| vTime (t : Time)
| vInt (n : Z)
| vDuration (nanoseconds : Z)
| vHeader (h : Header).

Inductive level : Type := lvlInfo | lvlDebug | lvlTrace | lvlError.

Record LogEntry := {
  log_level : level;
  log_ctx : Context;
  log_msg : string;
  log_kv : list logval
}.

(** A computation that reads and changes a world of type [W]. *)
Definition M (W A : Type) : Type := W -> A * W.

Definition ret {W A} (a : A) : M W A := fun w => (a, w).

Definition bind {W A B} (c : M W A) (k : A -> M W B) : M W B :=
  fun w => let '(a, w') := c w in k a w'.

Notation "'let*' x := c 'in' k" := (bind c (fun x => k))
  (at level 10, x name, c at level 100, k at level 200).
Notation "'let*' ' p := c 'in' k" := (bind c (fun x => let 'p := x in k))
  (at level 10, p pattern, c at level 100, k at level 200).
Notation "'run' c 'in' k" := (bind c (fun _ => k))
  (at level 10, c at level 100, k at level 200).

(** ** objsto.go: the client *)

(** How a call ends: it returns, or it panics (Go's run-time error for the
    use of a nil pointer is the one the client can meet). *)
Inductive outcome (A : Type) : Type :=
| Returned (a : A)
| Panicked (reason : string).

Arguments Returned {A} a.
Arguments Panicked {A} reason.

Definition nil_dereference : string :=
  "runtime error: invalid memory address or nil pointer dereference".

(** The [Body] of a request: [http.NoBody], or the payload source at an
    address (behind [io.NopCloser] when it has no [Close] of its own). *)
Inductive Body : Type :=
| http_NoBody
| body_of (l : loc).

Section Objsto.

(** net/url and encoding/xml are parameters: the type of a parsed URL;
    [url_Parse], which stands for [url.Parse] as [http.NewRequestWithContext]
    uses it (the parsed URL, an empty port removed from its host); the
    [String] method and the host of such a URL; and [xml.Unmarshal] into a
    zero [s3Error] (the error, or the struct as it was filled). *)
Context {URL : Type}.
Variable url_Parse : string -> error + URL.
Variable url_String : URL -> string.
Variable url_Host : URL -> string.
Variable xml_Unmarshal : list byte -> error + s3Error.

(** [http.Request]; [req_Body = None] is a nil body. *)
Record Request := {
  req_ctx : Context;
  req_Method : string;
  req_URL : URL;
  req_Host : string;
  req_Header : Header;
  req_Body : option Body;
  req_ContentLength : Z
}.

(** [http.Response]; [resp_Body] is the address of the body. *)
Record Response := {
  resp_StatusCode : Z;
  resp_Header : Header;
  resp_Body : loc
}.

(** What a call of [Do] leaves: the response and the error it returns
    (either can be nil, as in Go's pair), and the payload sources and the
    response bodies as it leaves them. *)
Record Done := {
  done_resp : option Response;
  done_err : option error;
  done_streams : loc -> ReadSeeker;
  done_bodies : loc -> ReadCloser
}.

(** [HttpDoer]: [Do] is given the request, and reaches the payload sources
    (it reads the body of the request) and the response bodies (it makes the
    one it returns). *)
Definition HttpDoer : Type :=
  Request -> (loc -> ReadSeeker) -> (loc -> ReadCloser) -> Done.

Definition Redact : Type := string.

(** [MarshalJSON] of a [Redact] never shows the secret. *)
Definition Redact_MarshalJSON (redact : Redact) : list byte * option error :=
  if String.eqb redact EmptyString
  then (list_byte_of_string (dquote +:+ "--unset--" +:+ dquote), None)
  else (list_byte_of_string (dquote +:+ "--redacted--" +:+ dquote), None).

Record Config := {
  cfg_Region : string;
  cfg_Scheme : string;
  cfg_Host : string;
  cfg_Bucket : string;
  cfg_AccessKey : string;
  cfg_SecretKey : Redact
}.

(** The logger of a [Client] is the log of the world. *)
Record Client := {
  region : string;
  scheme : string;
  host : string;
  bucket : string;
  accessKey : string;
  secretKey : string;
  client : HttpDoer
}.

Definition New (cfg : Config) (doer : HttpDoer) : Client :=
  {| region := cfg_Region cfg;
     scheme := cfg_Scheme cfg;
     host := cfg_Host cfg;
     bucket := cfg_Bucket cfg;
     accessKey := cfg_AccessKey cfg;
     secretKey := cfg_SecretKey cfg;
     client := doer |}.

(** The clock ([w_clock n] is its [n]-th reading, [w_ticks] the number of
    readings taken), the payload sources and response bodies by address,
    the log, and the requests handed to the transport. *)
Record World := {
  w_clock : nat -> Time;
  w_ticks : nat;
  w_streams : loc -> ReadSeeker;
  w_bodies : loc -> ReadCloser;
  w_log : list LogEntry;
  w_calls : list Request
}.

(** [time.Now()] *)
Definition time_Now : M World Time := fun w =>
  (w_clock w (w_ticks w),
   {| w_clock := w_clock w; w_ticks := S (w_ticks w); w_streams := w_streams w;
      w_bodies := w_bodies w; w_log := w_log w; w_calls := w_calls w |}).

(** [time.Since(t)] is [time.Now().Sub(t)]. *)
Definition time_Since (t : Time) : M World Z :=
  let* now := time_Now in
  ret (Time_Sub now t).

Definition get_stream (l : loc) : M World ReadSeeker := fun w => (w_streams w l, w).

Definition put_stream (l : loc) (r : ReadSeeker) : M World unit := fun w =>
  (tt, {| w_clock := w_clock w; w_ticks := w_ticks w; w_streams := <[l := r]> (w_streams w);
          w_bodies := w_bodies w; w_log := w_log w; w_calls := w_calls w |}).

(** A library function that looks at the payload sources without changing
    them. *)
Definition with_streams {A} (f : (loc -> ReadSeeker) -> A) : M World A := fun w =>
  (f (w_streams w), w).

Definition get_body (l : loc) : M World ReadCloser := fun w => (w_bodies w l, w).

Definition put_body (l : loc) (r : ReadCloser) : M World unit := fun w =>
  (tt, {| w_clock := w_clock w; w_ticks := w_ticks w; w_streams := w_streams w;
          w_bodies := <[l := r]> (w_bodies w); w_log := w_log w; w_calls := w_calls w |}).

Definition log (lvl : level) (ctx : Context) (msg : string) (kv : list logval)
  : M World unit := fun w =>
  (tt, {| w_clock := w_clock w; w_ticks := w_ticks w; w_streams := w_streams w;
          w_bodies := w_bodies w;
          w_log := w_log w ++ [{| log_level := lvl; log_ctx := ctx;
                                  log_msg := msg; log_kv := kv |}];
          w_calls := w_calls w |}).

Definition logger_Info := log lvlInfo.
Definition logger_Debug := log lvlDebug.

(** [c.client.Do(req)]: the transport works on the sources and the bodies
    of the world; the call is recorded. *)
Definition client_Do (c : Client) (req : Request)
  : M World (option Response * option error) := fun w =>
  let d := client c req (w_streams w) (w_bodies w) in
  ((done_resp d, done_err d),
   {| w_clock := w_clock w; w_ticks := w_ticks w; w_streams := done_streams d;
      w_bodies := done_bodies d; w_log := w_log w; w_calls := w_calls w ++ [req] |}).

(** [resp.Body.Close()] *)
Definition Body_Close (resp : Response) : M World unit :=
  let* rc := get_body (resp_Body resp) in
  put_body (resp_Body resp) (ReadCloser_Close rc).

Definition validMethod (method : string) : bool :=
  (0 <? String.length method)%nat && forallb isTokenByte (list_ascii_of_string method).

(** [http.NewRequestWithContext]; [deref] gives the payload source at an
    address. For a [*bytes.Reader] and a [*strings.Reader] the content
    length is preset to [Len()] and [GetBody] is set (to a copy of the
    reader, which only a transport uses, to send the body again: it is
    left out of [Request]); when that length is zero the body is replaced
    by [http.NoBody]. For every other type the length is left at zero and
    the body is the source. *)
Definition http_NewRequestWithContext (ctx : Context) (method url : string)
    (body : option loc) (deref : loc -> ReadSeeker) : error + Request :=
  let method := if String.eqb method EmptyString then "GET" else method in
  if negb (validMethod method)
  then inl (errNew (Sprintf "net/http: invalid method %q" [oString method]))
  else match ctx with
       | None => inl (errNew "net/http: nil Context")
       | Some _ =>
           match url_Parse url with
           | inl err => inl err
           | inr u =>
               let rc := option_map body_of body in
               let '(ContentLength, GetBody) :=
                 match body with
                 | None => (0, false)
                 | Some l =>
                     match rs_type (deref l) with
                     | bytes_Reader | strings_Reader => (Reader_Len (deref l), true)
                     | other_ReadSeeker => (0, false)
                     end
                 end in
               let rc := if GetBody && (ContentLength =? 0) then Some http_NoBody else rc in
               inr {| req_ctx := ctx; req_Method := method; req_URL := u;
                      req_Host := url_Host u; req_Header := ∅; req_Body := rc;
                      req_ContentLength := ContentLength |}
           end
       end.

Definition hashPayload (body : option loc) : M World (string * Z * option error) :=
  let h := sha256_New in
  match body with
  | Some l =>
      let* src := get_stream l in
      let '(size, err, h, src) := io_Copy h src in
      run put_stream l src in
      match err with
      | Some err => ret (EmptyString, size, Some (errors_Wrap err "failed to hash body"))
      | None =>
          let '(_, err, src) := ReadSeeker_Seek src 0 io_SeekStart in
          run put_stream l src in
          match err with
          | Some err => ret (EmptyString, size, Some (errors_Wrap err "failed to seek body"))
          | None => ret (hex_EncodeToString (Hash_Sum h []), size, None)
          end
      end
  | None => ret (hex_EncodeToString (Hash_Sum h []), 0, None)
  end.

Definition set_headers (req : Request) (size : Z) (headers : gmap string string) : Request :=
  {| req_ctx := req_ctx req; req_Method := req_Method req; req_URL := req_URL req;
     req_Host := req_Host req;
     req_Header := map_fold (fun k v h => Header_Set h k v) (req_Header req) headers;
     req_Body := req_Body req;
     req_ContentLength := size |}.

Definition buildRequest (c : Client) (ctx : Context) (method object : string)
    (pyld : option loc) : M World (option Request * option error) :=
  if String.eqb object EmptyString
  then ret (None, Some (errors_Errorf "object cannot be blank" []))
  else
    let path := Sprintf "/%s/%s" [oString (bucket c); oString object] in
    let uri := Sprintf "%s://%s%s" [oString (scheme c); oString (host c); oString path] in
    let* now := time_Now in
    let now := Time_UTC now in
    let* created := with_streams (http_NewRequestWithContext ctx method uri pyld) in
    match created with
    | inl err =>
        ret (None, Some (errors_Wrapf err "failed to create request to %q" [oString uri]))
    | inr req =>
        run logger_Debug ctx "signing request"
          [vString "region"; vString (region c);
           vString "host"; vString (host c);
           vString "path"; vString path;
           vString "access_key"; vString (accessKey c);
           vString "now"; vTime now] in
        let* '(hash, size, err) := hashPayload pyld in
        match err with
        | Some err => ret (Some req, Some err)
        | None =>
            let headers := signRequest method (region c) (host c) path
                             (accessKey c) (secretKey c) hash now in
            let req := set_headers req size headers in
            run logger_Debug ctx "signed request"
              [vString "url"; vString (url_String (req_URL req));
               vString "host"; vString (req_Host req);
               vString "headers"; vHeader (req_Header req)] in
            ret (Some req, None)
        end
    end.

Definition sendRequest_result : Type := option Response * option error.

Definition parseS3Error (resp : Response) : M World error :=
  let* body := get_body (resp_Body resp) in
  let '(bodyBytes, body) := ReadAll_Limit body (1024 * 4) in
  run put_body (resp_Body resp) body in
  match xml_Unmarshal bodyBytes with
  | inl _ =>
      ret (errors_Errorf "http error, status: %d, body: %s"
             [oInt (resp_StatusCode resp); oString (string_of_list_byte bodyBytes)])
  | inr s3Err =>
      ret (errors_Errorf "s3 error, code: %s, request_id: %s, message: %s, headers: %s"
             [oString (Code s3Err); oString (RequestID s3Err); oString (Message s3Err);
              oHeader (resp_Header resp)])
  end.

(** [sendRequest]. When [Do] returns an error, the response it returned
    with it goes back to the caller as it is. When [Do] returns neither an
    error nor a response, reading the status dereferences nil. *)
Definition sendRequest (c : Client) (ctx : Context) (req : Request)
  : M World (outcome sendRequest_result) :=
  let* start := time_Now in
  let* '(resp, err) := client_Do c req in
  let* elapsed := time_Since start in
  match err with
  | Some err =>
      ret (Returned (resp, Some (errors_Wrapf err "failed request to %q"
                                   [oString (url_String (req_URL req))])))
  | None =>
      match resp with
      | None => ret (Panicked nil_dereference)
      | Some resp =>
          if (resp_StatusCode resp <? 200) || (300 <=? resp_StatusCode resp)
          then
            let* err := parseS3Error resp in
            run Body_Close resp in
            ret (Returned (Some resp, Some err))
          else
            run logger_Info ctx "received response"
              [vString "status"; vInt (resp_StatusCode resp);
               vString "elapsed"; vDuration elapsed] in
            ret (Returned (Some resp, None))
      end
  end.

(** [Get] gives the caller the address of the open response body.
    ([buildRequest] returns a request or an error, and [sendRequest] a
    response or an error: the branches without either are not reached.) *)
Definition Get (c : Client) (ctx : Context) (object : string)
  : M World (outcome (option loc * option error)) :=
  let* '(req, err) := buildRequest c ctx "GET" object None in
  match req, err with
  | _, Some err => ret (Returned (None, Some err))
  | None, None => ret (Returned (None, None))
  | Some req, None =>
      let* sent := sendRequest c ctx req in
      match sent with
      | Panicked reason => ret (Panicked reason)
      | Returned (_, Some err) => ret (Returned (None, Some err))
      | Returned (None, None) => ret (Panicked nil_dereference)
      | Returned (Some resp, None) => ret (Returned (Some (resp_Body resp), None))
      end
  end.

Definition Put (c : Client) (ctx : Context) (object : string) (reader : option loc)
  : M World (outcome (option error)) :=
  let* '(req, err) := buildRequest c ctx "PUT" object reader in
  match req, err with
  | _, Some err => ret (Returned (Some err))
  | None, None => ret (Returned None)
  | Some req, None =>
      let* sent := sendRequest c ctx req in
      match sent with
      | Panicked reason => ret (Panicked reason)
      | Returned (_, Some err) => ret (Returned (Some err))
      | Returned (None, None) => ret (Panicked nil_dereference)
      | Returned (Some resp, None) =>
          run Body_Close resp in
          ret (Returned None)
      end
  end.

End Objsto.

Arguments Request : clear implicits.
Arguments HttpDoer : clear implicits.
Arguments Client : clear implicits.
Arguments World : clear implicits.
Arguments http_NewRequestWithContext {URL} url_Parse url_Host ctx method url body deref.
Arguments hashPayload {URL} body _.
Arguments buildRequest {URL} url_Parse url_String url_Host c ctx method object pyld _.
Arguments parseS3Error {URL} xml_Unmarshal resp _.
Arguments sendRequest {URL} url_String xml_Unmarshal c ctx req _.
Arguments Get {URL} url_Parse url_String url_Host xml_Unmarshal c ctx object _.
Arguments Put {URL} url_Parse url_String url_Host xml_Unmarshal c ctx object reader _.

(** ** Observations used to state the properties *)

(** What reading a source to its end delivers, and the error it meets. *)
Definition read_bytes (r : ReadSeeker) : list byte := fst (fst (read_to_EOF r)).
Definition read_error (r : ReadSeeker) : option error := snd (fst (read_to_EOF r)).

(** The source after it was read to its end. *)
Definition rs_after_read (r : ReadSeeker) : ReadSeeker := snd (read_to_EOF r).

(** The error of [Seek(0, io.SeekStart)] on a source. *)
Definition seek_error (r : ReadSeeker) : option error :=
  snd (fst (ReadSeeker_Seek r 0 io_SeekStart)).

(** A source that net/http sends as [http.NoBody]: a [bytes.Reader] or a
    [strings.Reader] with nothing left to read. *)
Definition nothing_left (r : ReadSeeker) : bool :=
  match rs_type r with
  | other_ReadSeeker => false
  | _ => match rs_rest r with [] => true | _ => false end
  end.

(** The body of the request that is created for a payload. *)
Definition body_for (pyld : option loc) (deref : loc -> ReadSeeker) : option Body :=
  match pyld with
  | None => None
  | Some l => if nothing_left (deref l) then Some http_NoBody else Some (body_of l)
  end.

(** The bytes a transport receives when it reads a request body to its end
    in world [w]. *)
Definition body_bytes {URL} (w : World URL) (body : option Body) : list byte :=
  match body with
  | Some (body_of l) => read_bytes (w_streams w l)
  | _ => []
  end.

(** The bytes of a payload from its read offset on. *)
Definition payload_bytes {URL} (w : World URL) (pyld : option loc) : list byte :=
  match pyld with
  | Some l => read_bytes (w_streams w l)
  | None => []
  end.

(** [only_stream_changed l w w']: from [w] to [w'] nothing changed but,
    possibly, the source at address [l]. *)
Definition only_stream_changed {URL} (l : loc) (w w' : World URL) : Prop :=
  w_clock w' = w_clock w /\ w_ticks w' = w_ticks w /\ w_bodies w' = w_bodies w
  /\ w_log w' = w_log w /\ w_calls w' = w_calls w
  /\ forall l', l' <> l -> w_streams w' l' = w_streams w l'.

(** The world after one reading of the clock, and after one log entry. *)
Definition after_tick {URL} (w : World URL) : World URL := snd (time_Now w).

Definition after_log {URL} (lvl : level) (ctx : Context) (msg : string) (kv : list logval)
    (w : World URL) : World URL :=
  snd (log lvl ctx msg kv w).

(** What [buildRequest] hands to the logger before and after signing. *)
Definition signing_kv {URL} (c : Client URL) (path : string) (now : Time) : list logval :=
  [vString "region"; vString (region c);
   vString "host"; vString (host c);
   vString "path"; vString path;
   vString "access_key"; vString (accessKey c);
   vString "now"; vTime now].

Definition signed_kv {URL} (url_String : URL -> string) (req : Request URL) : list logval :=
  [vString "url"; vString (url_String (req_URL req));
   vString "host"; vString (req_Host req);
   vString "headers"; vHeader (req_Header req)].

(** The headers of a request signed over [hash] at time [now]. *)
Definition signed_Header (authorization amzDate hash : string) : Header :=
  {[ "Authorization" := [authorization];
     "X-Amz-Date" := [amzDate];
     "X-Amz-Content-Sha256" := [hash] ]}.

(** [contains sub x]: [sub] occurs in [x]. *)
Fixpoint contains (sub x : string) : bool :=
  String.prefix sub x
  || match x with
     | EmptyString => false
     | String _ rest => contains sub rest
     end.

(** The digest of no bytes, in hex. *)
Definition emptyHash : string :=
  "e3b0c44298fc1c149afbf4c8996fb92427ae41e4649b934ca495991b7852b855".

(** What the transport of [c] does with [req] in world [w]. *)
Definition transport {URL} (c : Client URL) (req : Request URL) (w : World URL) : Done :=
  client c req (w_streams w) (w_bodies w).

(** The world after a request was handed to the transport. *)
Definition after_call {URL} (c : Client URL) (req : Request URL) (w : World URL)
  : World URL :=
  snd (client_Do c req w).

(** What [sendRequest] logs for an answer. *)
Definition received_entry (ctx : Context) (status elapsed : Z) : LogEntry :=
  {| log_level := lvlInfo; log_ctx := ctx; log_msg := "received response";
     log_kv := [vString "status"; vInt status; vString "elapsed"; vDuration elapsed] |}.

(** A status of the 2xx class. *)
Definition is_2xx (status : Z) : bool := (200 <=? status) && (status <? 300).

(** A client that differs from [c] in its secret key only. *)
Definition with_secretKey {URL} (c : Client URL) (secret : string) : Client URL :=
  {| region := region c; scheme := scheme c; host := host c; bucket := bucket c;
     accessKey := accessKey c; secretKey := secret; client := client c |}.

(** A log with the Authorization header taken out of every header map. *)
Definition scrub_value (v : logval) : logval :=
  match v with
  | vHeader h => vHeader (delete "Authorization" h)
  | _ => v
  end.

Definition scrub (e : LogEntry) : LogEntry :=
  {| log_level := log_level e; log_ctx := log_ctx e; log_msg := log_msg e;
     log_kv := map scrub_value (log_kv e) |}.

(** Lowercase hexadecimal text. *)
Definition is_lower_hex (c : ascii) : bool :=
  is_digit c || ((97 <=? N_of_ascii c) && (N_of_ascii c <=? 102))%N.

Definition lower_hex (x : string) : bool := forallb is_lower_hex (list_ascii_of_string x).

(** ** cmd/demo-put: the logger of the demo command *)

Module DemoPut.

(** [korv.(string)], with the empty string and every other type shown as a
    star. *)
Definition field (korv : logval) : string :=
  match korv with
  | vString str => if String.eqb str EmptyString then "*" else str
  | _ => "*"
  end.

(** [log]: the line [fmt.Printf] writes to the standard output. *)
Definition log (lvl msg : string) (kv : list logval) : string :=
  Sprintf ("%s msg > %s  %s" +:+ LF)
          [oString lvl; oString msg; oString (join "|" (map field kv))].

Definition Info (ctx : Context) (msg : string) (kv : list logval) : string :=
  log "info " msg kv.

Definition Debug (ctx : Context) (msg : string) (kv : list logval) : string :=
  log "debug" msg kv.

Definition Trace (ctx : Context) (msg : string) (kv : list logval) : string :=
  log "trace" msg kv.

Definition Error_ (ctx : Context) (msg : string) (err : error) (kv : list logval) : string :=
  let kv := [vString "error"; vString (Error err)] ++ kv in
  log "error" msg kv.

(** The line the demo logger writes for a logger call recorded in the
    world ([Error] is not called by the client). *)
Definition line (e : LogEntry) : string :=
  match log_level e with
  | lvlInfo => Info (log_ctx e) (log_msg e) (log_kv e)
  | lvlDebug => Debug (log_ctx e) (log_msg e) (log_kv e)
  | lvlTrace => Trace (log_ctx e) (log_msg e) (log_kv e)
  | lvlError => log "error" (log_msg e) (log_kv e)
  end.

End DemoPut.

(** ** A bench to run the client on concrete inputs *)

Module Bench.

(** The configuration of the package's tests. *)
Definition cfg : Config :=
  {| cfg_Region := "test-region"; cfg_Scheme := "https"; cfg_Host := "test-host";
     cfg_Bucket := "test-bucket"; cfg_AccessKey := "test-access-key";
     cfg_SecretKey := "test-secret-key" |}.

Definition ctx : Context := Some 0%nat.

(** The mock of the package's tests: a transport that answers every request
    with one response, whose body is at address 0, and reads nothing. *)
Definition answer (status : Z) (h : Header) : HttpDoer PlainURL.URL :=
  fun _ streams bodies =>
    {| done_resp := Some {| resp_StatusCode := status; resp_Header := h;
                            resp_Body := 0%nat |};
       done_err := None; done_streams := streams; done_bodies := bodies |}.

(** The payload sources once the body of a request was read to its end. *)
Definition sent (req : Request PlainURL.URL) (streams : loc -> ReadSeeker)
  : loc -> ReadSeeker :=
  match req_Body req with
  | Some (body_of l) => <[l := rs_after_read (streams l)]> streams
  | _ => streams
  end.

(** A transport that sends the request as [http.Client] does: it reads
    the body of the request to its end, then answers. *)
Definition upload (status : Z) (h : Header) : HttpDoer PlainURL.URL :=
  fun req streams bodies =>
    {| done_resp := Some {| resp_StatusCode := status; resp_Header := h;
                            resp_Body := 0%nat |};
       done_err := None; done_streams := sent req streams; done_bodies := bodies |}.

(** A [bytes.Reader] over [data] from which [off] bytes were read. *)
Definition reader (data : string) (off : nat) : ReadSeeker :=
  {| rs_type := bytes_Reader; rs_data := list_byte_of_string data; rs_off := off;
     rs_bad := None; rs_noseek := None |}.

(** A file holding [data], with [off] bytes read. *)
Definition file (data : string) (off : nat) : ReadSeeker :=
  {| rs_type := other_ReadSeeker; rs_data := list_byte_of_string data; rs_off := off;
     rs_bad := None; rs_noseek := None |}.

(** A world whose clock starts at 2013-05-24 00:00:00 UTC and advances by
    a second per reading, with one payload source and one response body
    at every address, an empty log and no request sent. *)
Definition world (payload : ReadSeeker) (body : string) : World PlainURL.URL :=
  {| w_clock := fun n => {| Unix := 1369353600 + Z.of_nat n; Nsec := 0; Offset := 0;
                            Mono := Some (1000000000 * Z.of_nat n) |};
     w_ticks := 0;
     w_streams := fun _ => payload;
     w_bodies := fun _ => {| rc_unread := list_byte_of_string body; rc_closed := false |};
     w_log := [];
     w_calls := [] |}.

Definition client200 : Client PlainURL.URL := New cfg (answer 200 ∅).

Definition uploader : Client PlainURL.URL := New cfg (upload 200 ∅).

(** The error document of a provider, and the answer that carries it. *)
Definition errorDocument : string :=
  "<?xml version='1.0' encoding='UTF-8'?>" +:+ LF
  +:+ "<Error><Code>NoSuchKey</Code><Message>The specified key does not exist.</Message>"
  +:+ "<RequestId>4442587FB7D0A2F9</RequestId></Error>".

Definition client404 : Client PlainURL.URL :=
  New cfg (answer 404 {[ "Content-Type" := ["application/xml"] ]}).

Definition response404 : Response :=
  {| resp_StatusCode := 404; resp_Header := {[ "Content-Type" := ["application/xml"] ]};
     resp_Body := 0%nat |}.

Definition request : Request PlainURL.URL :=
  {| req_ctx := ctx; req_Method := "GET";
     req_URL := "https://test-host/test-bucket/test-object.txt";
     req_Host := "test-host"; req_Header := ∅; req_Body := None;
     req_ContentLength := 0 |}.


Definition response200 : Response :=
  {| resp_StatusCode := 200; resp_Header := ∅; resp_Body := 0%nat |}.

(** A transport that fails. *)
Definition refuse : HttpDoer PlainURL.URL :=
  fun _ streams bodies =>
    {| done_resp := None; done_err := Some (errNew "connection refused");
       done_streams := streams; done_bodies := bodies |}.

Definition clientDown : Client PlainURL.URL := New cfg refuse.

(** An [http.Client] whose [CheckRedirect] refuses: [Do] returns the
    redirect response, its body closed, together with an error. *)
Definition response302 : Response :=
  {| resp_StatusCode := 302; resp_Header := {[ "Location" := ["https://elsewhere/"] ]};
     resp_Body := 0%nat |}.

Definition stopAtRedirect : HttpDoer PlainURL.URL :=
  fun _ streams bodies =>
    {| done_resp := Some response302; done_err := Some (errNew "redirect refused");
       done_streams := streams;
       done_bodies := <[0%nat := ReadCloser_Close (bodies 0%nat)]> bodies |}.

Definition clientNoRedirect : Client PlainURL.URL := New cfg stopAtRedirect.

(** A [Do] that returns neither a response nor an error. *)
Definition silent : HttpDoer PlainURL.URL :=
  fun _ streams bodies =>
    {| done_resp := None; done_err := None; done_streams := streams;
       done_bodies := bodies |}.

Definition clientSilent : Client PlainURL.URL := New cfg silent.

Definition build := buildRequest PlainURL.Parse PlainURL.String PlainURL.Host.
Definition send := sendRequest PlainURL.String Xml.Unmarshal.
Definition get := Get PlainURL.Parse PlainURL.String PlainURL.Host Xml.Unmarshal.
Definition put := Put PlainURL.Parse PlainURL.String PlainURL.Host Xml.Unmarshal.

End Bench.

(** * Properties *)

(** ** Test vectors for the library models *)

Example sha256_abc :
  sha256Hash "abc" = "ba7816bf8f01cfea414140de5dae2223b00361a396177a9cb410ff61f20015ad".
Proof. vm_compute. reflexivity. Qed.

(** RFC 4231, test case 2. *)
Example hmac_rfc4231_2 :
  hex_EncodeToString (hmacSHA256 (list_byte_of_string "Jefe") "what do ya want for nothing?")
  = "5bdcc146bf60754e6a042426089575c75a003f089d2739839dec58b964ec3843".
Proof. vm_compute. reflexivity. Qed.

(** The signing-key example of the AWS documentation. *)
Example getSignatureKey_aws :
  hex_EncodeToString
    (getSignatureKey "wJalrXUtnFEMI/K7MDENG+bPxRfiCYEXAMPLEKEY" "20120215" "us-east-1" "iam")
  = "f4780e2d9f65fa895f9c67b32ce1baf0b0d8a43505a000a1a9e090d414db404d".
Proof. vm_compute. reflexivity. Qed.

Example format_2013 :
  Time_Format {| Unix := 1369353600; Nsec := 0; Offset := 0; Mono := None |} "20060102T150405Z"
  = "20130524T000000Z".
Proof. reflexivity. Qed.

Example format_leap_day_offset :
  Time_Format {| Unix := 951782400; Nsec := 0; Offset := 3600; Mono := None |} "20060102T150405Z"
  = "20000229T010000Z".
Proof. reflexivity. Qed.

(** [strconv.Quote]: plain text; a quote, a backslash, a tab and a control
    byte; a byte that is not UTF-8; a Latin-1 letter, kept, and the control
    U+0085 and the soft hyphen, escaped; a rune of three bytes, kept. *)
Example quote_plain : strconv_Quote "https://h/b/k" = dquote +:+ "https://h/b/k" +:+ dquote.
Proof. reflexivity. Qed.

Example quote_escapes :
  strconv_Quote (String (ascii_of_N 34) (String (ascii_of_N 92) (String (ascii_of_N 9)
                   (String (ascii_of_N 1) (str1 (ascii_of_N 127))))))
  = dquote +:+ "\" +:+ dquote +:+ "\\\t\x01\x7f" +:+ dquote.
Proof. reflexivity. Qed.

Example quote_not_utf8 :
  strconv_Quote (String "a" (String (ascii_of_N 255) (String (ascii_of_N 195) "b")))
  = dquote +:+ "a\xff\xc3b" +:+ dquote.
Proof. reflexivity. Qed.

Example quote_latin1 :
  strconv_Quote (String (ascii_of_N 195) (String (ascii_of_N 169)
                   (String (ascii_of_N 194) (String (ascii_of_N 133)
                      (String (ascii_of_N 194) (str1 (ascii_of_N 173)))))))
  = dquote +:+ String (ascii_of_N 195) (str1 (ascii_of_N 169)) +:+ "\u0085\u00ad"
      +:+ dquote.
Proof. reflexivity. Qed.

Example quote_three_bytes :
  strconv_Quote (String (ascii_of_N 226) (String (ascii_of_N 130) (str1 (ascii_of_N 172))))
  = dquote +:+ String (ascii_of_N 226) (String (ascii_of_N 130) (str1 (ascii_of_N 172)))
      +:+ dquote.
Proof. reflexivity. Qed.

Example quote_overlong_and_surrogate :
  strconv_Quote (String (ascii_of_N 192) (String (ascii_of_N 128)
                   (String (ascii_of_N 237) (String (ascii_of_N 160) (str1 (ascii_of_N 128))))))
  = dquote +:+ "\xc0\x80\xed\xa0\x80" +:+ dquote.
Proof. reflexivity. Qed.

Example canonical_key : CanonicalMIMEHeaderKey "x-amz-content-sha256" = "X-Amz-Content-Sha256".
Proof. reflexivity. Qed.

Example sprintf_status :
  Sprintf "http error, status: %d, body: %s" [oInt 404; oString "gone"]
  = "http error, status: 404, body: gone".
Proof. reflexivity. Qed.

Example unmarshal_error_document :
  Xml.Unmarshal (list_byte_of_string
    ("<?xml version='1.0' encoding='UTF-8'?>" +:+ LF +:+
     "<Error><Code>NoSuchKey</Code><Message>no &amp; such key</Message>" +:+
     "<RequestId>4442587FB7D0A2F9</RequestId><HostId>h/<b>i</b></HostId></Error>"))
  = inr {| Code := "NoSuchKey"; Message := "no & such key"; RequestID := "4442587FB7D0A2F9" |}.
Proof. vm_compute. reflexivity. Qed.

Example unmarshal_plain_text : Xml.Unmarshal (list_byte_of_string "not found") = inl (errNew "EOF").
Proof. vm_compute. reflexivity. Qed.

(** ** The streaming hash interfaces compute the one-shot functions *)

Lemma sha256Hash_spec (data : string) : sha256Hash data = Spec.SHA256hex data.
Proof. reflexivity. Qed.

Lemma hmacSHA256_spec (key : list byte) (data : string) :
  hmacSHA256 key data = Spec.HMAC key data.
Proof.
  unfold hmacSHA256, Spec.HMAC, HMAC_Sum, HMAC_Write, hmac_New, Hash_Sum, Hash_Write,
    sha256_New, xor_pad, Spec.xor_with, Spec.block_key, SHA256.BlockSize.
  cbn [opad inner written app].
  destruct (64 <? length key)%nat; reflexivity.
Qed.

Lemma getSignatureKey_spec (secret date region : string) :
  getSignatureKey secret date region service = Spec.signingKey secret date region.
Proof.
  unfold getSignatureKey, Spec.signingKey, service. cbv zeta.
  rewrite (hmacSHA256_spec _ date), (hmacSHA256_spec _ region),
    (hmacSHA256_spec _ "s3"), (hmacSHA256_spec _ "aws4_request").
  reflexivity.
Qed.

(** ** Formatting lemmas: [Sprintf] on the formats of [signRequest] *)

Lemma append_assoc (a b c : string) : (a +:+ b) +:+ c = a +:+ (b +:+ c).
Proof.
  induction a as [|x a IH]; [reflexivity |].
  change (String x ((a +:+ b) +:+ c) = String x (a +:+ (b +:+ c))).
  now rewrite IH.
Qed.

Lemma append_nil_r (a : string) : a +:+ EmptyString = a.
Proof.
  induction a as [|x a IH]; [reflexivity |].
  change (String x (a +:+ EmptyString) = String x a).
  now rewrite IH.
Qed.

Lemma canonicalHeaders_format (host hash amzDate : string) :
  Sprintf ("host:%s" +:+ LF +:+ "x-amz-content-sha256:%s" +:+ LF +:+ "x-amz-date:%s" +:+ LF)
          [oString host; oString hash; oString amzDate]
  = Spec.canonicalHeaders host hash amzDate.
Proof. reflexivity. Qed.

Lemma canonicalRequest_format (method path headers signed hash : string) :
  Sprintf ("%s" +:+ LF +:+ "%s" +:+ LF +:+ LF +:+ "%s" +:+ LF +:+ "%s" +:+ LF +:+ "%s")
          [oString method; oString path; oString headers; oString signed; oString hash]
  = method +:+ LF +:+ path +:+ LF +:+ LF +:+ headers +:+ LF +:+ signed +:+ LF +:+ hash.
Proof.
  transitivity (method +:+ LF +:+ path +:+ LF +:+ LF +:+ headers +:+ LF +:+ signed +:+ LF
                  +:+ hash +:+ EmptyString); [reflexivity |].
  now rewrite append_nil_r.
Qed.

Lemma credentialScope_format (dateStamp region : string) :
  Sprintf "%s/%s/%s/aws4_request" [oString dateStamp; oString region; oString service]
  = Spec.credentialScope dateStamp region.
Proof. reflexivity. Qed.

Lemma stringToSign_format (amzDate scope digest : string) :
  Sprintf ("AWS4-HMAC-SHA256" +:+ LF +:+ "%s" +:+ LF +:+ "%s" +:+ LF +:+ "%s")
          [oString amzDate; oString scope; oString digest]
  = "AWS4-HMAC-SHA256" +:+ LF +:+ amzDate +:+ LF +:+ scope +:+ LF +:+ digest.
Proof.
  transitivity ("AWS4-HMAC-SHA256" +:+ LF +:+ amzDate +:+ LF +:+ scope +:+ LF
                  +:+ digest +:+ EmptyString); [reflexivity |].
  now rewrite append_nil_r.
Qed.

Lemma authHeader_format (accessKey scope signed signature : string) :
  Sprintf "AWS4-HMAC-SHA256 Credential=%s/%s, SignedHeaders=%s, Signature=%s"
          [oString accessKey; oString scope; oString signed; oString signature]
  = "AWS4-HMAC-SHA256 Credential=" +:+ accessKey +:+ "/" +:+ scope
      +:+ ", SignedHeaders=" +:+ signed +:+ ", Signature=" +:+ signature.
Proof.
  transitivity ("AWS4-HMAC-SHA256 Credential=" +:+ accessKey +:+ "/" +:+ scope
      +:+ ", SignedHeaders=" +:+ signed +:+ ", Signature=" +:+ signature +:+ EmptyString);
    [reflexivity |].
  now rewrite append_nil_r.
Qed.

(** ** The signed headers *)

(** [signRequest] returns the three headers, the first one computed as the
    specification words it. *)
Lemma signRequest_map (method region host path accessKey secretKey payloadHash : string)
    (t : Time) :
  signRequest method region host path accessKey secretKey payloadHash t
  = {[ "Authorization" :=
         Spec.authorization method region host path accessKey secretKey payloadHash t;
       "x-amz-date" := Spec.amzDate t;
       "x-amz-content-sha256" := payloadHash ]}.
Proof.
  unfold signRequest, Spec.authorization.
  rewrite canonicalHeaders_format, canonicalRequest_format, credentialScope_format,
    stringToSign_format, authHeader_format, getSignatureKey_spec, hmacSHA256_spec,
    sha256Hash_spec.
  reflexivity.
Qed.

(** C1. For every method, region, host, path, access key, secret key,
    payload hash and timestamp, the Authorization header that [signRequest]
    produces is the SigV4 one: the canonical request, the canonical headers,
    the signed-headers list, the credential scope, the string to sign, the
    four-stage HMAC-SHA256 key derivation from "AWS4" + secretKey, and the
    final header are the strings the specification spells out. *)
Theorem signRequest_sigv4 (method region host path accessKey secretKey payloadHash : string)
    (t : Time) :
  let amzDate := Time_Format t "20060102T150405Z" in
  let dateStamp := Time_Format t "20060102" in
  let signedHeadersList := "host;x-amz-content-sha256;x-amz-date" in
  let canonicalHeaders :=
    "host:" +:+ host +:+ LF +:+ "x-amz-content-sha256:" +:+ payloadHash +:+ LF
      +:+ "x-amz-date:" +:+ amzDate +:+ LF in
  let canonicalRequest :=
    method +:+ LF +:+ path +:+ LF +:+ LF +:+ canonicalHeaders +:+ LF
      +:+ signedHeadersList +:+ LF +:+ payloadHash in
  let credentialScope := dateStamp +:+ "/" +:+ region +:+ "/s3/aws4_request" in
  let stringToSign :=
    "AWS4-HMAC-SHA256" +:+ LF +:+ amzDate +:+ LF +:+ credentialScope +:+ LF
      +:+ Spec.SHA256hex canonicalRequest in
  let key0 := list_byte_of_string ("AWS4" +:+ secretKey) in
  let key1 := Spec.HMAC key0 dateStamp in
  let key2 := Spec.HMAC key1 region in
  let key3 := Spec.HMAC key2 "s3" in
  let key4 := Spec.HMAC key3 "aws4_request" in
  signRequest method region host path accessKey secretKey payloadHash t !! "Authorization"
  = Some ("AWS4-HMAC-SHA256 Credential=" +:+ accessKey +:+ "/" +:+ credentialScope
          +:+ ", SignedHeaders=" +:+ signedHeadersList
          +:+ ", Signature=" +:+ hex_EncodeToString (Spec.HMAC key4 stringToSign)).
Proof.
  intros. rewrite signRequest_map. rewrite lookup_insert_eq. reflexivity.
Qed.

(** ** Sources *)

Lemma io_Copy_eq (h : Hash) (r : ReadSeeker) :
  io_Copy h r
  = (Z.of_nat (length (read_bytes r)), read_error r, Hash_Write h (read_bytes r),
     rs_after_read r).
Proof.
  unfold io_Copy, read_bytes, read_error, rs_after_read.
  destruct (read_to_EOF r) as [[p e] r']. reflexivity.
Qed.

Lemma Seek_start_eq (r : ReadSeeker) :
  ReadSeeker_Seek r 0 io_SeekStart
  = match rs_noseek r with
    | Some e => (0, Some e, r)
    | None => (0, None, rs_at r 0)
    end.
Proof. unfold ReadSeeker_Seek. destruct (rs_noseek r); reflexivity. Qed.

Lemma seek_error_eq (r : ReadSeeker) : seek_error r = rs_noseek r.
Proof. unfold seek_error. rewrite Seek_start_eq. destruct (rs_noseek r); reflexivity. Qed.

Lemma rs_after_read_noseek (r : ReadSeeker) : rs_noseek (rs_after_read r) = rs_noseek r.
Proof.
  unfold rs_after_read, read_to_EOF.
  destruct (rs_bad r) as [[n e]|]; [destruct (_ && _) |]; reflexivity.
Qed.

Lemma rs_after_read_at (r : ReadSeeker) (n : nat) : rs_at (rs_after_read r) n = rs_at r n.
Proof.
  unfold rs_after_read, read_to_EOF.
  destruct (rs_bad r) as [[k e]|]; [destruct (_ && _) |]; reflexivity.
Qed.

(** A read that meets no error delivers everything from the offset on. *)
Lemma read_ok_bytes (r : ReadSeeker) : read_error r = None -> read_bytes r = rs_rest r.
Proof.
  unfold read_error, read_bytes, read_to_EOF.
  destruct (rs_bad r) as [[n e]|]; [destruct (_ && _) |]; cbn; congruence.
Qed.

(** A source at its start that was read without error reads the same
    again once it is rewound. *)
Lemma rewound_reads_same (r : ReadSeeker) :
  rs_off r = 0%nat -> read_bytes (rs_at r 0) = read_bytes r.
Proof. destruct r as [t d o b k]. cbn. intros ->. reflexivity. Qed.

(** ** [hashPayload] *)

Section HashPayload.

Context {URL : Type}.
Implicit Types (w : World URL) (l : loc) (r : ReadSeeker).

Lemma hashPayload_nil w :
  hashPayload None w = ((emptyHash, 0, None), w).
Proof.
  unfold hashPayload, ret.
  replace (hex_EncodeToString (Hash_Sum sha256_New [])) with emptyHash
    by (vm_compute; reflexivity).
  reflexivity.
Qed.

(** The three outcomes of [hashPayload] on a source. *)
Lemma hashPayload_source l w :
  let src := w_streams w l in
  let size := Z.of_nat (length (read_bytes src)) in
  exists w', only_stream_changed l w w' /\
    match read_error src, seek_error (rs_after_read src) with
    | Some e, _ =>
        hashPayload (Some l) w
        = ((EmptyString, size, Some (errWrap e "failed to hash body")), w')
        /\ w_streams w' l = rs_after_read src
    | None, Some e =>
        hashPayload (Some l) w
        = ((EmptyString, size, Some (errWrap e "failed to seek body")), w')
        /\ w_streams w' l = rs_after_read src
    | None, None =>
        hashPayload (Some l) w
        = ((hex_EncodeToString (SHA256.Sum256 (read_bytes src)), size, None), w')
        /\ w_streams w' l = rs_at src 0
    end.
Proof.
  intros src size. unfold hashPayload, bind, get_stream, put_stream, ret.
  fold src. rewrite io_Copy_eq. rewrite Seek_start_eq, seek_error_eq.
  unfold only_stream_changed.
  destruct (read_error src) as [e|].
  - eexists. split; [| split; [reflexivity |]];
      cbn; rewrite ?fn_lookup_insert; repeat split; auto.
    intros l' Hl. now rewrite fn_lookup_insert_ne.
  - destruct (rs_noseek (rs_after_read src)) as [e|].
    + eexists. split; [| split; [reflexivity |]];
        cbn; rewrite ?fn_lookup_insert; repeat split; auto.
      intros l' Hl. now rewrite !fn_lookup_insert_ne.
    + eexists. split; [| split; [reflexivity |]];
        cbn; rewrite ?fn_lookup_insert; repeat split; auto.
      * intros l' Hl. now rewrite !fn_lookup_insert_ne.
      * apply rs_after_read_at.
Qed.

End HashPayload.

(** ** [buildRequest] *)

Lemma path_format (bucket object : string) :
  Sprintf "/%s/%s" [oString bucket; oString object] = "/" +:+ bucket +:+ "/" +:+ object.
Proof.
  transitivity ("/" +:+ bucket +:+ "/" +:+ object +:+ EmptyString); [reflexivity |].
  now rewrite append_nil_r.
Qed.

Lemma uri_format (scheme host path : string) :
  Sprintf "%s://%s%s" [oString scheme; oString host; oString path]
  = scheme +:+ "://" +:+ host +:+ path.
Proof.
  transitivity (scheme +:+ "://" +:+ host +:+ path +:+ EmptyString); [reflexivity |].
  now rewrite append_nil_r.
Qed.

Lemma create_failed_format (uri : string) :
  Sprintf "failed to create request to %q" [oString uri]
  = "failed to create request to " +:+ strconv_Quote uri.
Proof.
  transitivity ("failed to create request to " +:+ strconv_Quote uri +:+ EmptyString);
    [reflexivity |].
  now rewrite append_nil_r.
Qed.

(** ** Setting the signed headers on a request *)

Lemma set_signed_headers (a d h : string) :
  map_fold (fun k v hd => Header_Set hd k v) (∅ : Header)
    ({[ "Authorization" := a; "x-amz-date" := d; "x-amz-content-sha256" := h ]}
       : gmap string string)
  = signed_Header a d h.
Proof. vm_compute. reflexivity. Qed.

Lemma signed_Header_get (a d h : string) :
  Header_Get (signed_Header a d h) "Authorization" = a
  /\ Header_Get (signed_Header a d h) "x-amz-date" = d
  /\ Header_Get (signed_Header a d h) "x-amz-content-sha256" = h.
Proof. repeat split; vm_compute; reflexivity. Qed.

(** [nothing_left] is the test of net/http. *)
Lemma nothing_left_Len (r : ReadSeeker) :
  nothing_left r
  = match rs_type r with
    | other_ReadSeeker => false
    | _ => Reader_Len r =? 0
    end.
Proof.
  unfold nothing_left, Reader_Len.
  destruct (rs_type r); try reflexivity; destruct (rs_rest r); reflexivity.
Qed.

(** The request that [http.NewRequestWithContext] creates. *)
Lemma NewRequest_inr {URL} (url_Parse : string -> error + URL) (url_Host : URL -> string)
    (ctx : Context) (method uri : string) (body : option loc) (deref : loc -> ReadSeeker)
    (req0 : Request URL) :
  http_NewRequestWithContext url_Parse url_Host ctx method uri body deref = inr req0 ->
  exists u, url_Parse uri = inr u
    /\ req_ctx req0 = ctx
    /\ req_Method req0 = (if String.eqb method EmptyString then "GET" else method)
    /\ req_URL req0 = u /\ req_Host req0 = url_Host u /\ req_Header req0 = ∅
    /\ req_Body req0 = body_for body deref.
Proof.
  unfold http_NewRequestWithContext.
  destruct (negb _); [discriminate |].
  destruct ctx as [n|]; [| discriminate].
  destruct (url_Parse uri) as [e|u]; [discriminate |].
  intros H. exists u. split; [reflexivity |].
  destruct body as [l|]; cbn [option_map body_for] in *.
  - rewrite nothing_left_Len.
    destruct (rs_type (deref l)); cbn [andb] in H;
      try destruct (Reader_Len (deref l) =? 0); injection H as <-; repeat split.
  - injection H as <-. repeat split.
Qed.

(** Whether a request can be created does not depend on the payload. *)
Lemma NewRequest_created {URL} (url_Parse : string -> error + URL) (url_Host : URL -> string)
    (ctx : Context) (method uri : string) (body : option loc) (deref : loc -> ReadSeeker) :
  match http_NewRequestWithContext url_Parse url_Host ctx method uri body deref with
  | inl e => forall body' deref',
      http_NewRequestWithContext url_Parse url_Host ctx method uri body' deref' = inl e
  | inr _ => forall body' deref', exists req',
      http_NewRequestWithContext url_Parse url_Host ctx method uri body' deref' = inr req'
  end.
Proof.
  unfold http_NewRequestWithContext.
  destruct (negb _); [reflexivity |].
  destruct ctx as [n|]; [| reflexivity].
  destruct (url_Parse uri) as [e|u]; [reflexivity |].
  destruct body as [l|]; [destruct (rs_type (deref l)) |];
    cbn [andb]; try destruct (Reader_Len (deref l) =? 0); intros body' deref';
    (destruct body' as [l'|]; [destruct (rs_type (deref' l')) |]);
    cbn [andb]; try destruct (Reader_Len (deref' l') =? 0); eauto.
Qed.

Section BuildRequest.

Context {URL : Type}.
Variable url_Parse : string -> error + URL.
Variable url_String : URL -> string.
Variable url_Host : URL -> string.

Implicit Types (c : Client URL) (w : World URL) (req : Request URL).

Local Abbreviation build := (buildRequest url_Parse url_String url_Host).

(** A blank object key: an error, and the world is not touched. *)
Lemma buildRequest_blank c ctx method pyld w :
  build c ctx method EmptyString pyld w
  = ((None, Some (errNew "object cannot be blank")), w).
Proof. reflexivity. Qed.

(** [buildRequest] on a key that is not blank, step by step. *)
Lemma buildRequest_eq c ctx method object pyld w :
  object <> EmptyString ->
  let path := "/" +:+ bucket c +:+ "/" +:+ object in
  let uri := scheme c +:+ "://" +:+ host c +:+ path in
  let now := Time_UTC (w_clock w (w_ticks w)) in
  build c ctx method object pyld w
  = match http_NewRequestWithContext url_Parse url_Host ctx method uri pyld (w_streams w) with
    | inl err =>
        ((None, Some (errWrap err ("failed to create request to " +:+ strconv_Quote uri))),
         after_tick w)
    | inr req0 =>
        let w1 := after_log lvlDebug ctx "signing request" (signing_kv c path now)
                    (after_tick w) in
        let r := hashPayload pyld w1 in
        match snd (fst r) with
        | Some e => ((Some req0, Some e), snd r)
        | None =>
            let req := set_headers req0 (snd (fst (fst r)))
                         (signRequest method (region c) (host c) path (accessKey c)
                            (secretKey c) (fst (fst (fst r))) now) in
            ((Some req, None),
             after_log lvlDebug ctx "signed request" (signed_kv url_String req) (snd r))
        end
    end.
Proof.
  intros Hobj path uri now. unfold build, buildRequest.
  destruct (String.eqb object EmptyString) eqn:E;
    [apply String.eqb_eq in E; contradiction |].
  rewrite path_format, uri_format. fold path uri.
  unfold bind at 1. unfold time_Now at 1. fold now.
  unfold bind at 1. unfold with_streams at 1. cbn [w_streams].
  destruct (http_NewRequestWithContext url_Parse url_Host ctx method uri pyld (w_streams w))
    as [err | req0].
  - unfold ret, errors_Wrapf. rewrite create_failed_format. reflexivity.
  - unfold bind, logger_Debug, after_log, after_tick, time_Now, log, signing_kv.
    cbv zeta. cbn [snd fst w_clock w_ticks w_streams w_bodies w_log w_calls].
    match goal with |- context [hashPayload pyld ?w1] =>
      destruct (hashPayload pyld w1) as [[[hash size] [e|]] w2] end; reflexivity.
Qed.

(** What a successful [buildRequest] did. *)
Lemma buildRequest_ok c ctx method object pyld w req w' :
  build c ctx method object pyld w = ((Some req, None), w') ->
  let path := "/" +:+ bucket c +:+ "/" +:+ object in
  let uri := scheme c +:+ "://" +:+ host c +:+ path in
  let now := Time_UTC (w_clock w (w_ticks w)) in
  let w1 := after_log lvlDebug ctx "signing request" (signing_kv c path now)
              (after_tick w) in
  object <> EmptyString
  /\ exists u hash size w2,
       url_Parse uri = inr u
       /\ hashPayload pyld w1 = ((hash, size, None), w2)
       /\ req = {| req_ctx := ctx;
                   req_Method := if String.eqb method EmptyString then "GET" else method;
                   req_URL := u; req_Host := url_Host u;
                   req_Header :=
                     signed_Header
                       (Spec.authorization method (region c) (host c) path (accessKey c)
                          (secretKey c) hash now)
                       (Spec.amzDate now) hash;
                   req_Body := body_for pyld (w_streams w); req_ContentLength := size |}
       /\ w' = after_log lvlDebug ctx "signed request" (signed_kv url_String req) w2.
Proof.
  intros Hb path uri now w1.
  assert (Hobj : object <> EmptyString).
  { intros ->. rewrite buildRequest_blank in Hb. discriminate. }
  split; [exact Hobj |].
  rewrite (buildRequest_eq c ctx method object pyld w Hobj) in Hb.
  cbv zeta in Hb. fold path uri now w1 in Hb.
  destruct (http_NewRequestWithContext url_Parse url_Host ctx method uri pyld (w_streams w))
    as [err | req0] eqn:En; [discriminate |].
  apply NewRequest_inr in En as (u & Hu & H1 & H2 & H3 & H4 & H5 & H6).
  destruct (hashPayload pyld w1) as [[[hash size] [e|]] w2] eqn:Eh;
    cbn [fst snd] in Hb; [discriminate |].
  injection Hb as <- <-.
  exists u, hash, size, w2. repeat split; try assumption.
  unfold set_headers. rewrite H1, H2, H3, H4, H5, H6.
  rewrite signRequest_map, set_signed_headers. reflexivity.
Qed.

(** [buildRequest] succeeds when the key is not blank, the request can be
    created, and the payload source (if any) can be read and rewound. *)
Lemma buildRequest_total c ctx method object pyld w req0 :
  object <> EmptyString ->
  http_NewRequestWithContext url_Parse url_Host ctx method
    (scheme c +:+ "://" +:+ host c +:+ "/" +:+ bucket c +:+ "/" +:+ object) pyld
    (w_streams w)
  = inr req0 ->
  (forall l, pyld = Some l ->
     read_error (w_streams w l) = None
     /\ seek_error (rs_after_read (w_streams w l)) = None) ->
  exists req w', build c ctx method object pyld w = ((Some req, None), w').
Proof.
  intros Hobj Hnew Hsrc.
  rewrite (buildRequest_eq c ctx method object pyld w Hobj). cbv zeta. rewrite Hnew.
  destruct pyld as [l|].
  - match goal with |- context [hashPayload (Some l) ?w1] =>
      destruct (hashPayload_source l w1) as (w2 & _ & H); cbv zeta in H;
      change (w_streams w1 l) with (w_streams w l) in H end.
    destruct (Hsrc l eq_refl) as [Hr Hs]. rewrite Hr, Hs in H. destruct H as [-> _].
    cbn [fst snd]. eauto.
  - rewrite hashPayload_nil. cbn [fst snd]. eauto.
Qed.

End BuildRequest.

(** ** The payload hasher (claims C5, C6) *)



(** C6. When the payload source is absent (nil), [hashPayload] returns the
    hex SHA-256 of zero bytes and length 0 and touches nothing; when the
    source is empty (nothing is left to read, in particular when it has no
    content) and neither the reading nor the repositioning fails, it
    returns the same hash and length. *)
Theorem hashPayload_absent_or_empty {URL} (w : World URL) :
  hashPayload None w
  = (("e3b0c44298fc1c149afbf4c8996fb92427ae41e4649b934ca495991b7852b855", 0, None), w)
  /\ forall l,
       rs_rest (w_streams w l) = [] ->
       read_error (w_streams w l) = None ->
       seek_error (rs_after_read (w_streams w l)) = None ->
       fst (hashPayload (Some l) w)
       = ("e3b0c44298fc1c149afbf4c8996fb92427ae41e4649b934ca495991b7852b855", 0, None).
Proof.
  split; [apply hashPayload_nil |].
  intros l Hrest Hr Hs.
  destruct (hashPayload_source l w) as (w' & _ & H). cbv zeta in H.
  rewrite Hr, Hs in H. destruct H as [-> _]. cbn [fst].
  rewrite (read_ok_bytes _ Hr), Hrest.
  replace (hex_EncodeToString (SHA256.Sum256 [])) with emptyHash by (vm_compute; reflexivity).
  reflexivity.
Qed.

(** ** [parseS3Error] and [sendRequest] (claims C3, C9) *)

Lemma http_error_format (status : Z) (body : string) :
  Sprintf "http error, status: %d, body: %s" [oInt status; oString body]
  = "http error, status: " +:+ format_int status +:+ ", body: " +:+ body.
Proof.
  transitivity ("http error, status: " +:+ format_int status +:+ ", body: " +:+ body
                  +:+ EmptyString); [reflexivity |].
  now rewrite append_nil_r.
Qed.

Lemma s3_error_format (code request_id message : string) (h : Header) :
  Sprintf "s3 error, code: %s, request_id: %s, message: %s, headers: %s"
          [oString code; oString request_id; oString message; oHeader h]
  = "s3 error, code: " +:+ code +:+ ", request_id: " +:+ request_id
      +:+ ", message: " +:+ message +:+ ", headers: " +:+ format_Header h.
Proof.
  transitivity ("s3 error, code: " +:+ code +:+ ", request_id: " +:+ request_id
      +:+ ", message: " +:+ message +:+ ", headers: " +:+ format_Header h +:+ EmptyString);
    [reflexivity |].
  now rewrite append_nil_r.
Qed.

Lemma request_failed_format (url : string) :
  Sprintf "failed request to %q" [oString url] = "failed request to " +:+ strconv_Quote url.
Proof.
  transitivity ("failed request to " +:+ strconv_Quote url +:+ EmptyString); [reflexivity |].
  now rewrite append_nil_r.
Qed.

Lemma is_2xx_not (status : Z) :
  (status <? 200) || (300 <=? status) = negb (is_2xx status).
Proof.
  unfold is_2xx.
  destruct (Z.ltb_spec status 200), (Z.leb_spec 300 status), (Z.leb_spec 200 status),
    (Z.ltb_spec status 300); try reflexivity; lia.
Qed.

Lemma is_2xx_true (status : Z) : is_2xx status = true <-> 200 <= status < 300.
Proof. unfold is_2xx. rewrite andb_true_iff, Z.leb_le, Z.ltb_lt. tauto. Qed.

Lemma is_2xx_false (status : Z) : is_2xx status = false <-> status < 200 \/ 300 <= status.
Proof. unfold is_2xx. rewrite andb_false_iff, Z.leb_gt, Z.ltb_ge. tauto. Qed.

Section SendRequest.

Context {URL : Type}.
Variable url_String : URL -> string.
Variable xml_Unmarshal : list byte -> error + s3Error.

Implicit Types (c : Client URL) (w : World URL) (req : Request URL) (resp : Response).

Local Abbreviation send := (sendRequest url_String xml_Unmarshal).

(** The error [parseS3Error] makes of a response in world [w]. *)
Lemma parseS3Error_error resp w :
  let bodyBytes := take 4096 (rc_unread (w_bodies w (resp_Body resp))) in
  fst (parseS3Error xml_Unmarshal resp w)
  = match xml_Unmarshal bodyBytes with
    | inl _ =>
        errNew ("http error, status: " +:+ format_int (resp_StatusCode resp)
                +:+ ", body: " +:+ string_of_list_byte bodyBytes)
    | inr d =>
        errNew ("s3 error, code: " +:+ Code d +:+ ", request_id: " +:+ RequestID d
                +:+ ", message: " +:+ Message d
                +:+ ", headers: " +:+ format_Header (resp_Header resp))
    end.
Proof.
  intros bodyBytes. unfold parseS3Error, bind, get_body, put_body, ReadAll_Limit, ret.
  change (take (1024 * 4) (rc_unread (w_bodies w (resp_Body resp)))) with bodyBytes.
  destruct (xml_Unmarshal bodyBytes) as [e|d]; cbn [fst]; unfold errors_Errorf.
  - now rewrite http_error_format.
  - now rewrite s3_error_format.
Qed.

(** [parseS3Error] changes the world only at the body of the response,
    which it leaves open or closed as it was. *)
Lemma parseS3Error_world resp w :
  let w' := snd (parseS3Error xml_Unmarshal resp w) in
  w_calls w' = w_calls w /\ w_log w' = w_log w /\ w_ticks w' = w_ticks w
  /\ w_streams w' = w_streams w
  /\ rc_closed (w_bodies w' (resp_Body resp)) = rc_closed (w_bodies w (resp_Body resp))
  /\ forall l, l <> resp_Body resp -> w_bodies w' l = w_bodies w l.
Proof.
  unfold parseS3Error, bind, get_body, put_body, ReadAll_Limit, ret.
  destruct (xml_Unmarshal _); cbn; rewrite fn_lookup_insert; repeat split; auto;
    intros l Hl; now rewrite fn_lookup_insert_ne.
Qed.

(** [sendRequest], step by step: a reading of the clock, the call, a second
    reading, and then one of four ends. *)
Lemma sendRequest_eq c ctx req w :
  let d := transport c req w in
  let w1 := after_tick (after_call c req (after_tick w)) in
  let elapsed := Time_Sub (w_clock w (S (w_ticks w))) (w_clock w (w_ticks w)) in
  send c ctx req w
  = match done_err d with
    | Some err =>
        (Returned (done_resp d,
                   Some (errWrap err ("failed request to "
                                      +:+ strconv_Quote (url_String (req_URL req))))), w1)
    | None =>
        match done_resp d with
        | None => (Panicked nil_dereference, w1)
        | Some resp =>
            if is_2xx (resp_StatusCode resp)
            then (Returned (Some resp, None),
                  snd (log lvlInfo ctx "received response"
                         (log_kv (received_entry ctx (resp_StatusCode resp) elapsed)) w1))
            else (Returned (Some resp, Some (fst (parseS3Error xml_Unmarshal resp w1))),
                  snd (Body_Close resp (snd (parseS3Error xml_Unmarshal resp w1))))
        end
    end.
Proof.
  intros d w1 elapsed.
  unfold sendRequest, bind at 1 2 3, time_Now at 1, client_Do, time_Since, bind at 1,
    time_Now at 1, ret at 1.
  cbn [w_clock w_ticks w_streams w_bodies w_log w_calls].
  change (client c req (w_streams w) (w_bodies w)) with d.
  destruct (done_err d) as [err|].
  - unfold ret, errors_Wrapf. rewrite request_failed_format. reflexivity.
  - destruct (done_resp d) as [resp|]; [| reflexivity].
    rewrite is_2xx_not. destruct (is_2xx (resp_StatusCode resp)); cbn [negb].
    + reflexivity.
    + unfold bind at 1.
      change (parseS3Error xml_Unmarshal resp _) with (parseS3Error xml_Unmarshal resp w1).
      destruct (parseS3Error xml_Unmarshal resp w1) as [err w2]. cbn [fst snd].
      unfold bind at 1. destruct (Body_Close resp w2) as [[] w3]. reflexivity.
Qed.

(** The world when the transport has returned and the clock was read
    again. *)
Lemma after_send c req w :
  let w1 := after_tick (after_call c req (after_tick w)) in
  w_calls w1 = w_calls w ++ [req] /\ w_ticks w1 = S (S (w_ticks w))
  /\ w_log w1 = w_log w /\ w_clock w1 = w_clock w
  /\ w_streams w1 = done_streams (transport c req w)
  /\ w_bodies w1 = done_bodies (transport c req w).
Proof. repeat split. Qed.

(** [Body_Close] closes the body of the response and changes nothing else. *)
Lemma Body_Close_world resp w :
  let w' := snd (Body_Close resp w) in
  w_calls w' = w_calls w /\ w_log w' = w_log w /\ w_ticks w' = w_ticks w
  /\ w_streams w' = w_streams w
  /\ w_bodies w' (resp_Body resp) = ReadCloser_Close (w_bodies w (resp_Body resp))
  /\ forall l, l <> resp_Body resp -> w_bodies w' l = w_bodies w l.
Proof.
  unfold Body_Close, bind, get_body, put_body. cbn. rewrite fn_lookup_insert.
  repeat split. intros l Hl. now rewrite fn_lookup_insert_ne.
Qed.

(** What [sendRequest] does with an answer whose status is not 2xx. *)
Lemma sendRequest_rejected c ctx req w resp :
  done_resp (transport c req w) = Some resp ->
  done_err (transport c req w) = None ->
  is_2xx (resp_StatusCode resp) = false ->
  let w1 := after_tick (after_call c req (after_tick w)) in
  let bodyBytes := take 4096 (rc_unread (done_bodies (transport c req w) (resp_Body resp))) in
  exists w',
    send c ctx req w
    = (Returned
         (Some resp,
          Some match xml_Unmarshal bodyBytes with
               | inl _ =>
                   errNew ("http error, status: " +:+ format_int (resp_StatusCode resp)
                           +:+ ", body: " +:+ string_of_list_byte bodyBytes)
               | inr d =>
                   errNew ("s3 error, code: " +:+ Code d +:+ ", request_id: " +:+ RequestID d
                           +:+ ", message: " +:+ Message d
                           +:+ ", headers: " +:+ format_Header (resp_Header resp))
               end), w')
    /\ w' = snd (Body_Close resp (snd (parseS3Error xml_Unmarshal resp w1)))
    /\ rc_closed (w_bodies w' (resp_Body resp)) = true.
Proof.
  intros Hr He H2 w1 bodyBytes. rewrite sendRequest_eq. cbv zeta. rewrite He, Hr, H2.
  fold w1. rewrite (parseS3Error_error resp w1). cbv zeta.
  change (w_bodies w1) with (done_bodies (transport c req w)). fold bodyBytes.
  eexists. split; [reflexivity |]. split; [reflexivity |].
  destruct (Body_Close_world resp (snd (parseS3Error xml_Unmarshal resp w1)))
    as (_ & _ & _ & _ & Hb & _).
  cbv zeta in Hb. rewrite Hb. reflexivity.
Qed.

(** The effects of [sendRequest] that do not depend on the answer: the
    request is handed to the transport once, the clock is read twice, and
    the payload sources are as the transport left them. *)
Lemma sendRequest_frame c ctx req w :
  let w' := snd (send c ctx req w) in
  w_calls w' = w_calls w ++ [req] /\ w_ticks w' = S (S (w_ticks w))
  /\ w_streams w' = done_streams (transport c req w).
Proof.
  cbv zeta. rewrite sendRequest_eq. cbv zeta.
  destruct (done_err (transport c req w)) as [err|]; [repeat split |].
  destruct (done_resp (transport c req w)) as [resp|]; [| repeat split].
  destruct (is_2xx (resp_StatusCode resp)); [repeat split |].
  cbn [snd].
  match goal with |- context [parseS3Error xml_Unmarshal resp ?w1] =>
    destruct (parseS3Error_world resp w1) as (Hc & _ & Ht & Hs & _);
    destruct (Body_Close_world resp (snd (parseS3Error xml_Unmarshal resp w1)))
      as (Hc' & _ & Ht' & Hs' & _) end.
  cbv zeta in *. rewrite Hc', Ht', Hs', Hc, Ht, Hs. repeat split.
Qed.

(** Every [sendRequest] hands its request to the transport, once. *)
Lemma sendRequest_calls c ctx req w :
  w_calls (snd (send c ctx req w)) = w_calls w ++ [req].
Proof. apply sendRequest_frame. Qed.

End SendRequest.

(** ** Occurrences in strings *)

Lemma prefix_append (x y : string) : String.prefix x (x +:+ y) = true.
Proof.
  induction x as [|a x IH]; [destruct y; reflexivity |].
  change (String a x +:+ y) with (String a (x +:+ y)). cbn.
  destruct (ascii_dec a a); [exact IH | contradiction].
Qed.

Lemma prefix_refl (x : string) : String.prefix x x = true.
Proof. rewrite <- (append_nil_r x) at 2. apply prefix_append. Qed.

Lemma contains_self (x : string) : contains x x = true.
Proof. destruct x; cbn [contains]; rewrite prefix_refl; reflexivity. Qed.

Lemma contains_skip (sub a x : string) : contains sub x = true -> contains sub (a +:+ x) = true.
Proof.
  intros H. induction a as [|c a IH]; [exact H |].
  change (String c a +:+ x) with (String c (a +:+ x)). cbn [contains].
  rewrite IH. apply orb_true_r.
Qed.

(** C3, as the code has it. For every answer (a response that [Do] returns
    without an error) whose status is not 2xx, [sendRequest] closes the
    response body and returns an error made from at most 4096 bytes of the
    body: when they unmarshal as the XML error document, the provider error
    carrying its code, request id and message and the response headers;
    when they do not, the generic HTTP error carrying the status and the
    (truncated) body text. *)
Theorem sendRequest_non2xx {URL} (url_String : URL -> string)
    (xml_Unmarshal : list byte -> error + s3Error)
    (c : Client URL) (ctx : Context) (req : Request URL) (w : World URL) (resp : Response) :
  done_resp (transport c req w) = Some resp ->
  done_err (transport c req w) = None ->
  resp_StatusCode resp < 200 \/ 300 <= resp_StatusCode resp ->
  let bodyBytes :=
    take 4096 (rc_unread (done_bodies (transport c req w) (resp_Body resp))) in
  exists err w',
    sendRequest url_String xml_Unmarshal c ctx req w = (Returned (Some resp, Some err), w')
    /\ rc_closed (w_bodies w' (resp_Body resp)) = true
    /\ match xml_Unmarshal bodyBytes with
       | inr d =>
           Error err
           = "s3 error, code: " +:+ Code d +:+ ", request_id: " +:+ RequestID d
               +:+ ", message: " +:+ Message d
               +:+ ", headers: " +:+ format_Header (resp_Header resp)
           /\ contains (format_Header (resp_Header resp)) (Error err) = true
       | inl _ =>
           Error err
           = "http error, status: " +:+ format_int (resp_StatusCode resp)
               +:+ ", body: " +:+ string_of_list_byte bodyBytes
       end.
Proof.
  intros Hr He Hst bodyBytes.
  apply is_2xx_false in Hst.
  destruct (sendRequest_rejected url_String xml_Unmarshal c ctx req w resp Hr He Hst)
    as (w' & Hs & _ & Hc).
  cbv zeta in Hs. fold bodyBytes in Hs.
  eexists _, w'. split; [exact Hs |]. split; [exact Hc |].
  destruct (xml_Unmarshal bodyBytes) as [e|d]; cbn [Error]; [reflexivity |].
  split; [reflexivity |].
  do 7 apply contains_skip. apply contains_self.
Qed.

(** C3, as the specification has it, fails: the generic HTTP error does not
    include the response headers. A 500 answer with one header and the body
    [boom] gives an error that shows neither the headers nor the header's
    name or value. *)
Lemma http_error_omits_headers :
  exists (c : Client PlainURL.URL) (req : Request PlainURL.URL) (w : World PlainURL.URL)
         (resp : Response) (err : error),
    done_resp (transport c req w) = Some resp
    /\ done_err (transport c req w) = None
    /\ resp_StatusCode resp = 500
    /\ resp_Header resp = {[ "X-Amz-Request-Id" := ["4442587FB7D0A2F9"] ]}
    /\ fst (sendRequest PlainURL.String Xml.Unmarshal c Bench.ctx req w)
       = Returned (Some resp, Some err)
    /\ Error err = "http error, status: 500, body: boom"
    /\ contains (format_Header (resp_Header resp)) (Error err) = false
    /\ contains "X-Amz-Request-Id" (Error err) = false
    /\ contains "4442587FB7D0A2F9" (Error err) = false.
Proof.
  exists (New Bench.cfg (Bench.answer 500 {[ "X-Amz-Request-Id" := ["4442587FB7D0A2F9"] ]})),
    {| req_ctx := Bench.ctx; req_Method := "GET";
       req_URL := "https://test-host/test-bucket/test-object.txt";
       req_Host := "test-host"; req_Header := ∅; req_Body := None;
       req_ContentLength := 0 |},
    (Bench.world (Bench.reader EmptyString 0) "boom").
  do 2 eexists. split; [reflexivity |]. split; [reflexivity |].
  split; [reflexivity |]. split; [reflexivity |].
  split; [vm_compute; reflexivity |].
  repeat split; vm_compute; reflexivity.
Qed.

(** C9. [parseS3Error] gives the generic HTTP error exactly when the
    unmarshalling of the first 4096 bytes of the body fails, and the
    provider error exactly when it succeeds. When it succeeds and leaves
    the three fields empty, the error is the provider error with empty
    code, request id and message. [<Foo/>] is such a body: it unmarshals
    with the three fields empty, and a response with that body is a
    provider error. *)
Theorem parseS3Error_branches {URL} (xml_Unmarshal : list byte -> error + s3Error)
    (resp : Response) (w : World URL) :
  let bodyBytes := take 4096 (rc_unread (w_bodies w (resp_Body resp))) in
  let err := fst (parseS3Error xml_Unmarshal resp w) in
  (String.prefix "http error, status: " (Error err) = true
   <-> exists e, xml_Unmarshal bodyBytes = inl e)
  /\ (String.prefix "s3 error, code: " (Error err) = true
      <-> exists d, xml_Unmarshal bodyBytes = inr d)
  /\ (xml_Unmarshal bodyBytes = inr s3Error_zero ->
      Error err
      = "s3 error, code: , request_id: , message: , headers: "
          +:+ format_Header (resp_Header resp))
  /\ Xml.Unmarshal (list_byte_of_string "<Foo/>") = inr s3Error_zero
  /\ (rc_unread (w_bodies w (resp_Body resp)) = list_byte_of_string "<Foo/>" ->
      Error (fst (parseS3Error Xml.Unmarshal resp w))
      = "s3 error, code: , request_id: , message: , headers: "
          +:+ format_Header (resp_Header resp)).
Proof.
  intros bodyBytes err.
  pose proof (parseS3Error_error xml_Unmarshal resp w) as He.
  cbv zeta in He. fold bodyBytes err in He.
  assert (Hfoo : Xml.Unmarshal (list_byte_of_string "<Foo/>") = inr s3Error_zero)
    by (vm_compute; reflexivity).
  split; [| split; [| split; [| split]]].
  - split.
    + intros Hp. destruct (xml_Unmarshal bodyBytes) as [e|d]; [eauto |].
      rewrite He in Hp. discriminate Hp.
    + intros [e Hx]. rewrite Hx in He. rewrite He. apply prefix_append.
  - split.
    + intros Hp. destruct (xml_Unmarshal bodyBytes) as [e|d]; [| eauto].
      rewrite He in Hp. discriminate Hp.
    + intros [d Hx]. rewrite Hx in He. rewrite He. apply prefix_append.
  - intros Hx. rewrite Hx in He. rewrite He. reflexivity.
  - exact Hfoo.
  - intros Hbody. rewrite (parseS3Error_error Xml.Unmarshal resp w). cbv zeta.
    rewrite Hbody.
    change (take 4096 (list_byte_of_string "<Foo/>")) with (list_byte_of_string "<Foo/>").
    rewrite Hfoo. reflexivity.
Qed.

(** ** What the client leaves unchanged *)

Section Frames.

Context {URL : Type}.
Variable url_Parse : string -> error + URL.
Variable url_String : URL -> string.
Variable url_Host : URL -> string.
Variable xml_Unmarshal : list byte -> error + s3Error.

Implicit Types (c : Client URL) (w : World URL) (req : Request URL) (resp : Response).

Local Abbreviation build := (buildRequest url_Parse url_String url_Host).
Local Abbreviation send := (sendRequest url_String xml_Unmarshal).
Local Abbreviation get := (Get url_Parse url_String url_Host xml_Unmarshal).
Local Abbreviation put := (Put url_Parse url_String url_Host xml_Unmarshal).

(** [hashPayload] reads no clock, logs nothing, sends nothing and touches
    no response body. *)
Lemma hashPayload_frame (body : option loc) w :
  let w' := snd (hashPayload body w) in
  w_clock w' = w_clock w /\ w_ticks w' = w_ticks w /\ w_log w' = w_log w
  /\ w_calls w' = w_calls w /\ w_bodies w' = w_bodies w.
Proof.
  destruct body as [l|]; [| rewrite hashPayload_nil; cbn; auto].
  destruct (hashPayload_source l w) as (w' & (Hc & Ht & Hb & Hl & Hk & _) & H).
  cbv zeta in H.
  destruct (read_error _); [| destruct (seek_error _)]; destruct H as [-> _];
    cbn [snd]; auto.
Qed.

(** What [buildRequest] leaves alone: it sends nothing and touches no
    response body; it reads the clock once unless the key is blank. *)
Lemma buildRequest_frame c ctx method object pyld w :
  let w' := snd (build c ctx method object pyld w) in
  w_calls w' = w_calls w /\ w_bodies w' = w_bodies w /\ w_clock w' = w_clock w
  /\ w_ticks w' = if String.eqb object EmptyString then w_ticks w else S (w_ticks w).
Proof.
  cbv zeta. destruct (String.eqb object EmptyString) eqn:E.
  - apply String.eqb_eq in E. subst object. repeat split.
  - apply String.eqb_neq in E.
    rewrite (buildRequest_eq url_Parse url_String url_Host c ctx method object pyld w E).
    cbv zeta. destruct (http_NewRequestWithContext _ _ _ _ _ _ _); [repeat split |].
    match goal with |- context [hashPayload pyld ?w1] =>
      pose proof (hashPayload_frame pyld w1) as (Hc & Ht & _ & Hk & Hb);
      destruct (hashPayload pyld w1) as [[[hash size] [e|]] w2] end;
      cbn [fst snd] in *; unfold after_log, log; cbn [snd w_calls w_bodies w_clock w_ticks];
      rewrite Hc, Ht, Hk, Hb; repeat split.
Qed.

(** [buildRequest] sends nothing. *)
Lemma buildRequest_calls c ctx method object pyld w :
  w_calls (snd (build c ctx method object pyld w)) = w_calls w.
Proof. apply buildRequest_frame. Qed.

(** [buildRequest] touches no response body. *)
Lemma buildRequest_bodies c ctx method object pyld w :
  w_bodies (snd (build c ctx method object pyld w)) = w_bodies w.
Proof. apply buildRequest_frame. Qed.

(** The clock after [buildRequest]: read once unless the key is blank. *)
Lemma buildRequest_ticks c ctx method object pyld w :
  w_ticks (snd (build c ctx method object pyld w))
  = if String.eqb object EmptyString then w_ticks w else S (w_ticks w).
Proof. apply buildRequest_frame. Qed.

(** [buildRequest] never returns neither a request nor an error. *)
Lemma buildRequest_some c ctx method object pyld w :
  fst (build c ctx method object pyld w) <> (None, None).
Proof.
  destruct (String.eqb object EmptyString) eqn:E.
  - apply String.eqb_eq in E. subst object. rewrite buildRequest_blank. discriminate.
  - apply String.eqb_neq in E.
    rewrite (buildRequest_eq url_Parse url_String url_Host c ctx method object pyld w E).
    cbv zeta. destruct (http_NewRequestWithContext _ _ _ _ _ _ _); [discriminate |].
    destruct (snd (fst (hashPayload pyld _))); discriminate.
Qed.

(** [Get] and [Put] in terms of [buildRequest] and [sendRequest]. *)
Lemma Get_eq c ctx object w :
  get c ctx object w
  = match build c ctx "GET" object None w with
    | ((_, Some e), w1) => (Returned (None, Some e), w1)
    | ((None, None), w1) => (Returned (None, None), w1)
    | ((Some req, None), w1) =>
        match send c ctx req w1 with
        | (Panicked reason, w2) => (Panicked reason, w2)
        | (Returned (_, Some e), w2) => (Returned (None, Some e), w2)
        | (Returned (None, None), w2) => (Panicked nil_dereference, w2)
        | (Returned (Some resp, None), w2) => (Returned (Some (resp_Body resp), None), w2)
        end
    end.
Proof.
  unfold Get, bind at 1.
  destruct (buildRequest url_Parse url_String url_Host c ctx "GET" object None w)
    as [[[req|] [e|]] w1]; try reflexivity.
  unfold bind at 1.
  destruct (sendRequest url_String xml_Unmarshal c ctx req w1)
    as [[[[resp|] [e|]] | reason] w2]; reflexivity.
Qed.

Lemma Put_eq c ctx object reader w :
  put c ctx object reader w
  = match build c ctx "PUT" object reader w with
    | ((_, Some e), w1) => (Returned (Some e), w1)
    | ((None, None), w1) => (Returned None, w1)
    | ((Some req, None), w1) =>
        match send c ctx req w1 with
        | (Panicked reason, w2) => (Panicked reason, w2)
        | (Returned (_, Some e), w2) => (Returned (Some e), w2)
        | (Returned (None, None), w2) => (Panicked nil_dereference, w2)
        | (Returned (Some resp, None), w2) => (Returned None, snd (Body_Close resp w2))
        end
    end.
Proof.
  unfold Put, bind at 1.
  destruct (buildRequest url_Parse url_String url_Host c ctx "PUT" object reader w)
    as [[[req|] [e|]] w1]; try reflexivity.
  unfold bind at 1.
  destruct (sendRequest url_String xml_Unmarshal c ctx req w1)
    as [[[[resp|] [e|]] | reason] w2]; reflexivity.
Qed.

(** What [Get] and [Put] add to the effects of [sendRequest]: nothing but
    the closing of the response body by [Put]. *)
Lemma Get_after_send c ctx object w req w1 :
  build c ctx "GET" object None w = ((Some req, None), w1) ->
  snd (get c ctx object w) = snd (send c ctx req w1).
Proof.
  intros Hb. rewrite Get_eq, Hb.
  destruct (send c ctx req w1) as [[[[resp|] [e|]] | reason] w2]; reflexivity.
Qed.

Lemma Put_after_send c ctx object reader w req w1 :
  build c ctx "PUT" object reader w = ((Some req, None), w1) ->
  let w2 := snd (send c ctx req w1) in
  let w' := snd (put c ctx object reader w) in
  w_calls w' = w_calls w2 /\ w_ticks w' = w_ticks w2 /\ w_streams w' = w_streams w2
  /\ w_log w' = w_log w2.
Proof.
  intros Hb. cbv zeta. rewrite Put_eq, Hb.
  destruct (send c ctx req w1) as [[[[resp|] [e|]] | reason] w2]; repeat split.
Qed.

(** The calls of [Get] and of [Put]: none when no request was built,
    else the request built, once. *)
Lemma Get_calls c ctx object w :
  w_calls (snd (get c ctx object w))
  = match fst (build c ctx "GET" object None w) with
    | (Some req, None) => w_calls w ++ [req]
    | _ => w_calls w
    end.
Proof.
  pose proof (buildRequest_calls c ctx "GET" object None w) as Hk.
  destruct (build c ctx "GET" object None w) as [[[req|] [e|]] w1] eqn:Hb;
    cbn [fst snd] in *; try (rewrite Get_eq, Hb; exact Hk).
  rewrite (Get_after_send c ctx object w req w1 Hb), sendRequest_calls, Hk. reflexivity.
Qed.

Lemma Put_calls c ctx object reader w :
  w_calls (snd (put c ctx object reader w))
  = match fst (build c ctx "PUT" object reader w) with
    | (Some req, None) => w_calls w ++ [req]
    | _ => w_calls w
    end.
Proof.
  pose proof (buildRequest_calls c ctx "PUT" object reader w) as Hk.
  destruct (build c ctx "PUT" object reader w) as [[[req|] [e|]] w1] eqn:Hb;
    cbn [fst snd] in *; try (rewrite Put_eq, Hb; exact Hk).
  destruct (Put_after_send c ctx object reader w req w1 Hb) as (Hc & _).
  rewrite Hc, sendRequest_calls, Hk. reflexivity.
Qed.

End Frames.

(** ** The client (claims C2, C4, C8, C10) *)

(** C4. For every context and body, [Get] and [Put] of the blank key return
    the error "object cannot be blank", whose message contains "cannot be
    blank". The check comes first: no request is constructed and the world
    is returned as it was, so the clock was not read, nothing was logged, no
    source was read or repositioned, and no request was handed to the
    transport. *)
Theorem blank_object_rejected {URL} (url_Parse : string -> error + URL)
    (url_String url_Host : URL -> string) (xml_Unmarshal : list byte -> error + s3Error)
    (c : Client URL) (ctx : Context) (method : string) (body : option loc) (w : World URL) :
  exists e,
    Error e = "object cannot be blank"
    /\ contains "cannot be blank" (Error e) = true
    /\ Get url_Parse url_String url_Host xml_Unmarshal c ctx EmptyString w
       = (Returned (None, Some e), w)
    /\ Put url_Parse url_String url_Host xml_Unmarshal c ctx EmptyString body w
       = (Returned (Some e), w)
    /\ buildRequest url_Parse url_String url_Host c ctx method EmptyString body w
       = ((None, Some e), w)
    /\ w_calls (snd (Get url_Parse url_String url_Host xml_Unmarshal c ctx EmptyString w))
       = w_calls w
    /\ w_calls (snd (Put url_Parse url_String url_Host xml_Unmarshal c ctx EmptyString body w))
       = w_calls w.
Proof.
  exists (errNew "object cannot be blank").
  repeat split; reflexivity.
Qed.

(** A GET request without a payload can be created when the context is
    not nil and the URI parses. *)
Lemma NewRequest_GET {URL} (url_Parse : string -> error + URL) (url_Host : URL -> string)
    (n : nat) (uri : string) (u : URL) (deref : loc -> ReadSeeker) :
  url_Parse uri = inr u ->
  http_NewRequestWithContext url_Parse url_Host (Some n) "GET" uri None deref
  = inr {| req_ctx := Some n; req_Method := "GET"; req_URL := u; req_Host := url_Host u;
           req_Header := ∅; req_Body := None; req_ContentLength := 0 |}.
Proof.
  intros Hu. unfold http_NewRequestWithContext.
  change (negb (validMethod (if String.eqb "GET" EmptyString then "GET" else "GET")))
    with false.
  cbv iota. rewrite Hu. reflexivity.
Qed.

(** C10. [Get] builds its request with a nil payload. On a nil payload
    [hashPayload] returns the empty-body hash and length 0 in every world
    and leaves the world as it was: it attempts no read and no seek, and
    cannot fail. So what [Get] does follows [buildRequest] for a GET with a
    nil payload. When that returns a request, the request has no body, the
    empty-body hash as its x-amz-content-sha256 header and content length
    0, no payload source was touched to build it, and it is this request,
    and no other, that [Get] hands to the transport, ending in the world
    in which sending it ends. When it returns an error, [Get] returns that
    error and nothing is sent; the error is the blank-key error or the
    error of the request's creation, never one of hashing. And for a key
    that is not blank, a context that is not nil and a URI that parses, the
    request is built. *)
Theorem Get_sends_empty_payload {URL} (url_Parse : string -> error + URL)
    (url_String url_Host : URL -> string) (xml_Unmarshal : list byte -> error + s3Error)
    (c : Client URL) (ctx : Context) (object : string) (w : World URL) :
  let hash0 := "e3b0c44298fc1c149afbf4c8996fb92427ae41e4649b934ca495991b7852b855" in
  let uri := scheme c +:+ "://" +:+ host c +:+ "/" +:+ bucket c +:+ "/" +:+ object in
  let get := Get url_Parse url_String url_Host xml_Unmarshal c ctx object w in
  let built := buildRequest url_Parse url_String url_Host c ctx "GET" object None w in
  (forall w0 : World URL, hashPayload None w0 = ((hash0, 0, None), w0))
  /\ match built with
     | ((Some req, None), w1) =>
         req_Method req = "GET"
         /\ req_Body req = None
         /\ Header_Get (req_Header req) "x-amz-content-sha256" = hash0
         /\ req_ContentLength req = 0
         /\ w_streams w1 = w_streams w
         /\ w_calls (snd get) = w_calls w ++ [req]
         /\ snd get = snd (sendRequest url_String xml_Unmarshal c ctx req w1)
     | ((_, Some e), w1) =>
         get = (Returned (None, Some e), w1)
         /\ w_calls w1 = w_calls w
         /\ w_streams w1 = w_streams w
         /\ (object = EmptyString
             \/ exists e0,
                  http_NewRequestWithContext url_Parse url_Host ctx "GET" uri None
                    (w_streams w) = inl e0
                  /\ e = errWrap e0 ("failed to create request to " +:+ strconv_Quote uri))
     | ((None, None), _) => False
     end
  /\ (object <> EmptyString -> ctx <> None -> (exists u, url_Parse uri = inr u) ->
      exists req w1, built = ((Some req, None), w1)).
Proof.
  intros hash0 uri get built.
  split; [intros w0; apply hashPayload_nil |].
  destruct (String.eqb object EmptyString) eqn:E.
  { apply String.eqb_eq in E. subst object. subst built get.
    split; [| intros H; contradiction].
    rewrite buildRequest_blank. repeat split. left. reflexivity. }
  apply String.eqb_neq in E.
  pose proof (buildRequest_eq url_Parse url_String url_Host c ctx "GET" object None w E)
    as Heq.
  cbv zeta in Heq. fold uri built in Heq. rewrite hashPayload_nil in Heq.
  cbn [fst snd] in Heq.
  split.
  - destruct (http_NewRequestWithContext url_Parse url_Host ctx "GET" uri None (w_streams w))
      as [e0|req0] eqn:En.
    + rewrite Heq. split; [| split; [| split]]; try reflexivity.
      * subst get. rewrite Get_eq. fold built. rewrite Heq. reflexivity.
      * right. exists e0. split; reflexivity.
    + pose proof Heq as Hb.
      apply buildRequest_ok in Hb as (_ & u & hash & size & w2 & _ & Hh & Hreq & Hw).
      rewrite hashPayload_nil in Hh. injection Hh as <- <- <-.
      rewrite Heq. rewrite Hreq at 1 2 3 4.
      cbn [req_Method req_Body req_Header req_ContentLength body_for].
      split; [reflexivity |]. split; [reflexivity |].
      split; [apply signed_Header_get |]. split; [reflexivity |].
      split; [reflexivity |]. split.
      * subst get. rewrite Get_calls. fold built. rewrite Heq. reflexivity.
      * subst get. apply (Get_after_send url_Parse url_String url_Host xml_Unmarshal).
        exact Heq.
  - intros _ Hctx [u Hu]. destruct ctx as [n|]; [| contradiction].
    rewrite (NewRequest_GET url_Parse url_Host n uri u (w_streams w) Hu) in Heq.
    eauto.
Qed.

(** C8. For every key that is not blank, the path is [/<bucket>/<key>] and
    the URI is [<scheme>://<host><path>], for [Get] and for [Put]: the
    request they hand to the transport is the one [buildRequest] built, its
    URL is the parse of exactly that URI, and its Authorization header is
    signed over exactly that path; when the request cannot be created the
    error names that URI. *)
Theorem request_path_and_uri {URL} (url_Parse : string -> error + URL)
    (url_String url_Host : URL -> string) (xml_Unmarshal : list byte -> error + s3Error)
    (c : Client URL) (ctx : Context) (object : string) (reader : option loc) (w : World URL) :
  object <> EmptyString ->
  let path := "/" +:+ bucket c +:+ "/" +:+ object in
  let uri := scheme c +:+ "://" +:+ host c +:+ path in
  let now := Time_UTC (w_clock w (w_ticks w)) in
  let made_for (method : string) (req : Request URL) :=
    url_Parse uri = inr (req_URL req)
    /\ exists hash,
         Header_Get (req_Header req) "Authorization"
         = Spec.authorization method (region c) (host c) path (accessKey c) (secretKey c)
             hash now in
  (forall req w',
      buildRequest url_Parse url_String url_Host c ctx "GET" object None w
      = ((Some req, None), w') ->
      made_for "GET" req
      /\ w_calls (snd (Get url_Parse url_String url_Host xml_Unmarshal c ctx object w))
         = w_calls w ++ [req])
  /\ (forall req w',
         buildRequest url_Parse url_String url_Host c ctx "PUT" object reader w
         = ((Some req, None), w') ->
         made_for "PUT" req
         /\ w_calls (snd (Put url_Parse url_String url_Host xml_Unmarshal c ctx object reader w))
            = w_calls w ++ [req])
  /\ (forall method pyld err,
         http_NewRequestWithContext url_Parse url_Host ctx method uri pyld (w_streams w)
         = inl err ->
         fst (buildRequest url_Parse url_String url_Host c ctx method object pyld w)
         = (None, Some (errWrap err ("failed to create request to " +:+ strconv_Quote uri)))).
Proof.
  intros Hobj path uri now made_for.
  assert (Hm : forall method pyld req w',
             buildRequest url_Parse url_String url_Host c ctx method object pyld w
             = ((Some req, None), w') -> made_for method req).
  { intros method pyld req w' E.
    apply buildRequest_ok in E as (_ & u & hash & size & w2 & Hu & _ & -> & _).
    fold path uri now in Hu |- *. split; [exact Hu |]. exists hash.
    cbn [req_Header]. apply signed_Header_get. }
  split; [| split].
  - intros req w' E. split; [exact (Hm _ _ _ _ E) |].
    rewrite Get_calls, E. reflexivity.
  - intros req w' E. split; [exact (Hm _ _ _ _ E) |].
    rewrite Put_calls, E. reflexivity.
  - intros method pyld err E.
    rewrite (buildRequest_eq url_Parse url_String url_Host c ctx method object pyld w Hobj).
    cbv zeta. fold path uri. rewrite E. reflexivity.
Qed.

(** C2 at a source that is not at its start. Of a [bytes.Reader] over [ab]
    with one byte already read, [buildRequest] hashes [b] and declares the
    content length 1, then rewinds the reader to its start: the body of the
    request is the reader, which now delivers [ab], and the
    x-amz-content-sha256 header is not the hash of these bytes. *)
Lemma hash_of_rest_body_of_whole :
  match Bench.build Bench.client200 Bench.ctx "PUT" "demo.txt" (Some 0%nat)
          (Bench.world (Bench.reader "ab" 1) EmptyString) with
  | ((Some req, None), w') =>
      Header_Get (req_Header req) "x-amz-content-sha256"
      = "3e23e8160039594a33894f6564e1b1348bbd7a0088d42c4acb73eeaed59c009d"
      /\ sha256Hash "b" = "3e23e8160039594a33894f6564e1b1348bbd7a0088d42c4acb73eeaed59c009d"
      /\ req_ContentLength req = 1
      /\ req_Body req = Some (body_of 0%nat)
      /\ body_bytes w' (req_Body req) = list_byte_of_string "ab"
      /\ hex_EncodeToString (SHA256.Sum256 (body_bytes w' (req_Body req)))
         = "fb8e20fc2e4c3f248c60c39bd652f3c1347298bb977b8b4d5903b85055620603"
      /\ Header_Get (req_Header req) "x-amz-content-sha256"
         <> hex_EncodeToString (SHA256.Sum256 (body_bytes w' (req_Body req)))
  | _ => False
  end.
Proof.
  vm_compute. repeat split. discriminate.
Qed.

(** ** The theorems at work on the bench *)

(** The package's own tests: a GET answered with 200 gives the caller the
    open body, and the one request sent has the expected URL and an
    Authorization header of the AWS4-HMAC-SHA256 scheme. *)
Example get_request_succeeds :
  match Bench.get Bench.client200 Bench.ctx "test-object.txt"
          (Bench.world (Bench.reader EmptyString 0) "test content") with
  | (Returned (Some body, None), w') =>
      rc_unread (w_bodies w' body) = list_byte_of_string "test content"
      /\ rc_closed (w_bodies w' body) = false
      /\ match w_calls w' with
         | [req] =>
             req_URL req = "https://test-host/test-bucket/test-object.txt"
             /\ contains "AWS4-HMAC-SHA256" (Header_Get (req_Header req) "Authorization") = true
         | _ => False
         end
  | _ => False
  end.
Proof. vm_compute. repeat split. Qed.

(** A PUT answered with 200 returns no error, closes the response body, and
    sends one PUT request whose declared length is that of the payload; the
    transport has read the payload to its end. *)
Example put_request_succeeds :
  match Bench.put Bench.uploader Bench.ctx "test-object.txt" (Some 0%nat)
          (Bench.world (Bench.reader "upload content" 0) EmptyString) with
  | (Returned None, w') =>
      rc_closed (w_bodies w' 0%nat) = true
      /\ rs_off (w_streams w' 0%nat) = 14%nat
      /\ match w_calls w' with
         | [req] =>
             req_Method req = "PUT"
             /\ req_ContentLength req = 14
             /\ Header_Get (req_Header req) "x-amz-content-sha256"
                = sha256Hash "upload content"
         | _ => False
         end
  | _ => False
  end.
Proof. vm_compute. repeat split. Qed.

(** A [Do] that returns neither a response nor an error makes [Get] and
    [Put] panic, after the request was handed over. *)
Example silent_transport_panics :
  match Bench.get Bench.clientSilent Bench.ctx "test-object.txt"
          (Bench.world (Bench.reader EmptyString 0) EmptyString) with
  | (Panicked reason, w') => reason = nil_dereference /\ length (w_calls w') = 1%nat
  | _ => False
  end.
Proof. vm_compute. repeat split. Qed.


(** An empty [bytes.Reader] gives the empty-body hash and length 0. *)
Lemma hashPayload_absent_or_empty_witness :
  fst (hashPayload (Some 0%nat) (Bench.world (Bench.reader EmptyString 0) EmptyString))
  = ("e3b0c44298fc1c149afbf4c8996fb92427ae41e4649b934ca495991b7852b855", 0, None).
Proof.
  apply (proj2 (hashPayload_absent_or_empty
                  (Bench.world (Bench.reader EmptyString 0) EmptyString)) 0%nat);
    reflexivity.
Defined.

(** A 404 answer carrying the provider's error document. *)
Lemma sendRequest_non2xx_witness :
  exists err w',
    Bench.send Bench.client404 Bench.ctx Bench.request
      (Bench.world (Bench.reader EmptyString 0) Bench.errorDocument)
    = (Returned (Some Bench.response404, Some err), w')
    /\ rc_closed (w_bodies w' 0%nat) = true
    /\ Error err
       = "s3 error, code: NoSuchKey, request_id: 4442587FB7D0A2F9, "
           +:+ "message: The specified key does not exist., "
           +:+ "headers: map[Content-Type:[application/xml]]".
Proof.
  assert (Hst : 300 <= 404) by lia.
  pose proof (sendRequest_non2xx PlainURL.String Xml.Unmarshal Bench.client404 Bench.ctx
                Bench.request (Bench.world (Bench.reader EmptyString 0) Bench.errorDocument)
                Bench.response404 eq_refl eq_refl (or_intror Hst)) as H.
  cbv zeta in H. destruct H as (err & w' & Hs & Hc & Hm).
  exists err, w'. split; [exact Hs |]. split; [exact Hc |].
  match type of Hm with
  | match ?x with inl _ => _ | inr _ => _ end =>
      let v := eval vm_compute in x in
      replace x with v in Hm by (vm_compute; reflexivity)
  end.
  destruct Hm as [Hm _]. rewrite Hm. vm_compute. reflexivity.
Defined.

(** A response whose body is [<Foo/>] is a provider error with empty fields. *)
Lemma parseS3Error_branches_witness :
  Error (fst (parseS3Error Xml.Unmarshal Bench.response404
                (Bench.world (Bench.reader EmptyString 0) "<Foo/>")))
  = "s3 error, code: , request_id: , message: , headers: map[Content-Type:[application/xml]]".
Proof.
  destruct (parseS3Error_branches Xml.Unmarshal Bench.response404
              (Bench.world (Bench.reader EmptyString 0) "<Foo/>"))
    as (_ & _ & _ & _ & H).
  rewrite (H eq_refl). vm_compute. reflexivity.
Defined.

(** The URL of the GET request of the package's tests. *)
Lemma request_path_and_uri_witness :
  exists req w',
    Bench.build Bench.client200 Bench.ctx "GET" "test-object.txt" None
      (Bench.world (Bench.reader EmptyString 0) "test content")
    = ((Some req, None), w')
    /\ PlainURL.Parse "https://test-host/test-bucket/test-object.txt" = inr (req_URL req).
Proof.
  assert (Hobj : "test-object.txt" <> EmptyString) by discriminate.
  destruct (buildRequest_total PlainURL.Parse PlainURL.String PlainURL.Host
              Bench.client200 Bench.ctx "GET" "test-object.txt" None
              (Bench.world (Bench.reader EmptyString 0) "test content") _ Hobj eq_refl)
    as (req & w' & E); [discriminate |].
  exists req, w'. split; [exact E |].
  exact (proj1 (proj1 (proj1 (request_path_and_uri PlainURL.Parse PlainURL.String
                                PlainURL.Host Xml.Unmarshal Bench.client200 Bench.ctx
                                "test-object.txt" None
                                (Bench.world (Bench.reader EmptyString 0) "test content")
                                Hobj) req w' E))).
Defined.

(** The GET of the package's tests: the one request handed to the transport
    has no body, the empty-body hash and length 0. *)
Lemma Get_sends_empty_payload_witness :
  exists req,
    w_calls (snd (Bench.get Bench.client200 Bench.ctx "test-object.txt"
                    (Bench.world (Bench.reader "unused" 0) "test content")))
    = [req]
    /\ req_Method req = "GET"
    /\ req_Body req = None
    /\ Header_Get (req_Header req) "x-amz-content-sha256" = emptyHash
    /\ req_ContentLength req = 0.
Proof.
  assert (Hobj : "test-object.txt" <> EmptyString) by discriminate.
  assert (Hctx : Bench.ctx <> None) by discriminate.
  pose proof (Get_sends_empty_payload PlainURL.Parse PlainURL.String PlainURL.Host
                Xml.Unmarshal Bench.client200 Bench.ctx "test-object.txt"
                (Bench.world (Bench.reader "unused" 0) "test content")) as H.
  cbv zeta in H. destruct H as (_ & H & Hex).
  destruct (Hex Hobj Hctx (ex_intro _ _ eq_refl)) as (req & w1 & E).
  rewrite E in H. destruct H as (Hm & Hb & Hh & Hl & _ & Hc & _).
  exists req. split; [exact Hc |]. auto.
Defined.

(** * Further properties of the code *)

(** ** [sendRequest], every outcome *)

Section SendOutcomes.

Context {URL : Type}.
Variable url_String : URL -> string.
Variable xml_Unmarshal : list byte -> error + s3Error.

Implicit Types (c : Client URL) (w : World URL) (req : Request URL) (resp : Response).

Local Abbreviation send := (sendRequest url_String xml_Unmarshal).

(** X1. When [Do] returns an error, [sendRequest] returns that error wrapped
    with "failed request to" and the quoted URL of the request, together
    with the response that [Do] returned with it, nil or not. The request
    was handed to the transport once, the clock was read twice, nothing was
    logged, and [sendRequest] itself read and closed nothing: the payload
    sources and the response bodies are as the transport left them. *)
Theorem sendRequest_transport_error c ctx req w err :
  done_err (transport c req w) = Some err ->
  exists w',
    send c ctx req w
    = (Returned (done_resp (transport c req w),
                 Some (errWrap err ("failed request to "
                                    +:+ strconv_Quote (url_String (req_URL req))))), w')
    /\ w_calls w' = w_calls w ++ [req]
    /\ w_ticks w' = S (S (w_ticks w))
    /\ w_log w' = w_log w
    /\ w_bodies w' = done_bodies (transport c req w)
    /\ w_streams w' = done_streams (transport c req w).
Proof.
  intros Hdo. rewrite sendRequest_eq. cbv zeta. rewrite Hdo.
  eexists. split; [reflexivity |]. repeat split.
Qed.

(** X2. When the transport answers with a status from 200 to 299,
    [sendRequest] returns that response and no error, reads and closes no
    response body (the bodies are as the transport left them), and logs one
    info entry "received response" with the status and the time elapsed
    between its two readings of the clock. *)
Theorem sendRequest_success c ctx req w resp :
  done_resp (transport c req w) = Some resp ->
  done_err (transport c req w) = None ->
  200 <= resp_StatusCode resp < 300 ->
  exists w',
    send c ctx req w = (Returned (Some resp, None), w')
    /\ w_bodies w' = done_bodies (transport c req w)
    /\ w_calls w' = w_calls w ++ [req]
    /\ w_log w'
       = w_log w
         ++ [received_entry ctx (resp_StatusCode resp)
               (Time_Sub (w_clock w (S (w_ticks w))) (w_clock w (w_ticks w)))].
Proof.
  intros Hr He Hst. rewrite sendRequest_eq. cbv zeta. rewrite He, Hr.
  apply is_2xx_true in Hst. rewrite Hst.
  eexists. split; [reflexivity |]. repeat split.
Qed.


End SendOutcomes.

(** ** [Get] and [Put], every outcome *)

Section ClientOutcomes.

Context {URL : Type}.
Variable url_Parse : string -> error + URL.
Variable url_String : URL -> string.
Variable url_Host : URL -> string.
Variable xml_Unmarshal : list byte -> error + s3Error.

Implicit Types (c : Client URL) (w : World URL) (req : Request URL) (resp : Response).

Local Abbreviation build := (buildRequest url_Parse url_String url_Host).
Local Abbreviation send := (sendRequest url_String xml_Unmarshal).
Local Abbreviation get := (Get url_Parse url_String url_Host xml_Unmarshal).
Local Abbreviation put := (Put url_Parse url_String url_Host xml_Unmarshal).

(** X4. A GET whose request was built and answered with a 2xx status gives
    the caller the body of that response and no error; the client read and
    closed no response body on the way, before the call or after it, so the
    caller receives the body as the transport left it. *)
Theorem Get_returns_body_untouched c ctx object w req w1 resp :
  build c ctx "GET" object None w = ((Some req, None), w1) ->
  done_resp (transport c req w1) = Some resp ->
  done_err (transport c req w1) = None ->
  200 <= resp_StatusCode resp < 300 ->
  exists w',
    get c ctx object w = (Returned (Some (resp_Body resp), None), w')
    /\ w_bodies w1 = w_bodies w
    /\ w_bodies w' = done_bodies (transport c req w1).
Proof.
  intros Hb Hr He Hst. rewrite Get_eq, Hb.
  rewrite (sendRequest_eq url_String xml_Unmarshal). cbv zeta. rewrite He, Hr.
  apply is_2xx_true in Hst. rewrite Hst.
  eexists. split; [reflexivity |]. split; [| reflexivity].
  pose proof (buildRequest_bodies url_Parse url_String url_Host c ctx "GET" object None w)
    as H.
  rewrite Hb in H. exact H.
Qed.

(** X5. A PUT whose request was built and answered leaves the body of the
    response closed, whatever the status; it returns no error exactly when
    the status is from 200 to 299. *)
Theorem Put_closes_body c ctx object reader w req w1 resp :
  build c ctx "PUT" object reader w = ((Some req, None), w1) ->
  done_resp (transport c req w1) = Some resp ->
  done_err (transport c req w1) = None ->
  rc_closed (w_bodies (snd (put c ctx object reader w)) (resp_Body resp)) = true
  /\ (fst (put c ctx object reader w) = Returned None <-> 200 <= resp_StatusCode resp < 300).
Proof.
  intros Hb Hr He. rewrite Put_eq, Hb.
  rewrite (sendRequest_eq url_String xml_Unmarshal). cbv zeta. rewrite He, Hr.
  destruct (is_2xx (resp_StatusCode resp)) eqn:H2.
  - pose proof (proj1 (is_2xx_true _) H2) as Hst.
    unfold Body_Close, bind, get_body, put_body. cbn. rewrite fn_lookup_insert.
    split; [reflexivity | tauto].
  - assert (Hst : ~ 200 <= resp_StatusCode resp < 300).
    { apply is_2xx_false in H2. lia. }
    cbn [fst snd]. unfold Body_Close, bind, get_body, put_body. cbn.
    rewrite fn_lookup_insert. split; [reflexivity |].
    split; [discriminate | contradiction].
Qed.

(** X6. [Get] and [Put] return the error of [buildRequest] as it is, in the
    world that [buildRequest] left (so without a call to the transport),
    and the error of [sendRequest] as it is: they wrap nothing and recover
    from nothing, a panic of [sendRequest] included. *)
Theorem errors_propagate_unchanged c ctx object reader w :
  (forall r e w1,
      build c ctx "GET" object None w = ((r, Some e), w1) ->
      get c ctx object w = (Returned (None, Some e), w1))
  /\ (forall r e w1,
         build c ctx "PUT" object reader w = ((r, Some e), w1) ->
         put c ctx object reader w = (Returned (Some e), w1))
  /\ (forall req w1 r e w2,
         build c ctx "GET" object None w = ((Some req, None), w1) ->
         send c ctx req w1 = (Returned (r, Some e), w2) ->
         get c ctx object w = (Returned (None, Some e), w2))
  /\ (forall req w1 r e w2,
         build c ctx "PUT" object reader w = ((Some req, None), w1) ->
         send c ctx req w1 = (Returned (r, Some e), w2) ->
         put c ctx object reader w = (Returned (Some e), w2))
  /\ (forall req w1 reason w2,
         build c ctx "GET" object None w = ((Some req, None), w1) ->
         send c ctx req w1 = (Panicked reason, w2) ->
         get c ctx object w = (Panicked reason, w2))
  /\ (forall req w1 reason w2,
         build c ctx "PUT" object reader w = ((Some req, None), w1) ->
         send c ctx req w1 = (Panicked reason, w2) ->
         put c ctx object reader w = (Panicked reason, w2)).
Proof.
  split; [| split; [| split; [| split; [| split]]]].
  - intros r e w1 Hb. rewrite Get_eq, Hb. destruct r; reflexivity.
  - intros r e w1 Hb. rewrite Put_eq, Hb. destruct r; reflexivity.
  - intros req w1 r e w2 Hb Hs. rewrite Get_eq, Hb, Hs. destruct r; reflexivity.
  - intros req w1 r e w2 Hb Hs. rewrite Put_eq, Hb, Hs. destruct r; reflexivity.
  - intros req w1 reason w2 Hb Hs. rewrite Get_eq, Hb, Hs. reflexivity.
  - intros req w1 reason w2 Hb Hs. rewrite Put_eq, Hb, Hs. reflexivity.
Qed.

(** What a successful [buildRequest] did to a payload source: it is at
    offset 0 with everything else as it was, and no other source changed. *)
Lemma buildRequest_rewinds c ctx method object l w req w1 :
  build c ctx method object (Some l) w = ((Some req, None), w1) ->
  w_streams w1 l = rs_at (w_streams w l) 0
  /\ read_error (w_streams w l) = None
  /\ forall l', l' <> l -> w_streams w1 l' = w_streams w l'.
Proof.
  intros Hb.
  apply buildRequest_ok in Hb as (_ & u & hash & size & w2 & _ & Hh & _ & ->).
  match type of Hh with hashPayload _ ?w0 = _ => set (w0' := w0) in * end.
  destruct (hashPayload_source l w0') as (w2' & (_ & _ & _ & _ & _ & Hother) & H).
  cbv zeta in H. change (w_streams w0' l) with (w_streams w l) in H.
  destruct (read_error (w_streams w l)); [| destruct (seek_error _)];
    destruct H as [H Hl]; rewrite H in Hh; try discriminate.
  injection Hh as _ _ <-.
  change (w_streams (after_log _ _ _ _ w2') ) with (w_streams w2').
  rewrite Hl. split; [reflexivity |]. split; [reflexivity |].
  intros l' Hne. rewrite (Hother l' Hne). reflexivity.
Qed.

(** X7. A PUT hands its request to the transport with the payload source
    rewound: when [Do] is called the source is at offset 0 with its content
    as it was, and no other source has changed. The body of the request is
    that source, or [http.NoBody] when the source is a [bytes.Reader] or a
    [strings.Reader] that had nothing left to read. After the call [Put]
    does not touch the source: when [Put] ends, the sources are as the
    transport left them (read to the end, when it sent the body). *)
Theorem Put_rewinds_source c ctx object l w req w1 :
  build c ctx "PUT" object (Some l) w = ((Some req, None), w1) ->
  let d := client c req (w_streams w1) (w_bodies w1) in
  let w' := snd (put c ctx object (Some l) w) in
  w_streams w1 l = rs_at (w_streams w l) 0
  /\ rs_data (w_streams w1 l) = rs_data (w_streams w l)
  /\ (forall l', l' <> l -> w_streams w1 l' = w_streams w l')
  /\ req_Body req
     = (if nothing_left (w_streams w l) then Some http_NoBody else Some (body_of l))
  /\ w_calls w' = w_calls w ++ [req]
  /\ w_streams w' = done_streams d.
Proof.
  intros Hb d w'.
  destruct (buildRequest_rewinds c ctx "PUT" object l w req w1 Hb) as (Hl & _ & Hother).
  split; [exact Hl |]. split; [rewrite Hl; reflexivity |]. split; [exact Hother |].
  split.
  - apply buildRequest_ok in Hb as (_ & u & hash & size & w2 & _ & _ & -> & _).
    reflexivity.
  - subst w'.
    destruct (Put_after_send url_Parse url_String url_Host xml_Unmarshal
                c ctx object (Some l) w req w1 Hb) as (Hc & _ & Hs & _).
    destruct (sendRequest_frame url_String xml_Unmarshal c ctx req w1) as (Hc' & _ & Hs').
    cbv zeta in Hc, Hs, Hc', Hs'.
    split; [| rewrite Hs, Hs'; reflexivity].
    rewrite Hc, Hc'.
    pose proof (buildRequest_calls url_Parse url_String url_Host c ctx "PUT" object
                  (Some l) w) as Hk.
    rewrite Hb in Hk. cbn [snd] in Hk. rewrite Hk. reflexivity.
Qed.

(** X8. [Get] and [Put] hand at most one request to the transport: none
    when [buildRequest] returned an error, and otherwise the request that
    [buildRequest] returned, once. *)
Theorem at_most_one_call c ctx object reader w :
  let sent_by (r : option (Request URL) * option error) (calls : list (Request URL)) :=
    match r with
    | (Some req, None) => calls = w_calls w ++ [req]
    | _ => calls = w_calls w
    end in
  sent_by (fst (build c ctx "GET" object None w)) (w_calls (snd (get c ctx object w)))
  /\ sent_by (fst (build c ctx "PUT" object reader w))
       (w_calls (snd (put c ctx object reader w)))
  /\ (length (w_calls (snd (get c ctx object w))) <= S (length (w_calls w)))%nat
  /\ (length (w_calls (snd (put c ctx object reader w))) <= S (length (w_calls w)))%nat.
Proof.
  intros sent_by. subst sent_by. cbv beta.
  rewrite Get_calls, Put_calls.
  destruct (fst (build c ctx "GET" object None w)) as [[rg|] [eg|]];
    destruct (fst (build c ctx "PUT" object reader w)) as [[rp|] [ep|]];
    repeat split; rewrite ?length_app; cbn; lia.
Qed.

(** X9. The errors of [buildRequest]: the blank-key error, the error of
    the request's creation wrapped with "failed to create request to" and
    the quoted URI, or, for a payload source, its read error wrapped with
    "failed to hash body" or its seek error wrapped with "failed to seek
    body". *)
Theorem buildRequest_errors c ctx method object pyld w r e w' :
  build c ctx method object pyld w = ((r, Some e), w') ->
  let uri := scheme c +:+ "://" +:+ host c +:+ "/" +:+ bucket c +:+ "/" +:+ object in
  (object = EmptyString /\ e = errNew "object cannot be blank" /\ w' = w)
  \/ (exists e0,
        http_NewRequestWithContext url_Parse url_Host ctx method uri pyld (w_streams w)
        = inl e0
        /\ e = errWrap e0 ("failed to create request to " +:+ strconv_Quote uri))
  \/ (exists l e0,
        pyld = Some l
        /\ ((read_error (w_streams w l) = Some e0 /\ e = errWrap e0 "failed to hash body")
            \/ (read_error (w_streams w l) = None
                /\ seek_error (rs_after_read (w_streams w l)) = Some e0
                /\ e = errWrap e0 "failed to seek body"))).
Proof.
  intros Hb uri.
  destruct (String.eqb object EmptyString) eqn:E.
  - apply String.eqb_eq in E. subst object. rewrite buildRequest_blank in Hb.
    injection Hb as _ <- <-. left. auto.
  - apply String.eqb_neq in E. right.
    rewrite (buildRequest_eq url_Parse url_String url_Host c ctx method object pyld w E)
      in Hb.
    cbv zeta in Hb. fold uri in Hb.
    destruct (http_NewRequestWithContext url_Parse url_Host ctx method uri pyld (w_streams w))
      as [e0|req0].
    + left. exists e0. split; [reflexivity |]. congruence.
    + right. destruct pyld as [l|].
      * exists l.
        match type of Hb with context [hashPayload (Some l) ?w1] =>
          destruct (hashPayload_source l w1) as (w2 & _ & H); cbv zeta in H;
          change (w_streams w1 l) with (w_streams w l) in H end.
        destruct (read_error (w_streams w l)) as [e1|]; [| destruct (seek_error _) as [e2|]];
          destruct H as [H _]; rewrite H in Hb; cbn [fst snd] in Hb.
        -- exists e1. split; [reflexivity |]. left. split; [reflexivity | congruence].
        -- exists e2. split; [reflexivity |]. right. repeat split. congruence.
        -- discriminate.
      * rewrite hashPayload_nil in Hb. discriminate.
Qed.

(** X10. A GET whose request was built and answered with a status outside
    200..299 returns no body and the error made from the answer, and the
    body of the response is closed: the caller has nothing to release. *)
Theorem Get_rejected_closes_body c ctx object w req w1 resp :
  build c ctx "GET" object None w = ((Some req, None), w1) ->
  done_resp (transport c req w1) = Some resp ->
  done_err (transport c req w1) = None ->
  resp_StatusCode resp < 200 \/ 300 <= resp_StatusCode resp ->
  exists err w',
    get c ctx object w = (Returned (None, Some err), w')
    /\ err = fst (parseS3Error xml_Unmarshal resp
                    (after_tick (after_call c req (after_tick w1))))
    /\ rc_closed (w_bodies w' (resp_Body resp)) = true.
Proof.
  intros Hb Hr He Hst. rewrite Get_eq, Hb.
  rewrite (sendRequest_eq url_String xml_Unmarshal). cbv zeta. rewrite He, Hr.
  apply is_2xx_false in Hst. rewrite Hst.
  do 2 eexists. split; [reflexivity |]. split; [reflexivity |].
  unfold Body_Close, bind, get_body, put_body. cbn [fst snd w_bodies].
  rewrite fn_lookup_insert. reflexivity.
Qed.

End ClientOutcomes.

(** ** What is logged *)

Lemma scrub_signed_Header (a d h : string) :
  delete "Authorization" (signed_Header a d h)
  = {[ "X-Amz-Date" := [d]; "X-Amz-Content-Sha256" := [h] ]}.
Proof. vm_compute. reflexivity. Qed.

(** X11. The secret key reaches the log of [buildRequest] only through the
    Authorization header of the signed request: two clients that differ in
    their secret key alone return the same error (or none) and leave logs
    that are equal once the Authorization header is taken out of the logged
    header maps. *)
Theorem secret_key_not_logged {URL} (url_Parse : string -> error + URL)
    (url_String url_Host : URL -> string)
    (c : Client URL) (ctx : Context) (method object : string) (pyld : option loc)
    (w : World URL) (secret1 secret2 : string) :
  let r1 := buildRequest url_Parse url_String url_Host (with_secretKey c secret1)
              ctx method object pyld w in
  let r2 := buildRequest url_Parse url_String url_Host (with_secretKey c secret2)
              ctx method object pyld w in
  snd (fst r1) = snd (fst r2)
  /\ map scrub (w_log (snd r1)) = map scrub (w_log (snd r2)).
Proof.
  intros r1 r2. subst r1 r2.
  destruct (String.eqb object EmptyString) eqn:E.
  - apply String.eqb_eq in E. subst object. split; reflexivity.
  - apply String.eqb_neq in E.
    rewrite !(buildRequest_eq url_Parse url_String url_Host _ ctx method object pyld w E).
    cbv zeta.
    change (signing_kv (with_secretKey c secret1)) with (signing_kv c).
    change (signing_kv (with_secretKey c secret2)) with (signing_kv c).
    cbn [with_secretKey region scheme host bucket accessKey secretKey].
    destruct (http_NewRequestWithContext _ _ _ _ _ _ _) as [e0|req0] eqn:En;
      [split; reflexivity |].
    apply NewRequest_inr in En as (u & _ & _ & _ & Hu & Hh & Hhd & _).
    match goal with |- context [hashPayload pyld ?w1] =>
      destruct (hashPayload pyld w1) as [[[hash size] [e|]] w2] end;
      cbn [fst snd]; [split; reflexivity |].
    split; [reflexivity |].
    unfold after_log, log, signed_kv, set_headers. cbn [snd w_log req_URL req_Host req_Header].
    rewrite Hhd, !signRequest_map, !set_signed_headers, !map_app.
    f_equal; cbn [map scrub log_level log_ctx log_msg log_kv scrub_value];
      rewrite ?scrub_signed_Header; reflexivity.
Qed.

(** ** How much of an error body is read *)

Lemma string_of_list_byte_length (l : list byte) :
  String.length (string_of_list_byte l) = length l.
Proof.
  unfold string_of_list_byte.
  induction l as [|b l IH]; cbn [map string_of_list_ascii String.length length];
    [reflexivity | now rewrite IH].
Qed.

(** X12. [parseS3Error] takes the first 4096 bytes of the body and leaves
    the rest unread, the body as open or closed as it was, and every other
    body alone; the error it makes depends on the body through those 4096
    bytes only, and the body text of the generic HTTP error is at most 4096
    bytes long. *)
Theorem parseS3Error_reads_4096 {URL} (xml_Unmarshal : list byte -> error + s3Error)
    (resp : Response) (w : World URL) :
  let body := w_bodies w (resp_Body resp) in
  let w' := snd (parseS3Error xml_Unmarshal resp w) in
  rc_unread (w_bodies w' (resp_Body resp)) = drop 4096 (rc_unread body)
  /\ rc_closed (w_bodies w' (resp_Body resp)) = rc_closed body
  /\ (forall l, l <> resp_Body resp -> w_bodies w' l = w_bodies w l)
  /\ (forall w2 : World URL,
        take 4096 (rc_unread (w_bodies w2 (resp_Body resp))) = take 4096 (rc_unread body) ->
        fst (parseS3Error xml_Unmarshal resp w2) = fst (parseS3Error xml_Unmarshal resp w))
  /\ (String.length (string_of_list_byte (take 4096 (rc_unread body))) <= 4096)%nat.
Proof.
  intros body w'. subst w'.
  split; [| split; [| split; [| split]]].
  - unfold parseS3Error, bind, get_body, put_body, ReadAll_Limit, ret.
    destruct (xml_Unmarshal _); cbn; rewrite fn_lookup_insert; reflexivity.
  - unfold parseS3Error, bind, get_body, put_body, ReadAll_Limit, ret.
    destruct (xml_Unmarshal _); cbn; rewrite fn_lookup_insert; reflexivity.
  - intros l Hl. unfold parseS3Error, bind, get_body, put_body, ReadAll_Limit, ret.
    destruct (xml_Unmarshal _); cbn; rewrite fn_lookup_insert_ne; auto.
  - intros w2 H. rewrite !parseS3Error_error. cbv zeta. fold body. rewrite H. reflexivity.
  - rewrite string_of_list_byte_length, length_take. lia.
Qed.

(** ** The shape of hashes and signatures *)

Lemma be_bytes_length (n : nat) (x : Z) : length (SHA256.be_bytes n x) = n.
Proof. induction n as [|n IH]; cbn; [reflexivity | now rewrite IH]. Qed.

Lemma compress_length (h : list Z) (block : list Z) :
  length h = 8%nat -> length (SHA256.compress h block) = 8%nat.
Proof.
  intros H. unfold SHA256.compress, SHA256.word. rewrite length_map, length_combine, H.
  reflexivity.
Qed.

Lemma compress_all_length (blocks : list (list Z)) (h : list Z) :
  length h = 8%nat -> length (fold_left SHA256.compress blocks h) = 8%nat.
Proof.
  revert h. induction blocks as [|b blocks IH]; intros h H; cbn; [exact H |].
  apply IH. now apply compress_length.
Qed.

Lemma flat_be_bytes_length (l : list Z) :
  length (flat_map (SHA256.be_bytes 4) l) = (4 * length l)%nat.
Proof.
  induction l as [|x l IH]; [reflexivity |].
  change (flat_map (SHA256.be_bytes 4) (x :: l))
    with (SHA256.be_bytes 4 x ++ flat_map (SHA256.be_bytes 4) l).
  rewrite length_app, be_bytes_length, IH. cbn [length]. lia.
Qed.

(** A SHA-256 digest has 32 bytes. *)
Lemma Sum256_length (data : list byte) : length (SHA256.Sum256 data) = 32%nat.
Proof.
  unfold SHA256.Sum256, SHA256.digest.
  rewrite length_map, flat_be_bytes_length, compress_all_length; reflexivity.
Qed.

Lemma hex_length (src : list byte) :
  String.length (hex_EncodeToString src) = (2 * length src)%nat.
Proof. induction src as [|b src IH]; cbn; [reflexivity | rewrite IH; lia]. Qed.

Lemma hex_byte_lower (b : byte) :
  is_lower_hex (hexdigit (SHA256.Z_of_byte b / 16))
  && is_lower_hex (hexdigit (SHA256.Z_of_byte b mod 16)) = true.
Proof. destruct b; vm_compute; reflexivity. Qed.

Lemma hex_lower (src : list byte) : lower_hex (hex_EncodeToString src) = true.
Proof.
  unfold lower_hex. induction src as [|b src IH]; [reflexivity |].
  cbn [hex_EncodeToString list_ascii_of_string forallb].
  pose proof (hex_byte_lower b) as H. apply andb_true_iff in H as [-> ->].
  exact IH.
Qed.

(** The HMAC of the model has 32 bytes. *)
Lemma hmacSHA256_length (key : list byte) (data : string) :
  length (hmacSHA256 key data) = 32%nat.
Proof. rewrite hmacSHA256_spec. unfold Spec.HMAC. apply Sum256_length. Qed.

(** X13. Every hash that [hashPayload] returns without an error is 64
    characters of lowercase hexadecimal, and the size it returns is not
    negative. *)
Theorem hashPayload_hash_shape {URL} (body : option loc) (w : World URL)
    (hash : string) (size : Z) (w' : World URL) :
  hashPayload body w = ((hash, size, None), w') ->
  String.length hash = 64%nat /\ lower_hex hash = true /\ 0 <= size.
Proof.
  intros H. destruct body as [l|].
  - destruct (hashPayload_source l w) as (w2 & _ & Hs). cbv zeta in Hs.
    destruct (read_error _); [| destruct (seek_error _)]; destruct Hs as [Hs _];
      rewrite Hs in H; try discriminate.
    injection H as <- <- _.
    rewrite hex_length, Sum256_length. split; [reflexivity |].
    split; [apply hex_lower | lia].
  - rewrite hashPayload_nil in H. injection H as <- <- _.
    split; [reflexivity |]. split; [vm_compute; reflexivity | lia].
Qed.

Lemma Authorization_literal (accessKey scope signature : string) :
  "AWS4-HMAC-SHA256 Credential=" +:+ accessKey +:+ "/" +:+ scope
    +:+ ", SignedHeaders=" +:+ Spec.signedHeadersList +:+ ", Signature=" +:+ signature
  = "AWS4-HMAC-SHA256 Credential=" +:+ accessKey +:+ "/" +:+ scope
      +:+ ", SignedHeaders=host;x-amz-content-sha256;x-amz-date, Signature=" +:+ signature.
Proof. reflexivity. Qed.

(** X14. The Authorization header that [signRequest] makes names the scheme
    AWS4-HMAC-SHA256, the access key and the credential scope, lists the
    three signed headers, and ends with a signature of 64 characters of
    lowercase hexadecimal; the signing key it is computed with has 32
    bytes. *)
Theorem Authorization_shape (method region host path accessKey secretKey payloadHash : string)
    (t : Time) :
  exists signature,
    signRequest method region host path accessKey secretKey payloadHash t !! "Authorization"
    = Some ("AWS4-HMAC-SHA256 Credential=" +:+ accessKey +:+ "/"
            +:+ Spec.credentialScope (Time_Format t "20060102") region
            +:+ ", SignedHeaders=host;x-amz-content-sha256;x-amz-date, Signature="
            +:+ signature)
    /\ String.length signature = 64%nat
    /\ lower_hex signature = true
    /\ length (getSignatureKey secretKey (Time_Format t "20060102") region service) = 32%nat.
Proof.
  exists (hex_EncodeToString
            (Spec.HMAC (Spec.signingKey secretKey (Spec.dateStamp t) region)
               (Spec.stringToSign (Spec.amzDate t)
                  (Spec.credentialScope (Spec.dateStamp t) region)
                  (Spec.canonicalRequest method path host payloadHash (Spec.amzDate t))))).
  split; [| split; [| split]].
  - rewrite signRequest_map, lookup_insert_eq. unfold Spec.authorization. cbv zeta.
    apply (f_equal Some). apply Authorization_literal.
  - rewrite hex_length. unfold Spec.HMAC. rewrite Sum256_length. reflexivity.
  - apply hex_lower.
  - unfold getSignatureKey. apply hmacSHA256_length.
Qed.

(** ** The dates that are signed *)

Lemma Time_Format_dateStamp (t : Time) :
  Time_Format t "20060102"
  = appendInt (Time_Year t) 4 +:+ appendInt (Time_Month t) 2 +:+ appendInt (Time_Day t) 2.
Proof.
  transitivity (appendInt (Time_Year t) 4 +:+ appendInt (Time_Month t) 2
                  +:+ appendInt (Time_Day t) 2 +:+ EmptyString); [reflexivity |].
  now rewrite append_nil_r.
Qed.

Lemma Time_Format_amzDate (t : Time) :
  Time_Format t "20060102T150405Z"
  = Time_Format t "20060102" +:+ "T" +:+ appendInt (Time_Hour t) 2
      +:+ appendInt (Time_Minute t) 2 +:+ appendInt (Time_Second t) 2 +:+ "Z".
Proof.
  rewrite Time_Format_dateStamp, !append_assoc. reflexivity.
Qed.

(** X15. The two dates of a signature agree and depend on the second of the
    clock reading only: the x-amz-date value is the date of the credential
    scope followed by [T], the time of day and [Z]; and for two readings
    of the same Unix second, whatever their locations and nanoseconds,
    [signRequest] on their UTC times returns the same headers. *)
Theorem signing_dates (method region host path accessKey secretKey payloadHash : string)
    (t1 t2 : Time) :
  Unix t1 = Unix t2 ->
  String.prefix (Time_Format t1 "20060102") (Time_Format t1 "20060102T150405Z") = true
  /\ signRequest method region host path accessKey secretKey payloadHash (Time_UTC t1)
       !! "x-amz-date"
     = Some (Time_Format (Time_UTC t1) "20060102" +:+ "T"
             +:+ appendInt (Unix t1 mod 86400 / 3600) 2
             +:+ appendInt (Unix t1 mod 3600 / 60) 2
             +:+ appendInt (Unix t1 mod 60) 2 +:+ "Z")
  /\ signRequest method region host path accessKey secretKey payloadHash (Time_UTC t1)
     = signRequest method region host path accessKey secretKey payloadHash (Time_UTC t2).
Proof.
  intros H. split; [| split].
  - rewrite Time_Format_amzDate. apply prefix_append.
  - rewrite signRequest_map, lookup_insert_ne by discriminate.
    rewrite lookup_insert_eq. unfold Spec.amzDate. rewrite Time_Format_amzDate.
    unfold Time_Hour, Time_Minute, Time_Second, wallSeconds, Time_UTC.
    cbn [Unix Offset]. rewrite Z.add_0_r. reflexivity.
  - assert (E : Time_UTC t1
                 = {| Unix := Unix t2; Nsec := Nsec t1; Offset := 0; Mono := None |})
      by (unfold Time_UTC; now rewrite H).
    rewrite !signRequest_map. unfold Spec.authorization, Spec.amzDate, Spec.dateStamp.
    rewrite !Time_Format_amzDate, !Time_Format_dateStamp.
    unfold Time_Year, Time_Month, Time_Day, Time_Hour, Time_Minute, Time_Second,
      wallSeconds, Time_UTC.
    cbn [Unix Offset]. rewrite H. reflexivity.
Qed.

(** ** The request that is built, and what the demo logger shows of it *)

Section BuiltRequest.

Context {URL : Type}.
Variable url_Parse : string -> error + URL.
Variable url_String : URL -> string.
Variable url_Host : URL -> string.

Implicit Types (c : Client URL) (w : World URL) (req : Request URL).

Local Abbreviation build := (buildRequest url_Parse url_String url_Host).

(** X16. Every request that [buildRequest] builds carries exactly three
    headers, under their canonical names Authorization, X-Amz-Date and
    X-Amz-Content-Sha256, each with one value; it keeps the context it was
    given; its body is nil for a nil payload, [http.NoBody] for a
    [bytes.Reader] or [strings.Reader] that had nothing left to read when it
    was passed in, and the payload source in every other case. *)
Theorem built_request_headers c ctx method object pyld w req w' :
  build c ctx method object pyld w = ((Some req, None), w') ->
  (forall k, is_Some (req_Header req !! k)
             <-> k = "Authorization" \/ k = "X-Amz-Date" \/ k = "X-Amz-Content-Sha256")
  /\ (forall k vs, req_Header req !! k = Some vs -> length vs = 1%nat)
  /\ req_ctx req = ctx
  /\ req_Body req
     = match pyld with
       | None => None
       | Some l =>
           match rs_type (w_streams w l), rs_rest (w_streams w l) with
           | (bytes_Reader | strings_Reader), [] => Some http_NoBody
           | _, _ => Some (body_of l)
           end
       end.
Proof.
  intros Hb.
  apply buildRequest_ok in Hb as (_ & u & hash & size & w2 & _ & _ & -> & _).
  cbn [req_Header req_ctx req_Body]. unfold signed_Header.
  split; [| split; [| split; [reflexivity |]]].
  - intros k.
    destruct (decide (k = "Authorization")) as [-> | H1].
    { rewrite lookup_insert_eq. split; eauto. }
    rewrite lookup_insert_ne by congruence.
    destruct (decide (k = "X-Amz-Date")) as [-> | H2].
    { rewrite lookup_insert_eq. split; eauto. }
    rewrite lookup_insert_ne by congruence.
    destruct (decide (k = "X-Amz-Content-Sha256")) as [-> | H3].
    { rewrite lookup_singleton_eq. split; eauto. }
    rewrite lookup_singleton_ne by congruence.
    split; [intros [v Hv]; discriminate | intros [? | [? | ?]]; contradiction].
  - intros k vs.
    destruct (decide (k = "Authorization")) as [-> | H1].
    { rewrite lookup_insert_eq. intros [= <-]. reflexivity. }
    rewrite lookup_insert_ne by congruence.
    destruct (decide (k = "X-Amz-Date")) as [-> | H2].
    { rewrite lookup_insert_eq. intros [= <-]. reflexivity. }
    rewrite lookup_insert_ne by congruence.
    destruct (decide (k = "X-Amz-Content-Sha256")) as [-> | H3].
    { rewrite lookup_singleton_eq. intros [= <-]. reflexivity. }
    rewrite lookup_singleton_ne by congruence. discriminate.
  - destruct pyld as [l|]; [| reflexivity].
    unfold body_for, nothing_left.
    destruct (rs_type (w_streams w l)), (rs_rest (w_streams w l)); reflexivity.
Qed.

(** X17. A successful [buildRequest] makes two calls to the logger, and the
    logger of the demo command writes for them the two lines below: the
    fields are separated by bars, an empty string shows as a star, and the
    time and the header map show as a star, so the demo log shows neither
    the signature nor any header. *)
Theorem demo_logger_lines c ctx method object pyld w req w' :
  build c ctx method object pyld w = ((Some req, None), w') ->
  let star x := DemoPut.field (vString x) in
  exists e1 e2,
    w_log w' = w_log w ++ [e1; e2]
    /\ DemoPut.line e1
       = "debug msg > signing request  "
           +:+ join "|" ["region"; star (region c); "host"; star (host c);
                         "path"; "/" +:+ bucket c +:+ "/" +:+ object;
                         "access_key"; star (accessKey c); "now"; "*"]
           +:+ LF
    /\ DemoPut.line e2
       = "debug msg > signed request  "
           +:+ join "|" ["url"; star (url_String (req_URL req));
                         "host"; star (req_Host req); "headers"; "*"]
           +:+ LF.
Proof.
  intros Hb star.
  apply buildRequest_ok in Hb as (_ & u & hash & size & w2 & _ & Hh & -> & ->).
  match type of Hh with hashPayload _ ?w1 = _ =>
    pose proof (hashPayload_frame pyld w1) as (_ & _ & Hl & _) end.
  rewrite Hh in Hl. cbn [snd] in Hl.
  do 2 eexists. split.
  - unfold after_log at 1, log. cbn [snd w_log]. rewrite Hl.
    unfold after_log, log, after_tick, time_Now. cbn [snd w_log].
    rewrite <- app_assoc. reflexivity.
  - split; reflexivity.
Qed.

(** X20. Every request that [buildRequest] builds is signed consistently:
    the clock is read once, and that one reading gives both the x-amz-date
    header and the date of the canonical request; the payload hash of the
    canonical request that the Authorization header signs is the
    x-amz-content-sha256 header; that hash is the hex SHA-256 of the bytes
    the source held from its read offset to its end when it was passed in,
    and the declared content length is their number. When the source was
    passed in at its start (or is a [bytes.Reader] or [strings.Reader] with
    nothing left, which is sent as [http.NoBody], or is nil), these are the
    bytes that the body of the request delivers: the hash is the hash of
    the body, and the declared length is its length. *)
Theorem signed_request_consistent c ctx method object pyld w req w' :
  build c ctx method object pyld w = ((Some req, None), w') ->
  let path := "/" +:+ bucket c +:+ "/" +:+ object in
  let now := Time_UTC (w_clock w (w_ticks w)) in
  let amzDate := Time_Format now "20060102T150405Z" in
  let hash := hex_EncodeToString (SHA256.Sum256 (payload_bytes w pyld)) in
  let scope := Spec.credentialScope (Spec.dateStamp now) (region c) in
  let canonicalRequest := Spec.canonicalRequest method path (host c) hash amzDate in
  let signature :=
    hex_EncodeToString
      (Spec.HMAC (Spec.signingKey (secretKey c) (Spec.dateStamp now) (region c))
                 (Spec.stringToSign amzDate scope canonicalRequest)) in
  w_ticks w' = S (w_ticks w)
  /\ Header_Get (req_Header req) "x-amz-date" = amzDate
  /\ Header_Get (req_Header req) "x-amz-content-sha256" = hash
  /\ Header_Get (req_Header req) "Authorization"
     = "AWS4-HMAC-SHA256 Credential=" +:+ accessKey c +:+ "/" +:+ scope
         +:+ ", SignedHeaders=" +:+ Spec.signedHeadersList
         +:+ ", Signature=" +:+ signature
  /\ req_ContentLength req = Z.of_nat (length (payload_bytes w pyld))
  /\ (forall l, pyld = Some l -> payload_bytes w pyld = rs_rest (w_streams w l))
  /\ ((forall l, pyld = Some l ->
         rs_off (w_streams w l) = 0%nat \/ nothing_left (w_streams w l) = true) ->
      body_bytes w' (req_Body req) = payload_bytes w pyld
      /\ Header_Get (req_Header req) "x-amz-content-sha256"
         = hex_EncodeToString (SHA256.Sum256 (body_bytes w' (req_Body req)))
      /\ req_ContentLength req = Z.of_nat (length (body_bytes w' (req_Body req)))).
Proof.
  intros E path now amzDate hash scope canonicalRequest signature.
  pose proof E as E0.
  apply buildRequest_ok in E as (_ & u & hash' & size & w2 & _ & Hh & -> & ->).
  fold path now in Hh |- *. cbn [req_Header req_Body req_ContentLength].
  match type of Hh with hashPayload _ ?w1 = _ => set (w1' := w1) in * end.
  assert (Hhash : hash' = hash /\ size = Z.of_nat (length (payload_bytes w pyld))
                  /\ forall l, pyld = Some l ->
                       w_streams w2 l = rs_at (w_streams w l) 0
                       /\ read_error (w_streams w l) = None).
  { destruct pyld as [l|].
    - destruct (hashPayload_source l w1') as (w2' & _ & H). cbv zeta in H.
      change (w_streams w1' l) with (w_streams w l) in H.
      destruct (read_error (w_streams w l)) eqn:Er; [| destruct (seek_error _)];
        destruct H as [H Hs]; rewrite H in Hh; try discriminate.
      injection Hh as <- <- <-. split; [reflexivity |]. split; [reflexivity |].
      intros l' [= <-]. auto.
    - rewrite hashPayload_nil in Hh. injection Hh as <- <- _.
      split; [vm_compute; reflexivity |]. split; [reflexivity | discriminate]. }
  destruct Hhash as (-> & -> & Hsrc).
  assert (Ht : w_ticks w2 = S (w_ticks w)).
  { pose proof (hashPayload_frame pyld w1') as (_ & Ht & _).
    rewrite Hh in Ht. exact Ht. }
  destruct (signed_Header_get
              (Spec.authorization method (region c) (host c) path (accessKey c) (secretKey c)
                 hash now) (Spec.amzDate now) hash) as (Ha & Hd & Hc).
  split; [exact Ht |]. split; [exact Hd |]. split; [exact Hc |]. split; [exact Ha |].
  split; [reflexivity |]. split.
  - intros l ->. destruct (Hsrc l eq_refl) as [_ Hr]. exact (read_ok_bytes _ Hr).
  - intros Hstart.
    match goal with |- body_bytes ?wf _ = _ /\ _ =>
      assert (Hbody : body_bytes wf (body_for pyld (w_streams w)) = payload_bytes w pyld) end.
    { destruct pyld as [l|]; [| reflexivity].
      destruct (Hsrc l eq_refl) as [Hl Hr].
      unfold body_for. destruct (nothing_left (w_streams w l)) eqn:Hn.
      - cbn [body_bytes payload_bytes]. rewrite (read_ok_bytes _ Hr).
        unfold nothing_left in Hn.
        destruct (rs_type (w_streams w l)), (rs_rest (w_streams w l));
          try discriminate; reflexivity.
      - cbn [body_bytes payload_bytes].
        change (w_streams (after_log _ _ _ _ w2) l) with (w_streams w2 l). rewrite Hl.
        apply rewound_reads_same.
        destruct (Hstart l eq_refl) as [H0 | H1]; [exact H0 | congruence]. }
    rewrite Hbody. split; [reflexivity |]. split; [exact Hc | reflexivity].
Qed.

End BuiltRequest.

(** ** The further properties at work on the bench *)

(** A redirect that the client's policy refuses: the redirect response
    comes back with the wrapped error, its body closed by the transport. *)
Lemma sendRequest_transport_error_witness :
  exists w',
    Bench.send Bench.clientNoRedirect Bench.ctx Bench.request
      (Bench.world (Bench.reader EmptyString 0) EmptyString)
    = (Returned
         (Some Bench.response302,
          Some (errWrap (errNew "redirect refused")
                  ("failed request to "
                   +:+ strconv_Quote "https://test-host/test-bucket/test-object.txt"))), w')
    /\ w_calls w' = [Bench.request]
    /\ rc_closed (w_bodies w' 0%nat) = true.
Proof.
  destruct (sendRequest_transport_error PlainURL.String Xml.Unmarshal Bench.clientNoRedirect
              Bench.ctx Bench.request (Bench.world (Bench.reader EmptyString 0) EmptyString)
              (errNew "redirect refused") eq_refl) as (w' & Hs & Hc & _ & _ & Hb & _).
  exists w'. split; [exact Hs |]. split; [exact Hc |]. rewrite Hb. reflexivity.
Defined.

(** A 200 answer takes one second on the bench clock. *)
Lemma sendRequest_success_witness :
  exists w',
    Bench.send Bench.client200 Bench.ctx Bench.request
      (Bench.world (Bench.reader EmptyString 0) "test content")
    = (Returned (Some Bench.response200, None), w')
    /\ w_log w' = [received_entry Bench.ctx 200 1000000000].
Proof.
  assert (Hst : 200 <= resp_StatusCode Bench.response200 < 300) by (cbn; lia).
  destruct (sendRequest_success PlainURL.String Xml.Unmarshal Bench.client200
              Bench.ctx Bench.request (Bench.world (Bench.reader EmptyString 0) "test content")
              Bench.response200 eq_refl eq_refl Hst) as (w' & Hs & _ & _ & Hl).
  exists w'. split; [exact Hs |]. rewrite Hl. reflexivity.
Defined.

(** The GET of the package's tests. *)
Lemma Get_returns_body_untouched_witness :
  exists w',
    Bench.get Bench.client200 Bench.ctx "test-object.txt"
      (Bench.world (Bench.reader EmptyString 0) "test content")
    = (Returned (Some 0%nat, None), w')
    /\ rc_unread (w_bodies w' 0%nat) = list_byte_of_string "test content".
Proof.
  assert (Hobj : "test-object.txt" <> EmptyString) by discriminate.
  assert (Hst : 200 <= resp_StatusCode Bench.response200 < 300) by (cbn; lia).
  destruct (buildRequest_total PlainURL.Parse PlainURL.String PlainURL.Host
              Bench.client200 Bench.ctx "GET" "test-object.txt" None
              (Bench.world (Bench.reader EmptyString 0) "test content") _ Hobj eq_refl)
    as (req & w1 & E); [discriminate |].
  destruct (Get_returns_body_untouched PlainURL.Parse PlainURL.String PlainURL.Host
              Xml.Unmarshal Bench.client200 Bench.ctx "test-object.txt" _ req w1
              Bench.response200 E eq_refl eq_refl Hst) as (w' & Hg & Hb1 & Hb).
  exists w'. split; [exact Hg |]. rewrite Hb. unfold transport. cbn [done_bodies].
  change (done_bodies _) with (w_bodies w1). rewrite Hb1. reflexivity.
Defined.

(** The PUT of the package's tests. *)
Lemma Put_closes_body_witness :
  rc_closed (w_bodies (snd (Bench.put Bench.client200 Bench.ctx "test-object.txt"
                              (Some 0%nat)
                              (Bench.world (Bench.reader "upload content" 0) EmptyString)))
               0%nat) = true.
Proof.
  assert (Hobj : "test-object.txt" <> EmptyString) by discriminate.
  destruct (buildRequest_total PlainURL.Parse PlainURL.String PlainURL.Host
              Bench.client200 Bench.ctx "PUT" "test-object.txt" (Some 0%nat)
              (Bench.world (Bench.reader "upload content" 0) EmptyString) _ Hobj eq_refl)
    as (req & w1 & E); [intros l _; split; reflexivity |].
  exact (proj1 (Put_closes_body PlainURL.Parse PlainURL.String PlainURL.Host Xml.Unmarshal
                  Bench.client200 Bench.ctx "test-object.txt" _ _ req w1
                  Bench.response200 E eq_refl eq_refl)).
Defined.

(** The PUT of the demo command through a transport that sends the body:
    the payload was handed over at its start, and is at its end when the
    PUT is over. *)
Lemma Put_rewinds_source_witness :
  exists req w1,
    Bench.build Bench.uploader Bench.ctx "PUT" "demo.txt" (Some 0%nat)
      (Bench.world (Bench.reader "imapc" 0) EmptyString)
    = ((Some req, None), w1)
    /\ rs_off (w_streams w1 0%nat) = 0%nat
    /\ req_Body req = Some (body_of 0%nat)
    /\ rs_off (w_streams (snd (Bench.put Bench.uploader Bench.ctx "demo.txt" (Some 0%nat)
                                 (Bench.world (Bench.reader "imapc" 0) EmptyString)))
                 0%nat) = 5%nat.
Proof.
  assert (Hobj : "demo.txt" <> EmptyString) by discriminate.
  destruct (buildRequest_total PlainURL.Parse PlainURL.String PlainURL.Host
              Bench.uploader Bench.ctx "PUT" "demo.txt" (Some 0%nat)
              (Bench.world (Bench.reader "imapc" 0) EmptyString) _ Hobj eq_refl)
    as (req & w1 & E); [intros l _; split; reflexivity |].
  exists req, w1. split; [exact E |].
  destruct (Put_rewinds_source PlainURL.Parse PlainURL.String PlainURL.Host Xml.Unmarshal
              Bench.uploader Bench.ctx "demo.txt" 0%nat _ req w1 E)
    as (Hl & _ & _ & Hbody & _ & Hs).
  change (req_Body req = Some (body_of 0%nat)) in Hbody.
  split; [rewrite Hl; reflexivity |]. split; [exact Hbody |].
  unfold Bench.put. rewrite Hs.
  change (client Bench.uploader) with (Bench.upload 200 ∅).
  unfold Bench.upload. cbn [done_streams]. unfold Bench.sent. rewrite Hbody.
  cbv iota. rewrite fn_lookup_insert, Hl. reflexivity.
Defined.

(** With a nil context the request cannot be created. *)
Lemma buildRequest_errors_witness :
  exists e0,
    fst (Bench.build Bench.client200 None "GET" "k" None
           (Bench.world (Bench.reader EmptyString 0) EmptyString))
    = (None, Some (errWrap e0 ("failed to create request to "
                               +:+ strconv_Quote "https://test-host/test-bucket/k"))).
Proof.
  destruct (buildRequest_errors PlainURL.Parse PlainURL.String PlainURL.Host
              Bench.client200 None "GET" "k" None
              (Bench.world (Bench.reader EmptyString 0) EmptyString)
              None
              (errWrap (errNew "net/http: nil Context")
                 ("failed to create request to "
                  +:+ strconv_Quote "https://test-host/test-bucket/k"))
              _ eq_refl) as [(H & _) | [(e0 & _ & H) | (l & e0 & H & _)]];
    [discriminate H | | discriminate H].
  exists e0. injection H as <-. reflexivity.
Defined.

(** A 404 answer to a GET. *)
Lemma Get_rejected_closes_body_witness :
  exists err w',
    Bench.get Bench.client404 Bench.ctx "test-object.txt"
      (Bench.world (Bench.reader EmptyString 0) Bench.errorDocument)
    = (Returned (None, Some err), w')
    /\ rc_closed (w_bodies w' 0%nat) = true.
Proof.
  assert (Hobj : "test-object.txt" <> EmptyString) by discriminate.
  assert (Hst : resp_StatusCode Bench.response404 < 200
                \/ 300 <= resp_StatusCode Bench.response404) by (right; cbn; lia).
  destruct (buildRequest_total PlainURL.Parse PlainURL.String PlainURL.Host
              Bench.client404 Bench.ctx "GET" "test-object.txt" None
              (Bench.world (Bench.reader EmptyString 0) Bench.errorDocument) _ Hobj eq_refl)
    as (req & w1 & E); [discriminate |].
  destruct (Get_rejected_closes_body PlainURL.Parse PlainURL.String PlainURL.Host
              Xml.Unmarshal Bench.client404 Bench.ctx "test-object.txt" _ req w1
              Bench.response404 E eq_refl eq_refl Hst) as (err & w' & Hg & _ & Hc).
  exists err, w'. split; [exact Hg | exact Hc].
Defined.

(** The hash of the payload of the demo command: five bytes are read and
    hashed. *)
Lemma hashPayload_hash_shape_witness :
  exists hash w',
    hashPayload (Some 0%nat) (Bench.world (Bench.reader "imapc" 0) EmptyString)
    = ((hash, 5, None), w')
    /\ hash = sha256Hash "imapc"
    /\ String.length hash = 64%nat /\ lower_hex hash = true /\ 0 <= 5.
Proof.
  destruct (hashPayload_source (URL := PlainURL.URL) 0%nat
              (Bench.world (Bench.reader "imapc" 0) EmptyString)) as (w' & _ & H).
  cbv zeta in H.
  change (read_error (w_streams (Bench.world (Bench.reader "imapc" 0) EmptyString) 0%nat))
    with (@None error) in H.
  change (seek_error
            (rs_after_read
               (w_streams (Bench.world (Bench.reader "imapc" 0) EmptyString) 0%nat)))
    with (@None error) in H.
  cbv iota in H. destruct H as [H _].
  change (Z.of_nat
            (length
               (read_bytes
                  (w_streams (Bench.world (Bench.reader "imapc" 0) EmptyString) 0%nat))))
    with 5 in H.
  do 2 eexists. split; [exact H |]. split; [reflexivity |].
  exact (hashPayload_hash_shape _ _ _ _ _ H).
Defined.

(** One second read in two locations. *)
Lemma signing_dates_witness :
  signRequest "GET" "test-region" "test-host" "/test-bucket/k" "test-access-key"
    "test-secret-key" emptyHash
    (Time_UTC {| Unix := 1369353600; Nsec := 0; Offset := 0; Mono := Some 7 |})
  = signRequest "GET" "test-region" "test-host" "/test-bucket/k" "test-access-key"
      "test-secret-key" emptyHash
      (Time_UTC {| Unix := 1369353600; Nsec := 5; Offset := 3600; Mono := None |}).
Proof.
  exact (proj2 (proj2 (signing_dates "GET" "test-region" "test-host" "/test-bucket/k"
                         "test-access-key" "test-secret-key" emptyHash
                         {| Unix := 1369353600; Nsec := 0; Offset := 0; Mono := Some 7 |}
                         {| Unix := 1369353600; Nsec := 5; Offset := 3600; Mono := None |}
                         eq_refl))).
Defined.

(** The headers and the body of the PUT of the demo command, and of a PUT
    of a reader that was read to its end. *)
Lemma built_request_headers_witness :
  (exists req w',
     Bench.build Bench.client200 Bench.ctx "PUT" "demo.txt" (Some 0%nat)
       (Bench.world (Bench.reader "imapc" 0) EmptyString)
     = ((Some req, None), w')
     /\ is_Some (req_Header req !! "X-Amz-Date")
     /\ req_Body req = Some (body_of 0%nat))
  /\ (exists req w',
        Bench.build Bench.client200 Bench.ctx "PUT" "demo.txt" (Some 0%nat)
          (Bench.world (Bench.reader "imapc" 5) EmptyString)
        = ((Some req, None), w')
        /\ req_Body req = Some http_NoBody).
Proof.
  assert (Hobj : "demo.txt" <> EmptyString) by discriminate.
  split.
  - destruct (buildRequest_total PlainURL.Parse PlainURL.String PlainURL.Host
                Bench.client200 Bench.ctx "PUT" "demo.txt" (Some 0%nat)
                (Bench.world (Bench.reader "imapc" 0) EmptyString) _ Hobj eq_refl)
      as (req & w' & E); [intros l _; split; reflexivity |].
    exists req, w'. split; [exact E |].
    destruct (built_request_headers PlainURL.Parse PlainURL.String PlainURL.Host
                _ _ _ _ _ _ _ _ E) as (Hk & _ & _ & Hb).
    split; [apply Hk; auto | exact Hb].
  - destruct (buildRequest_total PlainURL.Parse PlainURL.String PlainURL.Host
                Bench.client200 Bench.ctx "PUT" "demo.txt" (Some 0%nat)
                (Bench.world (Bench.reader "imapc" 5) EmptyString) _ Hobj eq_refl)
      as (req & w' & E); [intros l _; split; reflexivity |].
    exists req, w'. split; [exact E |].
    destruct (built_request_headers PlainURL.Parse PlainURL.String PlainURL.Host
                _ _ _ _ _ _ _ _ E) as (_ & _ & _ & Hb).
    exact Hb.
Defined.

(** The first line of the demo log. *)
Lemma demo_logger_lines_witness :
  exists req w' e1 e2,
    Bench.build Bench.client200 Bench.ctx "PUT" "demo.txt" (Some 0%nat)
      (Bench.world (Bench.reader "imapc" 0) EmptyString)
    = ((Some req, None), w')
    /\ w_log w' = [e1; e2]
    /\ DemoPut.line e1
       = "debug msg > signing request  region|test-region|host|test-host|"
           +:+ "path|/test-bucket/demo.txt|access_key|test-access-key|now|*" +:+ LF.
Proof.
  assert (Hobj : "demo.txt" <> EmptyString) by discriminate.
  destruct (buildRequest_total PlainURL.Parse PlainURL.String PlainURL.Host
              Bench.client200 Bench.ctx "PUT" "demo.txt" (Some 0%nat)
              (Bench.world (Bench.reader "imapc" 0) EmptyString) _ Hobj eq_refl)
    as (req & w' & E); [intros l _; split; reflexivity |].
  destruct (demo_logger_lines PlainURL.Parse PlainURL.String PlainURL.Host
              _ _ _ _ _ _ _ _ E) as (e1 & e2 & Hl & H1 & _).
  exists req, w', e1, e2. split; [exact E |]. split; [exact Hl |].
  rewrite H1. reflexivity.
Defined.

(** The PUT of the demo command: one clock reading, and the header hash is
    the hash of the body that is sent. *)
Lemma signed_request_consistent_witness :
  exists req w',
    Bench.build Bench.client200 Bench.ctx "PUT" "demo.txt" (Some 0%nat)
      (Bench.world (Bench.reader "imapc" 0) EmptyString)
    = ((Some req, None), w')
    /\ w_ticks w' = 1%nat
    /\ Header_Get (req_Header req) "x-amz-content-sha256"
       = hex_EncodeToString (SHA256.Sum256 (body_bytes w' (req_Body req)))
    /\ req_ContentLength req = Z.of_nat (length (body_bytes w' (req_Body req))).
Proof.
  assert (Hobj : "demo.txt" <> EmptyString) by discriminate.
  destruct (buildRequest_total PlainURL.Parse PlainURL.String PlainURL.Host
              Bench.client200 Bench.ctx "PUT" "demo.txt" (Some 0%nat)
              (Bench.world (Bench.reader "imapc" 0) EmptyString) _ Hobj eq_refl)
    as (req & w' & E); [intros l _; split; reflexivity |].
  exists req, w'. split; [exact E |].
  pose proof (signed_request_consistent PlainURL.Parse PlainURL.String PlainURL.Host
                _ _ _ _ _ _ _ _ E) as H.
  cbv zeta in H. destruct H as (Ht & _ & _ & _ & _ & _ & Hb).
  split; [exact Ht |].
  destruct Hb as (_ & Hh & Hl); [intros l [= <-]; left; reflexivity |].
  split; [exact Hh | exact Hl].
Defined.

(** ** A nil payload, and the readings of the clock *)

Section NilPayloadAndClock.

Context {URL : Type}.
Variable url_Parse : string -> error + URL.
Variable url_String : URL -> string.
Variable url_Host : URL -> string.
Variable xml_Unmarshal : list byte -> error + s3Error.

Implicit Types (c : Client URL) (w : World URL) (req : Request URL).

Local Abbreviation build := (buildRequest url_Parse url_String url_Host).

(** X18. A request built without a payload source, for a PUT as for a GET,
    has no body, declares content length 0 and carries the hash of zero
    bytes; building it touches no payload source. So a PUT with a nil
    reader stores an empty object. *)
Theorem nil_payload_request c ctx method object w req w' :
  build c ctx method object None w = ((Some req, None), w') ->
  req_Body req = None
  /\ req_ContentLength req = 0
  /\ Header_Get (req_Header req) "x-amz-content-sha256"
     = "e3b0c44298fc1c149afbf4c8996fb92427ae41e4649b934ca495991b7852b855"
  /\ w_streams w' = w_streams w.
Proof.
  intros Hb.
  apply buildRequest_ok in Hb as (_ & u & hash & size & w2 & _ & Hh & -> & ->).
  rewrite hashPayload_nil in Hh. injection Hh as <- <- <-.
  cbn [req_Body req_ContentLength req_Header].
  split; [reflexivity |]. split; [reflexivity |]. split; [| reflexivity].
  apply signed_Header_get.
Qed.

(** X19. The clock is read once per request that is built and twice more
    when it is sent, so [Get] and [Put] read it never for a blank key, once
    when the request cannot be built, and three times when it is sent; the
    one reading of [buildRequest] is the time that is signed. *)
Theorem clock_readings c ctx object reader w :
  let readings (r : option (Request URL) * option error) : nat :=
    match r with
    | (Some _, None) => 3%nat
    | _ => if String.eqb object EmptyString then 0%nat else 1%nat
    end in
  w_ticks (snd (Get url_Parse url_String url_Host xml_Unmarshal c ctx object w))
  = (w_ticks w + readings (fst (build c ctx "GET" object None w)))%nat
  /\ w_ticks (snd (Put url_Parse url_String url_Host xml_Unmarshal c ctx object reader w))
     = (w_ticks w + readings (fst (build c ctx "PUT" object reader w)))%nat.
Proof.
  intros readings. subst readings. cbv beta.
  assert (Hne : forall method pyld req w1,
             build c ctx method object pyld w = ((Some req, None), w1) ->
             String.eqb object EmptyString = false).
  { intros method pyld req w1 Hb. apply String.eqb_neq. intros ->.
    rewrite buildRequest_blank in Hb. discriminate. }
  split.
  - pose proof (buildRequest_ticks url_Parse url_String url_Host c ctx "GET" object None w)
      as Ht.
    destruct (build c ctx "GET" object None w) as [[[req|] [e|]] w1] eqn:Hb;
      cbn [fst snd] in *;
      try (rewrite Get_eq, Hb; cbn [snd]; rewrite Ht;
           destruct (String.eqb object EmptyString); lia).
    rewrite (Hne _ _ _ _ Hb) in Ht.
    rewrite (Get_after_send url_Parse url_String url_Host xml_Unmarshal
               c ctx object w req w1 Hb).
    destruct (sendRequest_frame url_String xml_Unmarshal c ctx req w1) as (_ & Hs & _).
    cbv zeta in Hs. lia.
  - pose proof (buildRequest_ticks url_Parse url_String url_Host c ctx "PUT" object reader w)
      as Ht.
    destruct (build c ctx "PUT" object reader w) as [[[req|] [e|]] w1] eqn:Hb;
      cbn [fst snd] in *;
      try (rewrite Put_eq, Hb; cbn [snd]; rewrite Ht;
           destruct (String.eqb object EmptyString); lia).
    rewrite (Hne _ _ _ _ Hb) in Ht.
    destruct (Put_after_send url_Parse url_String url_Host xml_Unmarshal
                c ctx object reader w req w1 Hb) as (_ & Hp & _).
    destruct (sendRequest_frame url_String xml_Unmarshal c ctx req w1) as (_ & Hs & _).
    cbv zeta in Hp, Hs. lia.
Qed.

End NilPayloadAndClock.

(** A PUT with a nil reader. *)
Lemma nil_payload_request_witness :
  exists req w',
    Bench.build Bench.client200 Bench.ctx "PUT" "empty.txt" None
      (Bench.world (Bench.reader "imapc" 0) EmptyString)
    = ((Some req, None), w')
    /\ req_ContentLength req = 0
    /\ Header_Get (req_Header req) "x-amz-content-sha256" = emptyHash.
Proof.
  assert (Hobj : "empty.txt" <> EmptyString) by discriminate.
  destruct (buildRequest_total PlainURL.Parse PlainURL.String PlainURL.Host
              Bench.client200 Bench.ctx "PUT" "empty.txt" None
              (Bench.world (Bench.reader "imapc" 0) EmptyString) _ Hobj eq_refl)
    as (req & w' & E); [discriminate |].
  exists req, w'. split; [exact E |].
  destruct (nil_payload_request PlainURL.Parse PlainURL.String PlainURL.Host
              _ _ _ _ _ _ _ E) as (_ & Hl & Hh & _).
  split; [exact Hl | exact Hh].
Defined.
